(** * ASEG to CSV: the parsing and table-building core of [src/App.tsx]

    A shallow embedding of the pure part of the React component: the
    helpers [normalize], [stripExt], [splitByAny], [coerceNumber] and
    [parseSubjectTxt], and the closures [handleSubjectsInput],
    [resolveFileForId], [formatRowLabel] and [buildMatrix], whose
    component state ([subjectFiles], [participantsParsed], [idColumn],
    [rowLabelTemplate], [mergeCovariates]) is passed explicitly.

    Conventions.
    - A JavaScript string is a [string]: one [ascii] per UTF-16 code unit,
      so the embedding covers texts whose code units are below 256.
    - A plain object used as a dictionary is an association list of its own
      properties in creation order, read through [Object.prototype]: the
      lookups [o[k]] and [k in o] of the source see the inherited members.
    - Assigning an object to the key [__proto__] of a dictionary replaces its
      prototype.  [subjectFiles] and [parsedById], whose values are objects,
      are kept as a [Dict]: the own properties and the object that became
      the prototype, if any; they are read through that object.
    - A Number is kept as the exact decimal value of the literal it was
      read from; the engine rounds it to the nearest double, and its
      rendering [Number.prototype.toString] is a parameter of the build.
    - [await file.text()] is the field [text] of a [File]; an exception
      that escapes [buildMatrix] is the outcome [Failed TypeError].
    - The source is an ECMAScript module, hence strict code: an assignment
      that fails throws a [TypeError]. *)

From Stdlib Require Import String Ascii List ZArith Bool Lia Arith DecimalString.
Import ListNotations.
Open Scope string_scope.
Open Scope list_scope.
Open Scope nat_scope.

(** ** Code units and white space *)

Definition code (c : ascii) : nat := nat_of_ascii c.

(** The characters matched by [\s] and removed by [String.prototype.trim]
    (WhiteSpace and LineTerminator) among the code units below 256:
    TAB, LF, VT, FF, CR, SPACE and NO-BREAK SPACE. *)
Definition isWhiteSpace (c : ascii) : bool :=
  let n := code c in
  ((9 <=? n) && (n <=? 13)) || (n =? 32) || (n =? 160).

Definition isDigit (c : ascii) : bool :=
  let n := code c in (48 <=? n) && (n <=? 57).

(** [\w] without the [u] flag: ASCII letters, digits and underscore. *)
Definition isWordChar (c : ascii) : bool :=
  let n := code c in
  isDigit c || ((65 <=? n) && (n <=? 90)) || ((97 <=? n) && (n <=? 122))
  || (n =? 95).

(** Case folding of the [i] flag on the ASCII letters of the pattern. *)
Definition toLowerAscii (c : ascii) : ascii :=
  let n := code c in
  if (65 <=? n) && (n <=? 90) then ascii_of_nat (n + 32) else c.

Definition isEmpty (s : string) : bool :=
  match s with EmptyString => true | String _ _ => false end.

(** Truthiness of a string: [Boolean(s)], [if (s)], [s && ...]. *)
Definition truthy (s : string) : bool := negb (isEmpty s).

(** ** String primitives *)

Fixpoint trimStart (s : string) : string :=
  match s with
  | EmptyString => EmptyString
  | String c r => if isWhiteSpace c then trimStart r else s
  end.

Fixpoint trimEnd (s : string) : string :=
  match s with
  | EmptyString => EmptyString
  | String c r =>
      let r' := trimEnd r in
      if isWhiteSpace c && isEmpty r' then EmptyString else String c r'
  end.

(** [s.trim()] *)
Definition trim (s : string) : string := trimEnd (trimStart s).

Fixpoint take (n : nat) (s : string) : string :=
  match n, s with
  | S n', String c r => String c (take n' r)
  | _, _ => EmptyString
  end.

Fixpoint drop (n : nat) (s : string) : string :=
  match n, s with
  | S n', String _ r => drop n' r
  | _, _ => s
  end.

(** [s.indexOf(c)] for a one-character needle: [-1] when absent. *)
Fixpoint indexOf (c : ascii) (s : string) : Z :=
  match s with
  | EmptyString => (-1)%Z
  | String d r =>
      if Ascii.eqb d c then 0%Z
      else let i := indexOf c r in
           if (i <? 0)%Z then (-1)%Z else (i + 1)%Z
  end.

Fixpoint contains (c : ascii) (s : string) : bool :=
  match s with
  | EmptyString => false
  | String d r => Ascii.eqb d c || contains c r
  end.

(** Pushes a character on the field being read by a splitter. *)
Definition consHead (c : ascii) (fields : list string) : list string :=
  match fields with
  | [] => [String c EmptyString]
  | h :: t => String c h :: t
  end.

(** [s.split(sep)] for a one-character separator. *)
Fixpoint splitChar (sep : ascii) (s : string) : list string :=
  match s with
  | EmptyString => [EmptyString]
  | String c r =>
      if Ascii.eqb c sep then EmptyString :: splitChar sep r
      else consHead c (splitChar sep r)
  end.

(** [s.split(/\s{2,}|\s+/)]: at the first character of a white-space run
    the first alternative takes the whole run when it has two characters
    or more, and the second takes it otherwise; [inRun] says that the
    previous character belonged to the separator being consumed. *)
Fixpoint splitWhiteSpaceFrom (inRun : bool) (s : string) : list string :=
  match s with
  | EmptyString => [EmptyString]
  | String c r =>
      if isWhiteSpace c then
        if inRun then splitWhiteSpaceFrom true r
        else EmptyString :: splitWhiteSpaceFrom true r
      else consHead c (splitWhiteSpaceFrom false r)
  end.

Definition splitWhiteSpace (s : string) : list string :=
  splitWhiteSpaceFrom false s.

(** [text.split(/\r?\n/)] *)
Fixpoint splitLines (text : string) : list string :=
  match text with
  | EmptyString => [EmptyString]
  | String c r =>
      if Ascii.eqb c "010" then EmptyString :: splitLines r
      else
        match r with
        | String d r' =>
            if Ascii.eqb c "013" && Ascii.eqb d "010"
            then EmptyString :: splitLines r'
            else consHead c (splitLines r)
        | EmptyString => consHead c (splitLines r)
        end
  end.

(** [parts.join(sep)] *)
Fixpoint join (sep : string) (parts : list string) : string :=
  match parts with
  | [] => EmptyString
  | [p] => p
  | p :: rest => (p ++ sep ++ join sep rest)%string
  end.

Fixpoint startsWith (p s : string) : bool :=
  match p, s with
  | EmptyString, _ => true
  | String a p', String b s' => Ascii.eqb a b && startsWith p' s'
  | String _ _, EmptyString => false
  end.

(** ** The helpers of [App.tsx] *)

(** [normalize] on a string argument: [String(s || '').trim()]. *)
Definition normalize (s : string) : string := trim s.

Fixpoint noDot (s : string) : bool :=
  match s with
  | EmptyString => true
  | String c r => negb (Ascii.eqb c ".") && noDot r
  end.

(** [name.replace(/\.[^.]+$/, '')]: the leftmost position at which the
    pattern matches is a dot followed, up to the end of the name, by one
    or more characters none of which is a dot; the match is removed. *)
Fixpoint stripExt (name : string) : string :=
  match name with
  | EmptyString => EmptyString
  | String c r =>
      if Ascii.eqb c "." && truthy r && noDot r then EmptyString
      else String c (stripExt r)
  end.

Definition splitByAny (line : string) : list string :=
  let tab := splitChar "009" line in
  if (1 <? List.length tab)%nat then tab
  else
    let csv := splitChar "," line in
    if (1 <? List.length csv)%nat then csv
    else splitWhiteSpace (trim line).

(** ** Numbers

    [Number(s)] reads a StringNumericLiteral.  The value read is kept
    exactly, as [mantissa * 10 ^ exponent]; the Number the engine stores
    is the double nearest to it (ties to even), and [Infinity] once the
    value reaches [2^1024 - 2^970], half way between the largest double
    and [2^1024].  This is the rounding engines implement; ECMAScript
    also lets a literal of more than twenty significant digits be rounded
    from its first twenty. *)

Record Decimal := { mantissa : Z; exponent : Z }.

Inductive JSNumber :=
| NaN
| Infinity (negative : bool)
| Finite (d : Decimal).

Definition digitValue (c : ascii) : option Z :=
  let n := code c in
  if (48 <=? n) && (n <=? 57) then Some (Z.of_nat (n - 48))
  else if (97 <=? n) && (n <=? 102) then Some (Z.of_nat (n - 87))
  else if (65 <=? n) && (n <=? 70) then Some (Z.of_nat (n - 55))
  else None.

(** The value of a run of digits of the given base, read after [acc];
    [None] when a character is not a digit of that base. *)
Fixpoint readDigits (base acc : Z) (s : string) : option Z :=
  match s with
  | EmptyString => Some acc
  | String c r =>
      match digitValue c with
      | Some d => if (d <? base)%Z then readDigits base (acc * base + d) r
                  else None
      | None => None
      end
  end.

(** DecimalDigits: one digit or more. *)
Definition readDecimalDigits (s : string) : option Z :=
  if isEmpty s then None else readDigits 10 0 s.

(** The longest prefix of decimal digits, and what follows it. *)
Fixpoint spanDigits (s : string) : string * string :=
  match s with
  | EmptyString => (EmptyString, EmptyString)
  | String c r =>
      if isDigit c then let (d, rest) := spanDigits r in (String c d, rest)
      else (EmptyString, s)
  end.

(** ExponentPart, or nothing. *)
Definition readExponent (s : string) : option Z :=
  match s with
  | EmptyString => Some 0%Z
  | String c r =>
      if Ascii.eqb c "e" || Ascii.eqb c "E" then
        match r with
        | String "+" r' => readDecimalDigits r'
        | String "-" r' => option_map Z.opp (readDecimalDigits r')
        | _ => readDecimalDigits r
        end
      else None
  end.

(** StrUnsignedDecimalLiteral, [Infinity] apart. *)
Definition readUnsignedDecimal (s : string) : option Decimal :=
  let (ip, r1) := spanDigits s in
  match r1 with
  | String "." r2 =>
      let (fp, r3) := spanDigits r2 in
      if isEmpty ip && isEmpty fp then None
      else
        match readDigits 10 0 (ip ++ fp), readExponent r3 with
        | Some m, Some e =>
            Some {| mantissa := m;
                    exponent := (e - Z.of_nat (String.length fp))%Z |}
        | _, _ => None
        end
  | _ =>
      match readDecimalDigits ip, readExponent r1 with
      | Some m, Some e => Some {| mantissa := m; exponent := e |}
      | _, _ => None
      end
  end.

(** NonDecimalIntegerLiteral: [0x], [0o] or [0b] (either case) and digits. *)
Definition readNonDecimal (s : string) : option Z :=
  match s with
  | String "0" (String p r) =>
      let base :=
        if Ascii.eqb p "x" || Ascii.eqb p "X" then Some 16%Z
        else if Ascii.eqb p "o" || Ascii.eqb p "O" then Some 8%Z
        else if Ascii.eqb p "b" || Ascii.eqb p "B" then Some 2%Z
        else None in
      match base with
      | Some b => if isEmpty r then None else readDigits b 0 r
      | None => None
      end
  | _ => None
  end.

Definition doubleOverflowBound : Z := (2 ^ 1024 - 2 ^ 970)%Z.

Definition overflows (d : Decimal) : bool :=
  let a := Z.abs (mantissa d) in
  if (a =? 0)%Z then false
  else if (0 <=? exponent d)%Z
       then (doubleOverflowBound <=? a * 10 ^ exponent d)%Z
       else (doubleOverflowBound * 10 ^ (- exponent d) <=? a)%Z.

Definition toNumber (negative : bool) (d : Decimal) : JSNumber :=
  if overflows d then Infinity negative
  else Finite {| mantissa := if negative then (- mantissa d)%Z else mantissa d;
                 exponent := exponent d |}.

(** StrDecimalLiteral: an optional sign, then [Infinity] or digits. *)
Definition readStrDecimal (s : string) : JSNumber :=
  let (negative, u) :=
    match s with
    | String "+" r => (false, r)
    | String "-" r => (true, r)
    | _ => (false, s)
    end in
  if String.eqb u "Infinity" then Infinity negative
  else match readUnsignedDecimal u with
       | Some d => toNumber negative d
       | None => NaN
       end.

(** [Number(s)] *)
Definition Number_ (s : string) : JSNumber :=
  let t := trim s in
  if isEmpty t then Finite {| mantissa := 0; exponent := 0 |}
  else match readNonDecimal t with
       | Some n => toNumber false {| mantissa := n; exponent := 0 |}
       | None => readStrDecimal t
       end.

(** [number | string], the type of a metric value. *)
Inductive JSValue :=
| VNum (d : Decimal)
| VStr (s : string).

(** [coerceNumber]; the argument [v] stands for the text [String(v ?? '')]
    of the value passed, which is the value itself at both call sites.  Of
    [Number.isFinite(num) ? num : s] the first branch is [Finite]. *)
Definition coerceNumber (v : string) : JSValue :=
  let s := trim v in
  if String.eqb s "" then VStr ""
  else match Number_ s with
       | Finite d => VNum d
       | NaN | Infinity _ => VStr s
       end.


(** ** Plain objects used as dictionaries

    [{}] inherits from [Object.prototype].  The own properties are kept in
    creation order; reading [o[k]] and testing [k in o] fall back on the
    members every plain object inherits. *)

Definition Object_prototype_names : list string :=
  [ "constructor"; "__defineGetter__"; "__defineSetter__"; "hasOwnProperty";
    "__lookupGetter__"; "__lookupSetter__"; "isPrototypeOf";
    "propertyIsEnumerable"; "toString"; "valueOf"; "__proto__";
    "toLocaleString" ].

Definition inherited (k : string) : bool :=
  existsb (String.eqb k) Object_prototype_names.

(** The result of reading [o[k]]: an own property, a member of
    [Object.prototype] (a function, or the prototype itself for
    [__proto__]), or [undefined]. *)
Inductive Lookup (V : Type) :=
| Own (v : V)
| Inherited (k : string)
| Undefined.
Arguments Own {V} v.
Arguments Inherited {V} k.
Arguments Undefined {V}.

Section PlainObject.
Context {V : Type}.

Definition JSObject := list (string * V).

Fixpoint getOwn (k : string) (o : JSObject) : option V :=
  match o with
  | [] => None
  | (k', v) :: rest => if String.eqb k' k then Some v else getOwn k rest
  end.

(** [o[k]] *)
Definition get (k : string) (o : JSObject) : Lookup V :=
  match getOwn k o with
  | Some v => Own v
  | None => if inherited k then Inherited k else Undefined
  end.

Definition hasOwn (k : string) (o : JSObject) : bool :=
  match getOwn k o with Some _ => true | None => false end.

(** [k in o] *)
Definition hasProperty (k : string) (o : JSObject) : bool :=
  hasOwn k o || inherited k.

(** Writes an own property: an existing one keeps its place, a new one
    is created after the others. *)
Fixpoint putOwn (k : string) (v : V) (o : JSObject) : JSObject :=
  match o with
  | [] => [(k, v)]
  | (k', v') :: rest =>
      if String.eqb k' k then (k', v) :: rest
      else (k', v') :: putOwn k v rest
  end.

(** [o[k] = v] for a primitive [v]: the inherited data properties are
    writable, so the assignment creates or updates an own property,
    except on [__proto__], whose setter ignores a value that is neither
    an object nor [null]. *)
Definition assign (k : string) (v : V) (o : JSObject) : JSObject :=
  if String.eqb k "__proto__" then o else putOwn k v o.
End PlainObject.
Arguments JSObject V : clear implicits.

(** [Object.keys(o)] lists the array indices in ascending order, then the
    other keys in creation order.  An array index is the canonical decimal
    string of an integer below [2^32 - 1]. *)
Definition arrayIndex (k : string) : option Z :=
  match k with
  | EmptyString => None
  | String c r =>
      if isEmpty r || negb (Ascii.eqb c "0") then
        match readDigits 10 0 k with
        | Some n => if (n <? 4294967295)%Z then Some n else None
        | None => None
        end
      else None
  end.

Fixpoint insertIndex (n : Z) (k : string) (l : list (Z * string))
  : list (Z * string) :=
  match l with
  | [] => [(n, k)]
  | (m, j) :: rest =>
      if (n <=? m)%Z then (n, k) :: l else (m, j) :: insertIndex n k rest
  end.

Fixpoint indexKeys (ks : list string) : list (Z * string) :=
  match ks with
  | [] => []
  | k :: rest =>
      match arrayIndex k with
      | Some n => insertIndex n k (indexKeys rest)
      | None => indexKeys rest
      end
  end.

Definition isArrayIndex (k : string) : bool :=
  match arrayIndex k with Some _ => true | None => false end.

Definition Object_keys {V : Type} (o : JSObject V) : list string :=
  let ks := map fst o in
  map snd (indexKeys ks) ++ filter (fun k => negb (isArrayIndex k)) ks.

(** ** Parsing one subject file *)

Definition SubjectMetrics := JSObject JSValue.

Record ParsedSubject := { metrics : SubjectMetrics; order : list string }.

(** The two statements that end both branches of the loop body:
    [if (k && !(k in metrics)) order.push(k)] and
    [if (k) metrics[k] = v]. *)
Definition recordMetric (k : string) (v : JSValue) (p : ParsedSubject)
  : ParsedSubject :=
  let order' :=
    if truthy k && negb (hasProperty k (metrics p)) then order p ++ [k]
    else order p in
  let metrics' := if truthy k then assign k v (metrics p) else metrics p in
  {| metrics := metrics'; order := order' |}.

Fixpoint mapString (f : ascii -> ascii) (s : string) : string :=
  match s with
  | EmptyString => EmptyString
  | String c r => String (f c) (mapString f r)
  end.

(** [/^Measure:volume\b/i.test(line)]: the label in either case, followed
    by the end of the line or by a character that is not a word
    character. *)
Definition isHeaderMarker (line : string) : bool :=
  let n := String.length "measure:volume" in
  String.eqb (mapString toLowerAscii (take n line)) "measure:volume"
  && match drop n line with
     | EmptyString => true
     | String c _ => negb (isWordChar c)
     end.

(** The body of [for (const line of lines)]. *)
Definition parseLine (p : ParsedSubject) (line : string) : ParsedSubject :=
  if isEmpty line then p
  else if isHeaderMarker line then p
  else
    let c := indexOf ":" line in
    if (0 <? c)%Z then
      let k := trim (take (Z.to_nat c) line) in
      let v := trim (drop (Z.to_nat (c + 1)) line) in
      recordMetric k (coerceNumber v) p
    else
      let parts := splitByAny line in
      if 2 <=? List.length parts then
        let val := last parts "" in
        let key := join " " (removelast parts) in
        recordMetric key (coerceNumber val) p
      else p.

(** [text.split(/\r?\n/).map(l => l.trim()).filter(Boolean)] *)
Definition linesOf (text : string) : list string :=
  filter truthy (map trim (splitLines text)).

Definition emptySubject : ParsedSubject := {| metrics := []; order := [] |}.

Definition parseSubjectTxt (text : string) : ParsedSubject :=
  fold_left parseLine (linesOf text) emptySubject.

(** ** The uploaded files *)

Record File := { name : string; text : string }.

(** A dictionary whose values are objects.  It starts as [{}].  The
    assignment [o[k] = v] creates or updates an own property, except on
    the key [__proto__]: unless [o] has an own property of that name, the
    setter inherited from [Object.prototype] makes the object [v] the
    prototype of [o].  [parent] is that object; it is [None] as long as
    the prototype is [Object.prototype]. *)
Record Dict (V : Type) := { own : JSObject V; parent : option V }.
Arguments Build_Dict {V} own parent.
Arguments own {V} d.
Arguments parent {V} d.

(** [{}] *)
Definition emptyDict {V : Type} : Dict V := {| own := []; parent := None |}.

(** [o[k] = v] for an object [v], where no inherited accessor other than
    [__proto__] is in the way. *)
Definition assignObject {V : Type} (k : string) (v : V) (o : Dict V) : Dict V :=
  if String.eqb k "__proto__" && negb (hasOwn k (own o))
  then {| own := own o; parent := Some v |}
  else {| own := putOwn k v (own o); parent := parent o |}.

Definition SubjectMap := Dict File.

(** What a [File] inherits from [File.prototype] and [Blob.prototype]
    (File API, and File and Directory Entries API for
    [webkitRelativePath]).  The attributes are accessors without setter,
    whose getter throws a [TypeError] when it is called on an object that
    is not a [File]; the other members are writable data properties
    that hold functions. *)
Definition File_attribute_names : list string :=
  [ "name"; "lastModified"; "webkitRelativePath"; "size"; "type" ].

Definition File_method_names : list string :=
  [ "constructor"; "slice"; "stream"; "text"; "arrayBuffer"; "bytes" ].

Definition fileAttribute (k : string) : bool :=
  existsb (String.eqb k) File_attribute_names.

Definition fileMethod (k : string) : bool :=
  existsb (String.eqb k) File_method_names.

(** What [subjectFiles[k]] evaluates to, and what [resolveFileForId]
    returns. *)
Inductive Resolved :=
| Uploaded (f : File)   (* a file: an own property, or the file that became
                           the prototype, read under [__proto__] *)
| Member (k : string)   (* the inherited member [k], which is no file: a
                           built-in function, or [Object.prototype] itself
                           under [__proto__] *)
| Raised                (* a TypeError: the getter of an attribute of
                           [File], called on the dictionary *)
| NotFound.             (* [undefined] *)

(** [subjectFiles[k]]: the own property, or what is found along the
    prototype chain: the file that became the prototype, then
    [File.prototype] and [Blob.prototype], then [Object.prototype], whose
    getter [__proto__] gives the prototype of the dictionary. *)
Definition getFile (k : string) (subjectFiles : SubjectMap) : Resolved :=
  match getOwn k (own subjectFiles) with
  | Some f => Uploaded f
  | None =>
      match parent subjectFiles with
      | Some f =>
          if fileAttribute k then Raised
          else if fileMethod k then Member k
          else if String.eqb k "__proto__" then Uploaded f
          else if inherited k then Member k
          else NotFound
      | None => if inherited k then Member k else NotFound
      end
  end.

(** [map[k] = f].  An own property is updated; otherwise the assignment
    goes up the prototype chain: on [__proto__] it replaces the prototype,
    on an attribute inherited from [File] it throws a [TypeError] ([None]),
    since the accessor has no setter; in every other case it creates an
    own property. *)
Definition assignFile (k : string) (f : File) (map : SubjectMap)
  : option SubjectMap :=
  if hasOwn k (own map) then Some (assignObject k f map)
  else
    match parent map with
    | Some _ => if fileAttribute k then None else Some (assignObject k f map)
    | None => Some (assignObject k f map)
    end.

(** The body of the loop of [handleSubjectsInput]. *)
Definition indexFile (map : option SubjectMap) (f : File)
  : option SubjectMap :=
  match map with
  | None => None
  | Some m =>
      let full := normalize (name f) in
      let base := stripExt full in
      match assignFile full f m with
      | None => None
      | Some m' => assignFile base f m'
      end
  end.

(** [handleSubjectsInput]: the dictionary given to [setSubjectFiles];
    [None] when a [TypeError] escapes, in which case [setSubjectFiles] is
    not called. *)
Definition handleSubjectsInput (files : option (list File))
  : option SubjectMap :=
  match files with
  | None => Some emptyDict
  | Some fs => fold_left indexFile fs (Some emptyDict)
  end.

(** [resolveFileForId]: the first variant under which [subjectFiles] has
    a truthy value, own or inherited; files, functions and prototypes are
    truthy. *)
Fixpoint firstTruthy (subjectFiles : SubjectMap) (variants : list string)
  : Resolved :=
  match variants with
  | [] => NotFound
  | k :: rest =>
      match getFile k subjectFiles with
      | NotFound => firstTruthy subjectFiles rest
      | found => found
      end
  end.

Definition variantsOf (idRaw : string) : list string :=
  let id := normalize idRaw in
  let base := stripExt id in
  [id; base; (base ++ ".txt")%string].

Definition resolveFileForId (subjectFiles : SubjectMap) (idRaw : string)
  : Resolved :=
  firstTruthy subjectFiles (variantsOf idRaw).

(** ** Row labels *)

(** GetSubstitution for a pattern without capture groups: [$$], [$&],
    [$`] and [$'] are expanded, any other [$] stands for itself. *)
Fixpoint getSubstitution (matched before after template : string) : string :=
  match template with
  | EmptyString => EmptyString
  | String c r =>
      if Ascii.eqb c "$" then
        match r with
        | EmptyString => String c EmptyString
        | String d r' =>
            let rest := getSubstitution matched before after r' in
            if Ascii.eqb d "$" then String "$" rest
            else if Ascii.eqb d "&" then (matched ++ rest)%string
            else if Ascii.eqb d "`" then (before ++ rest)%string
            else if Ascii.eqb d "'" then (after ++ rest)%string
            else String c (String d rest)
        end
      else String c (getSubstitution matched before after r)
  end.

(** [whole.replace(/pat/g, repl)] for a literal, non-empty [pat]; [s] is
    [whole] from position [pos] on, and [skip] counts the characters of a
    match still to pass over. *)
Fixpoint replaceFrom (pat repl whole : string) (pos skip : nat) (s : string)
  : string :=
  match s with
  | EmptyString => EmptyString
  | String c r =>
      match skip with
      | S k => replaceFrom pat repl whole (S pos) k r
      | O =>
          if startsWith pat s then
            (getSubstitution pat (take pos whole)
               (drop (pos + String.length pat) whole) repl
             ++ replaceFrom pat repl whole (S pos) (String.length pat - 1) r)%string
          else String c (replaceFrom pat repl whole (S pos) 0 r)
      end
  end.

Definition replaceAll (pat repl whole : string) : string :=
  replaceFrom pat repl whole 0 0 whole.

Definition formatRowLabel (rowLabelTemplate idRaw : string) : string :=
  let id := normalize idRaw in
  let base := stripExt id in
  replaceAll "{base}" base (replaceAll "{id}" id rowLabelTemplate).

(** ** The roster *)

Definition Row := JSObject string.

(** The result of [Papa.parse]: [data] and [meta.fields]. *)
Record ParsedTable := { data : list Row; fields : option (list string) }.

(** The text of an inherited member, as [String(m)] and [m.toString()]
    give it: [Object.prototype] itself under [__proto__], a built-in
    function otherwise (printed as V8 and JavaScriptCore do). *)
Definition memberText (k : string) : string :=
  if String.eqb k "__proto__" then "[object Object]"
  else
    let fname := if String.eqb k "constructor" then "Object" else k in
    ("function " ++ fname ++ "() { [native code] }")%string.

(** [normalize(r[idColumn])]: [String(s || '').trim()] on what the row
    holds under the identifier column. *)
Definition normalizeField (x : Lookup string) : string :=
  match x with
  | Own s => trim s
  | Inherited k => trim (memberText k)
  | Undefined => trim ""
  end.

(** [(rec[c] ?? '').toString()] *)
Definition covariateCell (x : Lookup string) : string :=
  match x with
  | Own s => s
  | Inherited k => memberText k
  | Undefined => ""
  end.

(** ** Building the matrix *)

Record Matrix := { header : list string; rows : list (list string) }.

(** An exception that escapes [buildMatrix]. *)
Inductive Failure :=
| TypeError.

(** What a call of [buildMatrix] leaves: the value it resolves to and the
    list given to the last [setWarnings], or a failure. *)
Inductive Outcome :=
| Returned (m : Matrix) (warnings : list string)
| Failed (e : Failure).

Definition emptyMatrix : Matrix := {| header := []; rows := [] |}.

Record Collected := {
  warningsLocal : list string;
  parsedById : Dict ParsedSubject;
  canonicalOrder : option (list string)
}.

(** [pRows.map(r => normalize(r[idColumn])).filter(Boolean)] *)
Definition subjectsOrderOf (pRows : list Row) (idColumn : string)
  : list string :=
  filter truthy (map (fun r => normalizeField (get idColumn r)) pRows).

(** The body of the first loop over [subjectsOrder]. *)
Definition collectSubject (subjectFiles : SubjectMap)
  (acc : Failure + Collected) (sid : string) : Failure + Collected :=
  match acc with
  | inl e => inl e
  | inr st =>
      match resolveFileForId subjectFiles sid with
      | NotFound =>
          inr {| warningsLocal :=
                   warningsLocal st ++ [("Missing file for ID: " ++ sid)%string];
                 parsedById := parsedById st;
                 canonicalOrder := canonicalOrder st |}
      | Raised => inl TypeError
      | Member _ => inl TypeError   (* [file.text] is not a function *)
      | Uploaded file =>
          let parsed := parseSubjectTxt (text file) in
          inr {| warningsLocal := warningsLocal st;
                 parsedById := assignObject sid parsed (parsedById st);
                 canonicalOrder :=
                   match canonicalOrder st with
                   | Some c => Some c
                   | None =>
                       if 0 <? List.length (order parsed)
                       then Some (order parsed) else None
                   end |}
      end
  end.

(** What [parsedById[sid]] evaluates to. *)
Inductive Parsed :=
| ARecord (p : ParsedSubject)     (* a record: an own property, or the
                                     record that became the prototype, read
                                     under [__proto__] *)
| ItsMetrics (m : SubjectMetrics) (* the [metrics] of the record that became
                                     the prototype *)
| ItsOrder (o : list string)      (* its [order] *)
| AMember (k : string)            (* a member of [Object.prototype] *)
| NoRecord.                       (* [undefined] *)

(** [parsedById[sid]]: the own property, or what is found along the
    prototype chain: the own properties [metrics] and [order] of the
    record that became the prototype, then [Object.prototype]. *)
Definition getRecord (sid : string) (byId : Dict ParsedSubject) : Parsed :=
  match getOwn sid (own byId) with
  | Some p => ARecord p
  | None =>
      match parent byId with
      | Some p =>
          if String.eqb sid "metrics" then ItsMetrics (metrics p)
          else if String.eqb sid "order" then ItsOrder (order p)
          else if String.eqb sid "__proto__" then ARecord p
          else if inherited sid then AMember sid
          else NoRecord
      | None => if inherited sid then AMember sid else NoRecord
      end
  end.

(** [if (!seen.has(k)) { seen.add(k); metricCols.push(k) }] on the pair
    of [metricCols] and [seen]. *)
Definition addUnseen (acc : list string * list string) (k : string)
  : list string * list string :=
  let (metricCols, seen) := acc in
  if existsb (String.eqb k) seen then acc
  else (metricCols ++ [k], seen ++ [k]).

(** [for (const k of s)] on a string: its code points, one string each. *)
Fixpoint characters (s : string) : list string :=
  match s with
  | EmptyString => []
  | String c r => String c EmptyString :: characters r
  end.

(** [Object.keys(s)] on a string: its indices, in ascending order. *)
Definition indexText (i : nat) : string :=
  NilZero.string_of_uint (Nat.to_uint i).

Definition indices (s : string) : list string :=
  map indexText (seq 0 (String.length s)).

(** The body of the second loop.  [p] is a record, or a value that is
    not one: [for ... of] refuses [undefined] and a Number, which is what
    [p.order] is on a function, on [Object.prototype], on an array and on
    a mapping without a text under [order]; on a mapping, whose
    properties [order] and [metrics] are own or absent, it walks the
    characters of the text under [order], and [Object.keys] gives the
    indices of a text, nothing for a Number, and refuses [undefined]. *)
Definition unifySubject (byId : Dict ParsedSubject)
  (acc : Failure + list string * list string) (sid : string)
  : Failure + list string * list string :=
  match acc with
  | inl e => inl e
  | inr cols =>
      match getRecord sid byId with
      | NoRecord => inr cols
      | ARecord p =>
          inr (fold_left addUnseen (Object_keys (metrics p))
                 (fold_left addUnseen (order p) cols))
      | ItsMetrics m =>
          match getOwn "order" m with
          | Some (VStr s) =>
              let cols' := fold_left addUnseen (characters s) cols in
              match getOwn "metrics" m with
              | Some (VStr t) => inr (fold_left addUnseen (indices t) cols')
              | Some (VNum _) => inr cols'
              | None => inl TypeError
              end
          | Some (VNum _) | None => inl TypeError
          end
      | ItsOrder _ | AMember _ => inl TypeError
      end
  end.

(** The Number is falsy: the double nearest to the value read is zero,
    which is the case of zero and of the values up to [2^-1075], half the
    smallest double. *)
Definition roundsToZero (d : Decimal) : bool :=
  let a := Z.abs (mantissa d) in
  (a =? 0)%Z
  || ((exponent d <? 0)%Z && (a * 2 ^ 1075 <=? 10 ^ (- exponent d))%Z).

(** The value of [p?.metrics || {}]: a plain object, or a truthy
    primitive value, which is read as an object of its kind. *)
Inductive MetricsSource :=
| Mapping (m : SubjectMetrics)
| Primitive (v : JSValue).

Definition metricsOf (x : Parsed) : MetricsSource :=
  match x with
  | ARecord p => Mapping (metrics p)
  | ItsMetrics m =>
      match getOwn "metrics" m with
      | Some (VNum d) => if roundsToZero d then Mapping [] else Primitive (VNum d)
      | Some (VStr s) => if isEmpty s then Mapping [] else Primitive (VStr s)
      | None => Mapping []
      end
  | ItsOrder _ | AMember _ | NoRecord => Mapping []
  end.

(** The text of a built-in function, as V8 and JavaScriptCore print it. *)
Definition functionText (fname : string) : string :=
  ("function " ++ fname ++ "() { [native code] }")%string.

(** The properties of [Number.prototype] and of [String.prototype]
    (ECMAScript 2024, Annex B included). *)
Definition Number_prototype_names : list string :=
  [ "constructor"; "toExponential"; "toFixed"; "toLocaleString";
    "toPrecision"; "toString"; "valueOf" ].

Definition String_prototype_names : list string :=
  [ "constructor"; "at"; "charAt"; "charCodeAt"; "codePointAt"; "concat";
    "endsWith"; "includes"; "indexOf"; "isWellFormed"; "lastIndexOf";
    "localeCompare"; "match"; "matchAll"; "normalize"; "padEnd"; "padStart";
    "repeat"; "replace"; "replaceAll"; "search"; "slice"; "split";
    "startsWith"; "substring"; "toLocaleLowerCase"; "toLocaleUpperCase";
    "toLowerCase"; "toString"; "toUpperCase"; "toWellFormed"; "trim";
    "trimEnd"; "trimStart"; "valueOf"; "substr"; "anchor"; "big"; "blink";
    "bold"; "fixed"; "fontcolor"; "fontsize"; "italics"; "link"; "small";
    "strike"; "sub"; "sup"; "trimLeft"; "trimRight" ].

(** The name of the function held by a property of [String.prototype]:
    [trimLeft] and [trimRight] hold the functions of [trimStart] and
    [trimEnd]. *)
Definition stringFunctionName (k : string) : string :=
  if String.eqb k "constructor" then "String"
  else if String.eqb k "trimLeft" then "trimStart"
  else if String.eqb k "trimRight" then "trimEnd"
  else k.

(** The integer of which [k] is the canonical decimal text, if any. *)
Definition integerIndex (k : string) : option Z :=
  match k with
  | EmptyString => None
  | String c r =>
      if isEmpty r || negb (Ascii.eqb c "0") then readDigits 10 0 k else None
  end.

Section Build.
(** [Number.prototype.toString], the engine's rendering of a double. *)
Variable Number_toString : Decimal -> string.

(** [(metrics[k] ?? '').toString()] on a plain object. *)
Definition metricCell (x : Lookup JSValue) : string :=
  match x with
  | Own (VNum d) => Number_toString d
  | Own (VStr s) => s
  | Inherited k => memberText k
  | Undefined => ""
  end.

(** [(n[k] ?? '').toString()] on a Number [n]: a function of
    [Number.prototype], else a member of [Object.prototype], whose getter
    [__proto__] gives [Number.prototype], a Number object of value zero. *)
Definition numberCell (k : string) : string :=
  if existsb (String.eqb k) Number_prototype_names
  then functionText (if String.eqb k "constructor" then "Number" else k)
  else if String.eqb k "__proto__"
       then Number_toString {| mantissa := 0; exponent := 0 |}
  else if inherited k then memberText k
  else "".

(** What [(s[k] ?? '').toString()] finds along the prototype chain of a
    String: a function of [String.prototype], else a member of
    [Object.prototype], whose getter [__proto__] gives [String.prototype],
    a String object of value the empty string. *)
Definition stringMemberCell (k : string) : string :=
  if existsb (String.eqb k) String_prototype_names
  then functionText (stringFunctionName k)
  else if String.eqb k "__proto__" then ""
  else if inherited k then memberText k
  else "".

(** [(s[k] ?? '').toString()] on a String [s]: its length, the character
    at an index below the length, or an inherited member. *)
Definition stringCell (s k : string) : string :=
  if String.eqb k "length"
  then Number_toString {| mantissa := Z.of_nat (String.length s);
                          exponent := 0 |}
  else
    match integerIndex k with
    | Some i =>
        if (i <? Z.of_nat (String.length s))%Z
        then take 1 (drop (Z.to_nat i) s)
        else stringMemberCell k
    | None => stringMemberCell k
    end.

(** [(metrics[k] ?? '').toString()] *)
Definition cellOf (ms : MetricsSource) (k : string) : string :=
  match ms with
  | Mapping m => metricCell (get k m)
  | Primitive (VNum _) => numberCell k
  | Primitive (VStr s) => stringCell s k
  end.

(** The body of the third loop: one row. *)
Definition buildRow (rowLabelTemplate idColumn : string)
  (mergeCovariates : bool) (pRows : list Row)
  (byId : Dict ParsedSubject) (metricCols covariateCols : list string)
  (sid : string) : list string :=
  let ms := metricsOf (getRecord sid byId) in
  [formatRowLabel rowLabelTemplate sid]
  ++ map (cellOf ms) metricCols
  ++ (if mergeCovariates then
        let rec :=
          match find (fun r => String.eqb (normalizeField (get idColumn r)) sid)
                     pRows with
          | Some r => r
          | None => []
          end in
        map (fun c => covariateCell (get c rec)) covariateCols
      else []).

(** [buildMatrix], with the component state it reads as arguments. *)
Definition buildMatrix (subjectFiles : SubjectMap)
  (participantsParsed : option ParsedTable) (idColumn : string)
  (rowLabelTemplate : string) (mergeCovariates : bool) : Outcome :=
  match participantsParsed with
  | None => Returned emptyMatrix []
  | Some table =>
      if isEmpty idColumn then Returned emptyMatrix []
      else
        let pRows := data table in
        let subjectsOrder := subjectsOrderOf pRows idColumn in
        if List.length subjectsOrder =? 0 then Returned emptyMatrix []
        else
          match fold_left (collectSubject subjectFiles) subjectsOrder
                  (inr {| warningsLocal := []; parsedById := emptyDict;
                          canonicalOrder := None |}) with
          | inl e => Failed e
          | inr st =>
              let seed :=
                match canonicalOrder st with Some c => c | None => [] end in
              match fold_left (unifySubject (parsedById st)) subjectsOrder
                      (inr (seed, seed)) with
              | inl e => Failed e
              | inr (metricCols, _) =>
                  let covariateCols :=
                    filter (fun c => negb (String.eqb c idColumn))
                      (match fields table with Some fs => fs | None => [] end) in
                  let header :=
                    ["subject"] ++ metricCols
                    ++ (if mergeCovariates then covariateCols else []) in
                  let outRows :=
                    map (buildRow rowLabelTemplate idColumn mergeCovariates
                           pRows (parsedById st) metricCols covariateCols)
                      subjectsOrder in
                  Returned {| header := header; rows := outRows |}
                    (warningsLocal st)
              end
          end
  end.
End Build.

(** ** Notions used to state the properties *)

(** The key and the value a line contributes to the record, if any: the
    pair handed to [recordMetric], which ignores an empty key. *)
Definition keyed (k : string) (v : JSValue) : option (string * JSValue) :=
  if truthy k then Some (k, v) else None.

Definition contribution (line : string) : option (string * JSValue) :=
  if isEmpty line then None
  else if isHeaderMarker line then None
  else
    let c := indexOf ":" line in
    if (0 <? c)%Z then
      keyed (trim (take (Z.to_nat c) line))
        (coerceNumber (trim (drop (Z.to_nat (c + 1)) line)))
    else
      let parts := splitByAny line in
      if 2 <=? List.length parts
      then keyed (join " " (removelast parts)) (coerceNumber (last parts ""))
      else None.

Fixpoint contributionsOf (lines : list string) : list (string * JSValue) :=
  match lines with
  | [] => []
  | line :: rest =>
      match contribution line with
      | Some kv => kv :: contributionsOf rest
      | None => contributionsOf rest
      end
  end.

(** The contributing occurrences of a text, in the order of its lines. *)
Definition contributions (text : string) : list (string * JSValue) :=
  contributionsOf (linesOf text).

Definition mem (k : string) (l : list string) : bool :=
  existsb (String.eqb k) l.

(** The elements of [l] that are not in [seen], each kept where it first
    occurs. *)
Fixpoint firstOccurrences (seen l : list string) : list string :=
  match l with
  | [] => []
  | k :: rest =>
      if mem k seen then firstOccurrences seen rest
      else k :: firstOccurrences (k :: seen) rest
  end.

(** The value of the last pair of [kvs] whose key is [k]. *)
Fixpoint lastValue (k : string) (kvs : list (string * JSValue))
  : option JSValue :=
  match kvs with
  | [] => None
  | (k', v) :: rest =>
      match lastValue k rest with
      | Some v' => Some v'
      | None => if String.eqb k' k then Some v else None
      end
  end.

(** The records of the roster subjects whose file resolves, in roster
    order. *)
Definition parsedRecords (subjectFiles : SubjectMap) (sids : list string)
  : list ParsedSubject :=
  flat_map (fun sid =>
              match resolveFileForId subjectFiles sid with
              | Uploaded file => [parseSubjectTxt (text file)]
              | Member _ | Raised | NotFound => []
              end) sids.

Definition hasOrder (p : ParsedSubject) : bool := 0 <? List.length (order p).

(** Every key a record brings to the column scan: its discovery order,
    then the keys of its mapping. *)
Definition keyStream (ps : list ParsedSubject) : list string :=
  flat_map (fun p => order p ++ Object_keys (metrics p)) ps.

Definition missingFile (sid : string) : string :=
  ("Missing file for ID: " ++ sid)%string.

(** A string that does not start with white space. *)
Definition headNotSpace (s : string) : Prop :=
  match s with
  | EmptyString => True
  | String c _ => isWhiteSpace c = false
  end.

(** One contribution applied to the record. *)
Definition recordPair (p : ParsedSubject) (kv : string * JSValue)
  : ParsedSubject :=
  recordMetric (fst kv) (snd kv) p.

Definition notInherited (k : string) : bool := negb (inherited k).

(** No file resolves for the subject: [resolveFileForId] gives
    [undefined]. *)
Definition unresolved (subjectFiles : SubjectMap) (sid : string) : bool :=
  match resolveFileForId subjectFiles sid with
  | NotFound => true
  | Uploaded _ | Member _ | Raised => false
  end.

(** The records a dictionary holds for a list of subjects. *)
Definition recordsOf (byId : Dict ParsedSubject) (sids : list string)
  : list ParsedSubject :=
  flat_map (fun sid =>
              match getRecord sid byId with
              | ARecord p => [p]
              | ItsMetrics _ | ItsOrder _ | AMember _ | NoRecord => []
              end) sids.

(** The column unifier in the words of the specification: seed with the
    discovery order of the first record that has one, then scan the
    records in roster order and append what is not yet there. *)
Definition canonicalColumns (ps : list ParsedSubject) : list string :=
  let seed :=
    match find hasOrder ps with Some p => order p | None => [] end in
  seed ++ firstOccurrences seed (keyStream ps).

Definition covariateColsOf (table : ParsedTable) (idColumn : string)
  : list string :=
  filter (fun c => negb (String.eqb c idColumn))
    (match fields table with Some fs => fs | None => [] end).


(** The subject resolves to an uploaded file or to nothing: the first
    loop of [buildMatrix] goes past it. *)
Definition resolvesCleanly (subjectFiles : SubjectMap) (sid : string) : Prop :=
  match resolveFileForId subjectFiles sid with
  | Uploaded _ | NotFound => True
  | Member _ | Raised => False
  end.

(** What a dictionary keeps for a key: the object that became its
    prototype for [__proto__], the own property for any other key. *)
Definition kept {V : Type} (k : string) (d : Dict V) : option V :=
  if String.eqb k "__proto__" then parent d else getOwn k (own d).

(** The name [k] is found along the prototype chain of the pool: a
    member of [Object.prototype] or, once a file has become the prototype
    of the pool, a member of [File.prototype] or of [Blob.prototype]. *)
Definition inheritedBy (subjectFiles : SubjectMap) (k : string) : bool :=
  inherited k
  || match parent subjectFiles with
     | Some _ => fileAttribute k || fileMethod k
     | None => false
     end.


(** The roster row is kept: its identifier is not blank. *)
Definition hasIdentifier (idColumn : string) (r : Row) : bool :=
  truthy (normalizeField (get idColumn r)).

(** The invariant of a record: its discovery order has no duplicate and
    lists own keys of its mapping. *)
Definition wellFormedRecord (p : ParsedSubject) : Prop :=
  NoDup (order p) /\ forall k, In k (order p) -> In k (map fst (metrics p)).

(** ** Sample inputs *)

(** [Number.prototype.toString] on an integer that a double holds
    exactly and that is below [10^21]: its decimal digits.  The examples
    run [buildMatrix] with it. *)
Definition integerText (d : Decimal) : string :=
  NilZero.string_of_int (Z.to_int (mantissa d * 10 ^ exponent d)).

Definition newline : string := String "010" EmptyString.

(** A roster with the identifier column [participant_id] and the
    covariates [age] and [sex]. *)
Definition rosterOf (ids : list string) : ParsedTable :=
  {| data := map (fun id => [("participant_id", id); ("age", "61"); ("sex", "F")])
                 ids;
     fields := Some ["participant_id"; "age"; "sex"] |}.

Definition fileA : File :=
  {| name := "sub-A.txt"; text := "X: 1" ++ newline ++ "Y: 2" |}.

Definition fileB : File :=
  {| name := "sub-B.txt"; text := "Y  3" ++ newline ++ "Z  4" |}.

Definition poolAB : SubjectMap :=
  {| own := [("sub-A.txt", fileA); ("sub-A", fileA);
             ("sub-B.txt", fileB); ("sub-B", fileB)];
     parent := None |}.

(** A file whose only line names a metric after a member of
    [Object.prototype]. *)
Definition fileT : File := {| name := "sub-T.txt"; text := "toString: 1" |}.

Definition poolT : SubjectMap :=
  {| own := [("sub-T.txt", fileT); ("sub-T", fileT)]; parent := None |}.

(** A file named [__proto__.txt], whose record has a text under [order]
    and a Number under [metrics]; uploading it makes it the prototype of
    the pool. *)
Definition fileP : File :=
  {| name := "__proto__.txt"; text := "order: abc" ++ newline ++ "metrics: 5" |}.

Definition poolP : SubjectMap :=
  {| own := [("__proto__.txt", fileP)]; parent := Some fileP |}.

(** A file named [__proto__.txt] whose record has texts under [metrics]
    and [order], and one whose record has neither. *)
Definition fileQ : File :=
  {| name := "__proto__.txt";
     text := "metrics: abc" ++ newline ++ "order: x" ++ newline ++ "length: 1" |}.

Definition poolQ : SubjectMap :=
  {| own := [("__proto__.txt", fileQ)]; parent := Some fileQ |}.

Definition fileR : File := {| name := "__proto__.txt"; text := "a: 1" |}.

Definition poolR : SubjectMap :=
  {| own := [("__proto__.txt", fileR)]; parent := Some fileR |}.

(** The pool after [__proto__.txt] and [sub-A.txt] are uploaded. *)
Definition poolPA : SubjectMap :=
  {| own := [("__proto__.txt", fileP); ("sub-A.txt", fileA); ("sub-A", fileA)];
     parent := Some fileP |}.

(** What the row of a subject without record shows under a column. *)
Definition blankCell (k : string) : string :=
  if inherited k then memberText k else "".

Fixpoint noWhiteSpace (s : string) : bool :=
  match s with
  | EmptyString => true
  | String c r => negb (isWhiteSpace c) && noWhiteSpace r
  end.

(** A field between two runs of white space: not empty, and free of
    white space. *)
Definition isWord (f : string) : Prop := f <> "" /\ noWhiteSpace f = true.

Definition file001 : File :=
  {| name := "sub-001.txt";
     text := "Measure:volume   sub-001" ++ newline
             ++ "Left-Hippocampus  3500" ++ newline
             ++ "Right-Hippocampus 3600" |}.

Definition pool001 : SubjectMap :=
  {| own := [("sub-001.txt", file001); ("sub-001", file001)];
     parent := None |}.


(** ** The remaining functions of [App.tsx] *)

(** [String.prototype.toLowerCase] on a code unit below 256: the ASCII
    capitals and the capitals of Latin-1 (U+00C0 to U+00DE, the
    multiplication sign apart) move up by 32. *)
Definition lowerUnit (c : ascii) : ascii :=
  let n := code c in
  if ((65 <=? n) && (n <=? 90))
     || ((192 <=? n) && (n <=? 222) && negb (n =? 215))
  then ascii_of_nat (n + 32) else c.

Definition toLowerCase (s : string) : string := mapString lowerUnit s.

(** [s.endsWith(suffix)] *)
Definition endsWith (suffix s : string) : bool :=
  (String.length suffix <=? String.length s)
  && String.eqb (drop (String.length s - String.length suffix) s) suffix.

Definition sniffDelimiterFromFilename (name : string) : string :=
  let n := toLowerCase name in
  if endsWith ".tsv" n then String "009" EmptyString
  else if endsWith ".csv" n then ","
  else ",".

Section Callers.
Variable Number_toString : Decimal -> string.

(** [previewCSV]: the list given to [setPreview] (the current one when
    the function returns before setting it) and the warnings left by
    [buildMatrix]; [inl] when the build fails. *)
Definition previewCSV (subjectFiles : SubjectMap)
  (participantsParsed : option ParsedTable) (idColumn : string)
  (rowLabelTemplate : string) (mergeCovariates : bool)
  (preview : list (list string))
  : Failure + list (list string) * list string :=
  match buildMatrix Number_toString subjectFiles participantsParsed idColumn
          rowLabelTemplate mergeCovariates with
  | Failed e => inl e
  | Returned m w =>
      if List.length (header m) =? 0 then inr (preview, w)
      else inr ([header m] ++ firstn 5 (rows m), w)
  end.

(** [downloadCSV], up to the library calls: the table handed to
    [Papa.unparse], whose text is saved as [data.csv]; [None] when the
    function returns before, [inl] when the build fails. *)
Definition downloadCSV (subjectFiles : SubjectMap)
  (participantsParsed : option ParsedTable) (idColumn : string)
  (rowLabelTemplate : string) (mergeCovariates : bool)
  : Failure + option (list (list string)) :=
  match buildMatrix Number_toString subjectFiles participantsParsed idColumn
          rowLabelTemplate mergeCovariates with
  | Failed e => inl e
  | Returned m w =>
      if List.length (header m) =? 0 then inr None
      else inr (Some ([header m] ++ rows m))
  end.
End Callers.

(** ** More notions used to state the properties *)

Fixpoint allWhiteSpace (s : string) : bool :=
  match s with
  | EmptyString => true
  | String c r => isWhiteSpace c && allWhiteSpace r
  end.

(** The file a pool built from [fs] holds under the key [k]: the last
    one whose trimmed name, or that name without extension, is [k]. *)
Fixpoint lastIndexed (k : string) (fs : list File) : option File :=
  match fs with
  | [] => None
  | f :: rest =>
      match lastIndexed k rest with
      | Some g => Some g
      | None =>
          if String.eqb (normalize (name f)) k
             || String.eqb (stripExt (normalize (name f))) k
          then Some f else None
      end
  end.

(** The roster row whose covariates a subject's table row shows. *)
Definition rosterRowOf (pRows : list Row) (idColumn sid : string)
  : option Row :=
  find (fun r => String.eqb (normalizeField (get idColumn r)) sid) pRows.

(** The mapping a subject's table row is read from. *)
Definition metricsOfSubject (subjectFiles : SubjectMap) (sid : string)
  : SubjectMetrics :=
  match resolveFileForId subjectFiles sid with
  | Uploaded file => metrics (parseSubjectTxt (text file))
  | Member _ | Raised | NotFound => []
  end.

(** The effect of [consHead] on fields taken up to trailing white space. *)
Definition consTrimmed (c : ascii) (fields : list string) : list string :=
  match fields with
  | [] => [trimEnd (String c "")]
  | h :: t => (if isWhiteSpace c && isEmpty h then "" else String c h) :: t
  end.

(** The pool indexes the file under the key. *)
Definition indexedUnder (k : string) (f : File) : bool :=
  String.eqb (normalize (name f)) k
  || String.eqb (stripExt (normalize (name f))) k.

Section RowOf.
Variable Number_toString : Decimal -> string.

(** The row of a subject, read from the inputs of the build. *)
Definition rowOf (pool : SubjectMap) (table : ParsedTable)
  (idColumn rowLabelTemplate : string) (mergeCovariates : bool)
  (metricCols : list string) (sid : string) : list string :=
  [formatRowLabel rowLabelTemplate sid]
  ++ map (fun k => metricCell Number_toString (get k (metricsOfSubject pool sid)))
       metricCols
  ++ (if mergeCovariates then
        map (fun c =>
               covariateCell
                 (get c (match rosterRowOf (data table) idColumn sid with
                         | Some r => r
                         | None => []
                         end)))
          (covariateColsOf table idColumn)
      else []).
End RowOf.

(** A roster of seven subjects, two of them with a file in [poolAB], and
    the table and warnings [buildMatrix] returns for it. *)
Definition rosterSeven : ParsedTable :=
  rosterOf ["sub-A"; "sub-B"; "s3"; "s4"; "s5"; "s6"; "s7"].

Definition matrixSeven : Matrix :=
  {| header := ["subject"; "X"; "Y"; "Z"];
     rows := [["sub-A"; "1"; "2"; ""]; ["sub-B"; ""; "3"; "4"];
              ["s3"; ""; ""; ""]; ["s4"; ""; ""; ""]; ["s5"; ""; ""; ""];
              ["s6"; ""; ""; ""]; ["s7"; ""; ""; ""]] |}.

Definition warningsSeven : list string :=
  map missingFile ["s3"; "s4"; "s5"; "s6"; "s7"].

(** * Properties *)

(** ** Strings *)

Lemma trimStart_head (s : string) : headNotSpace (trimStart s).
Proof.
  induction s as [|c r IH]; simpl; [exact I|].
  destruct (isWhiteSpace c) eqn:E; [exact IH | exact E].
Qed.

Lemma trimStart_fixed (s : string) : headNotSpace s -> trimStart s = s.
Proof.
  destruct s as [|c r]; simpl; [reflexivity|].
  intros ->. reflexivity.
Qed.

Lemma trimEnd_head (s : string) : headNotSpace s -> headNotSpace (trimEnd s).
Proof.
  destruct s as [|c r]; simpl; [trivial|].
  intros E. rewrite E. simpl. exact E.
Qed.

Lemma trimEnd_idempotent (s : string) : trimEnd (trimEnd s) = trimEnd s.
Proof.
  induction s as [|c r IH]; simpl; [reflexivity|].
  destruct (isWhiteSpace c && isEmpty (trimEnd r)) eqn:E; simpl.
  - reflexivity.
  - rewrite IH, E. reflexivity.
Qed.

Lemma trim_head (s : string) : headNotSpace (trim s).
Proof. apply trimEnd_head, trimStart_head. Qed.

Lemma trim_idempotent (s : string) : trim (trim s) = trim s.
Proof.
  unfold trim at 1.
  rewrite (trimStart_fixed (trim s) (trim_head s)).
  apply trimEnd_idempotent.
Qed.

Lemma trimEnd_nonempty (c : ascii) (r : string) :
  isWhiteSpace c = false -> trimEnd (String c r) = String c (trimEnd r).
Proof. simpl. intros ->. reflexivity. Qed.

Lemma isEmpty_true (s : string) : isEmpty s = true <-> s = "".
Proof. destruct s; simpl; split; congruence. Qed.

Lemma isEmpty_false (s : string) : isEmpty s = false <-> s <> "".
Proof. destruct s; simpl; split; congruence. Qed.

Lemma truthy_true (s : string) : truthy s = true <-> s <> "".
Proof. unfold truthy. destruct s; simpl; split; congruence. Qed.

Lemma consHead_length (c : ascii) (l : list string) :
  l <> [] -> List.length (consHead c l) = List.length l.
Proof. destruct l; simpl; congruence. Qed.

Lemma splitChar_not_nil (sep : ascii) (s : string) : splitChar sep s <> [].
Proof.
  destruct s as [|c r]; simpl; [discriminate|].
  destruct (Ascii.eqb c sep); [discriminate|].
  destruct (splitChar sep r); discriminate.
Qed.

Lemma splitChar_length (sep : ascii) (s : string) :
  1 <= List.length (splitChar sep s).
Proof.
  pose proof (splitChar_not_nil sep s) as H.
  destruct (splitChar sep s); simpl; [congruence | lia].
Qed.

(** Splitting on a character yields more than one field exactly when the
    character occurs. *)
Lemma splitChar_many (sep : ascii) (s : string) :
  (1 <? List.length (splitChar sep s)) = contains sep s.
Proof.
  induction s as [|c r IH]; simpl; [reflexivity|].
  destruct (Ascii.eqb c sep); simpl.
  - pose proof (splitChar_length sep r). apply Nat.ltb_lt. lia.
  - rewrite consHead_length by apply splitChar_not_nil. exact IH.
Qed.

Lemma indexOf_lower (c : ascii) (s : string) : (-1 <= indexOf c s)%Z.
Proof.
  induction s as [|d r IH]; simpl; [lia|].
  destruct (Ascii.eqb d c); [lia|].
  destruct (indexOf c r <? 0)%Z eqn:E; [lia|].
  apply Z.ltb_ge in E. lia.
Qed.

Lemma indexOf_contains (c : ascii) (s : string) :
  contains c s = (0 <=? indexOf c s)%Z.
Proof.
  induction s as [|d r IH]; simpl; [reflexivity|].
  destruct (Ascii.eqb d c); simpl; [reflexivity|].
  rewrite IH.
  destruct (indexOf c r <? 0)%Z eqn:E.
  - apply Z.ltb_lt in E. simpl. apply Z.leb_gt. lia.
  - apply Z.ltb_ge in E. transitivity true.
    + apply Z.leb_le. lia.
    + symmetry. apply Z.leb_le. lia.
Qed.

(** [indexOf] finds the first occurrence: nothing before it is the
    needle, and the string is cut around it. *)
Lemma indexOf_first (c : ascii) (s : string) :
  (0 <= indexOf c s)%Z ->
  let i := Z.to_nat (indexOf c s) in
  contains c (take i s) = false
  /\ s = (take i s ++ String c (drop (S i) s))%string.
Proof.
  induction s as [|d r IH]; simpl.
  - lia.
  - destruct (Ascii.eqb d c) eqn:E.
    + intros _. simpl. apply Ascii.eqb_eq in E. subst d. split; reflexivity.
    + destruct (indexOf c r <? 0)%Z eqn:L; [lia|].
      apply Z.ltb_ge in L. intros _.
      destruct (IH L) as [H1 H2].
      replace (Z.to_nat (indexOf c r + 1)) with (S (Z.to_nat (indexOf c r)))
        by lia.
      simpl. rewrite E. simpl. split; [exact H1|].
      f_equal. exact H2.
Qed.

(** ** [coerceNumber] *)

Lemma eqb_empty (s : string) : String.eqb s "" = isEmpty s.
Proof. destruct s; reflexivity. Qed.

(** C6.  [coerceNumber] works on the trimmed input: a value that is empty
    once trimmed gives the empty string; otherwise the whole trimmed
    string is read as a Number, the result is that number when it is
    finite, and the trimmed string itself in every other case. *)
Theorem coerceNumber_cases (v : string) :
  coerceNumber v = coerceNumber (trim v)
  /\ (trim v = "" -> coerceNumber v = VStr "")
  /\ (forall d, trim v <> "" -> Number_ (trim v) = Finite d ->
      coerceNumber v = VNum d)
  /\ (trim v <> "" -> (forall d, Number_ (trim v) <> Finite d) ->
      coerceNumber v = VStr (trim v)).
Proof.
  unfold coerceNumber. rewrite trim_idempotent, eqb_empty.
  split; [reflexivity|].
  split; [intros ->; reflexivity|].
  split.
  - intros d Hne Hd. apply isEmpty_false in Hne. rewrite Hne, Hd. reflexivity.
  - intros Hne Hnot. apply isEmpty_false in Hne. rewrite Hne.
    destruct (Number_ (trim v)) as [| neg | d]; try reflexivity.
    exfalso. exact (Hnot d eq_refl).
Qed.

(** A number must span the whole trimmed string, and only finite values
    are stored as numbers. *)
Example coerceNumber_samples :
  coerceNumber " 3500 " = VNum {| mantissa := 3500; exponent := 0 |}
  /\ coerceNumber "-2.5e3" = VNum {| mantissa := -25; exponent := 2 |}
  /\ coerceNumber "0x1F" = VNum {| mantissa := 31; exponent := 0 |}
  /\ coerceNumber "12 3" = VStr "12 3"
  /\ coerceNumber " 4mm " = VStr "4mm"
  /\ coerceNumber "1e999" = VStr "1e999"
  /\ coerceNumber "-Infinity" = VStr "-Infinity"
  /\ coerceNumber "   " = VStr "".
Proof. vm_compute. repeat split. Qed.

(** ** The two line grammars *)

Lemma recordMetric_empty_key (v : JSValue) (p : ParsedSubject) :
  recordMetric "" v p = p.
Proof. destruct p. reflexivity. Qed.

Lemma take_head (a : ascii) (r : string) (n : nat) :
  0 < n -> take n (String a r) = String a (take (n - 1) r).
Proof.
  destruct n as [|n]; [lia|]. intros _. simpl.
  rewrite Nat.sub_0_r. reflexivity.
Qed.

Lemma trim_keeps_head (a : ascii) (r : string) :
  isWhiteSpace a = false -> trim (String a r) = String a (trimEnd r).
Proof.
  intros E. unfold trim. simpl trimStart. rewrite E.
  apply trimEnd_nonempty. exact E.
Qed.

(** C4, as the code has it.  On a non-blank line that is not the header
    marker and whose first colon is not its first character, the line is
    cut at that colon: the trimmed left side is the key (never empty on a
    trimmed line) and the trimmed right side, coerced, is the value. *)
Theorem parseLine_colon (p : ParsedSubject) (line : string) :
  trim line = line ->
  isEmpty line = false ->
  isHeaderMarker line = false ->
  (0 < indexOf ":" line)%Z ->
  let c := Z.to_nat (indexOf ":" line) in
  let k := trim (take c line) in
  let v := trim (drop (S c) line) in
  line = (take c line ++ String ":" (drop (S c) line))%string
  /\ contains ":" (take c line) = false
  /\ k <> ""
  /\ parseLine p line = recordMetric k (coerceNumber v) p.
Proof.
  intros Htrim Hne Hhdr Hc c k v.
  assert (Hpos : (0 <= indexOf ":" line)%Z) by lia.
  destruct (indexOf_first ":" line Hpos) as [Hbefore Hcut].
  fold c in Hbefore, Hcut.
  split; [exact Hcut|]. split; [exact Hbefore|]. split.
  - subst k. pose proof (trim_head line) as Hh. rewrite Htrim in Hh.
    destruct line as [|a r]; [discriminate|]. simpl in Hh.
    rewrite take_head by (subst c; lia).
    rewrite trim_keeps_head by exact Hh. discriminate.
  - unfold parseLine. rewrite Hne, Hhdr.
    replace (0 <? indexOf ":" line)%Z with true
      by (symmetry; apply Z.ltb_lt; exact Hc).
    replace (Z.to_nat (indexOf ":" line + 1)) with (S c) by (subst c; lia).
    reflexivity.
Qed.

Lemma parseLine_colon_witness :
  parseLine emptySubject "a: 1"
  = recordMetric "a" (VNum {| mantissa := 1; exponent := 0 |}) emptySubject.
Proof.
  exact (proj2 (proj2 (proj2
    (parseLine_colon emptySubject "a: 1" eq_refl eq_refl eq_refl eq_refl)))).
Defined.

(** The claim C4 as it is worded fails on a line that starts with its
    colon: [": 5"] is trimmed, non-blank, not the header marker and holds
    a colon, yet it is not cut at the colon (which would give the empty
    key and record nothing); the delimiter rule records the key [":"]. *)
Lemma colon_first_not_split :
  trim ": 5" = ": 5"
  /\ isEmpty ": 5" = false
  /\ isHeaderMarker ": 5" = false
  /\ contains ":" ": 5" = true
  /\ indexOf ":" ": 5" = 0%Z
  /\ recordMetric (trim (take 0 ": 5")) (coerceNumber (trim (drop 1 ": 5")))
       emptySubject = emptySubject
  /\ parseLine emptySubject ": 5"
     = {| metrics := [(":", VNum {| mantissa := 5; exponent := 0 |})];
          order := [":"] |}
  /\ parseLine emptySubject ": 5"
     <> recordMetric (trim (take 0 ": 5")) (coerceNumber (trim (drop 1 ": 5")))
          emptySubject.
Proof. vm_compute. repeat split; discriminate. Qed.

Lemma join_cons (sep p : string) (rest : list string) :
  rest <> [] -> join sep (p :: rest) = (p ++ sep ++ join sep rest)%string.
Proof. destruct rest; [congruence | reflexivity]. Qed.

Lemma join_consHead (sep : string) (c : ascii) (l : list string) :
  l <> [] -> join sep (consHead c l) = String c (join sep l).
Proof.
  destruct l as [|h t]; [congruence|]. intros _.
  destruct t; reflexivity.
Qed.

(** Splitting on a character loses nothing: the fields, joined by the
    separator, give the line back, and none of them holds the separator. *)
Lemma splitChar_join (sep : ascii) (s : string) :
  join (String sep "") (splitChar sep s) = s.
Proof.
  induction s as [|c r IH]; simpl; [reflexivity|].
  destruct (Ascii.eqb_spec c sep) as [-> | Hne].
  - rewrite join_cons by apply splitChar_not_nil. simpl. rewrite IH.
    reflexivity.
  - rewrite join_consHead by apply splitChar_not_nil. rewrite IH.
    reflexivity.
Qed.

Lemma splitChar_fields (sep : ascii) (s : string) :
  Forall (fun f => contains sep f = false) (splitChar sep s).
Proof.
  induction s as [|c r IH]; simpl; [repeat constructor|].
  destruct (Ascii.eqb c sep) eqn:E; [constructor; [reflexivity | exact IH]|].
  destruct (splitChar sep r) as [|h t]; simpl.
  - repeat constructor. simpl. rewrite E. reflexivity.
  - inversion IH as [|? ? Hh Ht]; subst. constructor; [|exact Ht].
    simpl. rewrite E. exact Hh.
Qed.

Lemma trimEnd_fixed_cons (c : ascii) (r : string) :
  trimEnd (String c r) = String c r ->
  trimEnd r = r /\ (isWhiteSpace c = true -> r <> "").
Proof.
  simpl. destruct (isWhiteSpace c && isEmpty (trimEnd r)) eqn:E; [discriminate|].
  intros H. injection H as H. split; [exact H|].
  intros Hc. rewrite Hc, H in E. simpl in E. apply isEmpty_false, E.
Qed.

(** On a string without trailing white space the fields cut by the runs
    of white space are words, the first one apart when the string starts
    inside a run. *)
Lemma splitWhiteSpaceFrom_words (s : string) :
  trimEnd s = s ->
  (exists h t, splitWhiteSpaceFrom false s = h :: t
               /\ noWhiteSpace h = true /\ Forall isWord t)
  /\ (s <> "" -> Forall isWord (splitWhiteSpaceFrom true s)).
Proof.
  induction s as [|c r IH]; intros Hfix.
  - split; [|congruence]. exists "", []. repeat split. constructor.
  - apply trimEnd_fixed_cons in Hfix. destruct Hfix as [Hr Hc].
    destruct (IH Hr) as [(h & t & Hsplit & Hh & Ht) Hrun].
    simpl. destruct (isWhiteSpace c) eqn:E.
    + specialize (Hrun (Hc eq_refl)). split; [|intros _; exact Hrun].
      exists "", (splitWhiteSpaceFrom true r). repeat split. exact Hrun.
    + rewrite Hsplit. simpl.
      assert (Hw : noWhiteSpace (String c h) = true)
        by (simpl; rewrite E; exact Hh).
      split.
      * exists (String c h), t. repeat split; assumption.
      * intros _. constructor; [|exact Ht]. split; [discriminate | exact Hw].
Qed.

(** The fields of a trimmed, non-empty line cut at its runs of white
    space are words. *)
Lemma splitWhiteSpace_words (line : string) :
  trim line = line -> line <> "" -> Forall isWord (splitWhiteSpace line).
Proof.
  intros Htrim Hne.
  pose proof (trim_head line) as Hhead. rewrite Htrim in Hhead.
  assert (Hend : trimEnd line = line).
  { rewrite <- Htrim at 1. unfold trim. rewrite trimEnd_idempotent.
    exact Htrim. }
  destruct line as [|c r]; [congruence|]. simpl in Hhead.
  apply trimEnd_fixed_cons in Hend. destruct Hend as [Hr _].
  destruct (splitWhiteSpaceFrom_words r Hr) as [(h & t & Hsplit & Hh & Ht) _].
  unfold splitWhiteSpace. simpl. rewrite Hhead, Hsplit. simpl.
  constructor; [|exact Ht]. split; [discriminate|].
  simpl. rewrite Hhead. exact Hh.
Qed.

(** C3.  A trimmed, non-blank line that is not the header marker and to
    which the colon rule does not apply is split on tabs when it holds
    one, else on commas when it holds one, else on its runs of white
    space (the fields are then the words of the line).  With two fields
    or more the last one, coerced, is the value and the others, joined by
    one space, are the key (handed to [recordMetric], which drops an
    empty key); with fewer the line leaves the record as it was. *)
Theorem parseLine_delimited (p : ParsedSubject) (line : string) :
  trim line = line ->
  isEmpty line = false ->
  isHeaderMarker line = false ->
  (indexOf ":" line <= 0)%Z ->
  let parts :=
    if contains "009" line then splitChar "009" line
    else if contains "," line then splitChar "," line
    else splitWhiteSpace (trim line) in
  splitByAny line = parts
  /\ (if contains "009" line then join (String "009" "") parts = line
      else if contains "," line then join "," parts = line
      else Forall isWord parts)
  /\ (2 <= List.length parts ->
      parseLine p line
      = recordMetric (join " " (removelast parts))
          (coerceNumber (last parts "")) p)
  /\ (List.length parts < 2 -> parseLine p line = p)
  /\ (join " " (removelast parts) = "" -> parseLine p line = p).
Proof.
  intros Htrim Hne Hhdr Hc parts.
  assert (Hsplit : splitByAny line = parts).
  { unfold splitByAny, parts. rewrite !splitChar_many. reflexivity. }
  assert (Hbody : parseLine p line =
    if 2 <=? List.length parts
    then recordMetric (join " " (removelast parts))
           (coerceNumber (last parts "")) p
    else p).
  { unfold parseLine. rewrite Hne, Hhdr.
    replace (0 <? indexOf ":" line)%Z with false
      by (symmetry; apply Z.ltb_ge; exact Hc).
    rewrite Hsplit. reflexivity. }
  split; [exact Hsplit|]. split.
  { unfold parts. destruct (contains "009" line); [apply splitChar_join|].
    destruct (contains "," line); [apply splitChar_join|].
    rewrite Htrim. apply splitWhiteSpace_words; [exact Htrim|].
    apply isEmpty_false, Hne. }
  split; [|split]; intros Hlen; rewrite Hbody.
  - replace (2 <=? List.length parts) with true
      by (symmetry; apply Nat.leb_le; exact Hlen). reflexivity.
  - replace (2 <=? List.length parts) with false
      by (symmetry; apply Nat.leb_gt; exact Hlen). reflexivity.
  - rewrite Hlen, recordMetric_empty_key.
    destruct (2 <=? List.length parts); reflexivity.
Qed.

Lemma parseLine_delimited_witness :
  splitByAny "Left-Hippocampus  3500" = ["Left-Hippocampus"; "3500"]
  /\ parseLine emptySubject "Left-Hippocampus  3500"
     = recordMetric "Left-Hippocampus"
         (VNum {| mantissa := 3500; exponent := 0 |}) emptySubject.
Proof.
  pose proof (parseLine_delimited emptySubject "Left-Hippocampus  3500"
                eq_refl eq_refl eq_refl) as H.
  destruct H as [H1 [_ [H2 _]]].
  - vm_compute. discriminate.
  - split; [exact H1|]. apply H2. vm_compute. lia.
Defined.

(** ** Dictionaries *)

Section PlainObjectFacts.
Context {V : Type}.
Implicit Types (o : JSObject V) (k : string) (v : V).

Lemma getOwn_putOwn_same k v o : getOwn k (putOwn k v o) = Some v.
Proof.
  induction o as [|[k' v'] rest IH]; simpl.
  - rewrite String.eqb_refl. reflexivity.
  - destruct (String.eqb k' k) eqn:E; simpl; rewrite E; [reflexivity | exact IH].
Qed.

Lemma getOwn_putOwn_other k k' v o :
  k <> k' -> getOwn k' (putOwn k v o) = getOwn k' o.
Proof.
  intros Hne. induction o as [|[j w] rest IH]; simpl.
  - apply String.eqb_neq in Hne. rewrite Hne. reflexivity.
  - destruct (String.eqb j k) eqn:E; simpl.
    + apply String.eqb_eq in E. subst j.
      apply String.eqb_neq in Hne. rewrite Hne. reflexivity.
    + destruct (String.eqb j k'); [reflexivity | exact IH].
Qed.

Lemma getOwn_In k o : (exists v, getOwn k o = Some v) <-> In k (map fst o).
Proof.
  induction o as [|[j w] rest IH]; simpl.
  - split; [intros [v H]; discriminate | tauto].
  - destruct (String.eqb j k) eqn:E.
    + apply String.eqb_eq in E. split; [auto | eauto].
    + apply String.eqb_neq in E. rewrite IH. tauto.
Qed.

Lemma hasOwn_In k o : hasOwn k o = true <-> In k (map fst o).
Proof.
  rewrite <- getOwn_In. unfold hasOwn.
  destruct (getOwn k o); split; eauto; try discriminate.
  intros [v H]. discriminate.
Qed.

Lemma keys_putOwn k v o :
  map fst (putOwn k v o)
  = if hasOwn k o then map fst o else map fst o ++ [k].
Proof.
  unfold hasOwn. induction o as [|[j w] rest IH]; simpl; [reflexivity|].
  destruct (String.eqb j k) eqn:E; simpl; [reflexivity|].
  rewrite IH. destruct (getOwn k rest); reflexivity.
Qed.
End PlainObjectFacts.

Lemma mem_In (k : string) (l : list string) : mem k l = true <-> In k l.
Proof.
  unfold mem. rewrite existsb_exists. split.
  - intros [x [Hin Heq]]. apply String.eqb_eq in Heq. subst. exact Hin.
  - intros Hin. exists k. split; [exact Hin | apply String.eqb_refl].
Qed.

Lemma mem_false (k : string) (l : list string) : mem k l = false <-> ~ In k l.
Proof.
  rewrite <- mem_In. destruct (mem k l); split; congruence.
Qed.

Lemma inherited_In (k : string) :
  inherited k = true <-> In k Object_prototype_names.
Proof. apply mem_In. Qed.

Lemma insertIndex_In (n : Z) (k : string) (l : list (Z * string)) (j : string) :
  In j (map snd (insertIndex n k l)) <-> j = k \/ In j (map snd l).
Proof.
  induction l as [|[m i] rest IH]; simpl.
  - intuition congruence.
  - destruct (n <=? m)%Z; simpl; [intuition congruence|].
    rewrite IH. intuition congruence.
Qed.

Lemma indexKeys_In (ks : list string) (j : string) :
  In j (map snd (indexKeys ks)) <-> In j ks /\ isArrayIndex j = true.
Proof.
  unfold isArrayIndex. induction ks as [|k rest IH]; simpl; [tauto|].
  destruct (arrayIndex k) eqn:E.
  - rewrite insertIndex_In, IH. split.
    + intros [-> | [H1 H2]]; [rewrite E; auto | auto].
    + intros [[-> | H1] H2]; auto.
  - rewrite IH. split; [tauto|].
    intros [[-> | H1] H2]; [rewrite E in H2; discriminate | auto].
Qed.

(** [Object.keys] lists exactly the own keys. *)
Lemma Object_keys_In {V : Type} (o : JSObject V) (k : string) :
  In k (Object_keys o) <-> In k (map fst o).
Proof.
  unfold Object_keys. rewrite in_app_iff, indexKeys_In, filter_In.
  destruct (isArrayIndex k); simpl; intuition congruence.
Qed.

(** ** First occurrences *)

Lemma mem_cons (k j : string) (l : list string) :
  mem k (j :: l) = String.eqb k j || mem k l.
Proof. reflexivity. Qed.

Lemma mem_app (k : string) (l1 l2 : list string) :
  mem k (l1 ++ l2) = mem k l1 || mem k l2.
Proof. apply existsb_app. Qed.

Lemma firstOccurrences_ext (l s1 s2 : list string) :
  (forall k, In k l -> mem k s1 = mem k s2) ->
  firstOccurrences s1 l = firstOccurrences s2 l.
Proof.
  revert s1 s2. induction l as [|k rest IH]; intros s1 s2 H; simpl.
  - reflexivity.
  - rewrite <- (H k (or_introl eq_refl)).
    destruct (mem k s1).
    + apply IH. intros j Hj. apply H. right. exact Hj.
    + f_equal. apply IH. intros j Hj. rewrite !mem_cons.
      f_equal. apply H. right. exact Hj.
Qed.

Lemma firstOccurrences_In (l seen : list string) (k : string) :
  In k (firstOccurrences seen l) <-> In k l /\ ~ In k seen.
Proof.
  revert seen. induction l as [|j rest IH]; intros seen; simpl; [tauto|].
  destruct (mem j seen) eqn:E.
  - apply mem_In in E. rewrite IH. split; [tauto|].
    intros [[-> | H] Hn]; tauto.
  - apply mem_false in E. simpl. rewrite IH. simpl.
    destruct (String.eqb_spec j k) as [-> | Hne]; [tauto|].
    split; [tauto|]. intros [[H | H] Hn]; [congruence|].
    right. split; [exact H|]. intros [H' | H']; [congruence | tauto].
Qed.

Lemma firstOccurrences_NoDup (l seen : list string) :
  NoDup (firstOccurrences seen l).
Proof.
  revert seen. induction l as [|j rest IH]; intros seen; simpl.
  - constructor.
  - destruct (mem j seen); [apply IH|].
    constructor; [|apply IH].
    rewrite firstOccurrences_In. simpl. tauto.
Qed.

Lemma firstOccurrences_app (l1 l2 seen : list string) :
  firstOccurrences seen (l1 ++ l2)
  = firstOccurrences seen l1 ++ firstOccurrences (seen ++ l1) l2.
Proof.
  revert seen. induction l1 as [|k rest IH]; intros seen; simpl.
  - rewrite app_nil_r. reflexivity.
  - destruct (mem k seen) eqn:E.
    + rewrite IH. f_equal. apply firstOccurrences_ext.
      intros j _. rewrite !mem_app, mem_cons.
      destruct (String.eqb_spec j k) as [-> | Hne]; [|reflexivity].
      rewrite E. reflexivity.
    + simpl. f_equal. rewrite IH. f_equal. apply firstOccurrences_ext.
      intros j _. rewrite !mem_app, !mem_cons.
      destruct (String.eqb j k), (mem j seen), (mem j rest); reflexivity.
Qed.

(** A duplicate-free list with nothing seen is its own first occurrences. *)
Lemma firstOccurrences_NoDup_id (l seen : list string) :
  NoDup l -> (forall k, In k l -> ~ In k seen) ->
  firstOccurrences seen l = l.
Proof.
  revert seen. induction l as [|k rest IH]; intros seen Hnd Hdis; simpl.
  - reflexivity.
  - inversion Hnd as [|? ? Hk Hrest]; subst.
    replace (mem k seen) with false
      by (symmetry; apply mem_false, Hdis; left; reflexivity).
    f_equal. apply IH; [exact Hrest|].
    intros j Hj [H | H]; [subst; tauto|].
    apply (Hdis j); [right; exact Hj | exact H].
Qed.

(** The loop [for (const k of l) if (!seen.has(k)) ...] appends the
    first occurrences of the unseen keys to both accumulators. *)
Lemma fold_addUnseen (l cols seen : list string) :
  fold_left addUnseen l (cols, seen)
  = (cols ++ firstOccurrences seen l, seen ++ firstOccurrences seen l).
Proof.
  revert cols seen. induction l as [|k rest IH]; intros cols seen; simpl.
  - rewrite !app_nil_r. reflexivity.
  - fold (mem k seen). destruct (mem k seen) eqn:E.
    + apply IH.
    + rewrite IH.
      assert (Hext : firstOccurrences (seen ++ [k]) rest
                     = firstOccurrences (k :: seen) rest).
      { apply firstOccurrences_ext. intros j _.
        rewrite mem_app, !mem_cons. simpl.
        destruct (String.eqb j k), (mem j seen); reflexivity. }
      rewrite Hext, <- !app_assoc. reflexivity.
Qed.

(** ** The record of a subject *)

Lemma parseLine_contribution (p : ParsedSubject) (line : string) :
  parseLine p line
  = match contribution line with
    | Some kv => recordPair p kv
    | None => p
    end.
Proof.
  assert (K : forall k v,
             recordMetric k v p
             = match keyed k v with Some kv => recordPair p kv | None => p end).
  { intros k v. unfold keyed. destruct k; [apply recordMetric_empty_key|].
    reflexivity. }
  unfold parseLine, contribution.
  destruct (isEmpty line); [reflexivity|].
  destruct (isHeaderMarker line); [reflexivity|].
  destruct (0 <? indexOf ":" line)%Z; [apply K|].
  destruct (2 <=? List.length (splitByAny line)); [apply K | reflexivity].
Qed.

Lemma contribution_key (line k : string) (v : JSValue) :
  contribution line = Some (k, v) -> k <> "".
Proof.
  assert (K : forall k' v', keyed k' v' = Some (k, v) -> k <> "").
  { unfold keyed. intros k' v'. destruct k'; simpl; [discriminate|].
    intros H. injection H as <- _. discriminate. }
  unfold contribution.
  destruct (isEmpty line); [discriminate|].
  destruct (isHeaderMarker line); [discriminate|].
  destruct (0 <? indexOf ":" line)%Z; [apply K|].
  destruct (2 <=? List.length (splitByAny line)); [apply K | discriminate].
Qed.

Lemma contributionsOf_keys (lines : list string) :
  Forall (fun kv => fst kv <> "") (contributionsOf lines).
Proof.
  induction lines as [|line rest IH]; simpl; [constructor|].
  destruct (contribution line) as [[k v]|] eqn:E; [|exact IH].
  constructor; [|exact IH]. simpl. exact (contribution_key _ _ _ E).
Qed.

Lemma parse_fold (lines : list string) (p : ParsedSubject) :
  fold_left parseLine lines p
  = fold_left recordPair (contributionsOf lines) p.
Proof.
  revert p. induction lines as [|line rest IH]; intros p; simpl.
  - reflexivity.
  - rewrite parseLine_contribution.
    destruct (contribution line); simpl; apply IH.
Qed.

Lemma parseSubjectTxt_fold (text : string) :
  parseSubjectTxt text = fold_left recordPair (contributions text) emptySubject.
Proof. apply parse_fold. Qed.

Lemma proto_inherited : inherited "__proto__" = true.
Proof. reflexivity. Qed.

Lemma notInherited_proto (k : string) : inherited k = false -> k <> "__proto__".
Proof. intros H ->. rewrite proto_inherited in H. discriminate. Qed.

Lemma recordMetric_nonempty (k : string) (v : JSValue) (p : ParsedSubject) :
  k <> "" ->
  recordMetric k v p
  = {| metrics := assign k v (metrics p);
       order := if hasProperty k (metrics p) then order p
                else order p ++ [k] |}.
Proof.
  intros Hk. apply truthy_true in Hk. unfold recordMetric. rewrite Hk. simpl.
  destruct (hasProperty k (metrics p)); reflexivity.
Qed.

Lemma firstOccurrences_skip (seen l : list string) (k : string) :
  ~ In k l -> firstOccurrences (seen ++ [k]) l = firstOccurrences seen l.
Proof.
  intros Hk. apply firstOccurrences_ext. intros j Hj.
  rewrite mem_app. simpl.
  destruct (String.eqb_spec j k) as [-> | _]; [tauto|].
  rewrite !orb_false_r. reflexivity.
Qed.

(** The discovery order after a run of contributions: the keys that are
    neither inherited nor already own, each at its first occurrence. *)
Lemma recordAll_order (kvs : list (string * JSValue)) (p : ParsedSubject) :
  Forall (fun kv => fst kv <> "") kvs ->
  order (fold_left recordPair kvs p)
  = order p ++ firstOccurrences (map fst (metrics p))
                 (filter notInherited (map fst kvs)).
Proof.
  intros Hkeys. revert p.
  induction Hkeys as [|[k v] rest Hk _ IH]; intros p; simpl.
  - rewrite app_nil_r. reflexivity.
  - simpl in Hk. rewrite IH. unfold recordPair. simpl fst. simpl snd.
    rewrite (recordMetric_nonempty k v p Hk). simpl.
    unfold notInherited at 2. unfold hasProperty.
    destruct (inherited k) eqn:Ei; simpl.
    + rewrite orb_true_r. f_equal.
      unfold assign. destruct (String.eqb k "__proto__"); [reflexivity|].
      rewrite keys_putOwn. destruct (hasOwn k (metrics p)); [reflexivity|].
      apply firstOccurrences_skip.
      rewrite filter_In. unfold notInherited. rewrite Ei. simpl.
      intros [_ H]. discriminate.
    + rewrite orb_false_r. unfold assign.
      replace (String.eqb k "__proto__") with false
        by (symmetry; apply String.eqb_neq, notInherited_proto, Ei).
      rewrite keys_putOwn.
      destruct (hasOwn k (metrics p)) eqn:Eo.
      * replace (mem k (map fst (metrics p))) with true
          by (symmetry; apply mem_In, hasOwn_In, Eo).
        reflexivity.
      * replace (mem k (map fst (metrics p))) with false.
        2:{ symmetry. apply mem_false. rewrite <- hasOwn_In. congruence. }
        rewrite <- app_assoc. simpl. do 2 f_equal.
        apply firstOccurrences_ext. intros j _.
        rewrite mem_app, !mem_cons. simpl.
        destruct (String.eqb j k), (mem j (map fst (metrics p))); reflexivity.
Qed.

(** The mapping after a run of contributions: last occurrence wins, and
    [__proto__] never becomes an own key. *)
Lemma recordAll_metrics (kvs : list (string * JSValue)) (p : ParsedSubject)
  (k : string) :
  Forall (fun kv => fst kv <> "") kvs ->
  getOwn k (metrics (fold_left recordPair kvs p))
  = if String.eqb k "__proto__" then getOwn k (metrics p)
    else match lastValue k kvs with
         | Some v => Some v
         | None => getOwn k (metrics p)
         end.
Proof.
  intros Hkeys. revert p.
  induction Hkeys as [|[k' v'] rest Hk _ IH]; intros p; simpl.
  - destruct (String.eqb k "__proto__"); reflexivity.
  - simpl in Hk. rewrite IH. unfold recordPair. simpl fst. simpl snd.
    rewrite (recordMetric_nonempty k' v' p Hk). simpl.
    assert (Hassign : getOwn k (assign k' v' (metrics p))
                      = if String.eqb k "__proto__" then getOwn k (metrics p)
                        else if String.eqb k' k then Some v'
                             else getOwn k (metrics p)).
    { unfold assign.
      destruct (String.eqb_spec k "__proto__") as [-> | Hp].
      - destruct (String.eqb_spec k' "__proto__") as [-> | Hp']; [reflexivity|].
        apply getOwn_putOwn_other. exact Hp'.
      - destruct (String.eqb_spec k' k) as [-> | Hne].
        + replace (String.eqb k "__proto__") with false
            by (symmetry; apply String.eqb_neq, Hp).
          apply getOwn_putOwn_same.
        + destruct (String.eqb k' "__proto__"); [reflexivity|].
          apply getOwn_putOwn_other. exact Hne. }
    rewrite Hassign.
    destruct (String.eqb k "__proto__"); [reflexivity|].
    destruct (lastValue k rest); [reflexivity|].
    destruct (String.eqb k' k); reflexivity.
Qed.

Lemma lastValue_In (k : string) (kvs : list (string * JSValue)) :
  In k (map fst kvs) <-> exists v, lastValue k kvs = Some v.
Proof.
  induction kvs as [|[k' v'] rest IH]; simpl.
  - split; [tauto | intros [v H]; discriminate].
  - destruct (lastValue k rest) as [w|] eqn:E.
    + split; [eauto|]. intros _. right. apply IH. eauto.
    + destruct (String.eqb_spec k' k) as [-> | Hne].
      * split; [eauto | auto].
      * split; [|intros [v H]; discriminate].
        intros [H | H]; [congruence|]. apply IH in H. destruct H. discriminate.
Qed.

(** What [parseSubjectTxt] returns, for every text. *)
Lemma parseSubjectTxt_record (text : string) :
  order (parseSubjectTxt text)
  = firstOccurrences [] (filter notInherited (map fst (contributions text)))
  /\ forall k, getOwn k (metrics (parseSubjectTxt text))
               = if String.eqb k "__proto__" then None
                 else lastValue k (contributions text).
Proof.
  rewrite parseSubjectTxt_fold.
  pose proof (contributionsOf_keys (linesOf text)) as Hkeys.
  fold (contributions text) in Hkeys. split.
  - rewrite (recordAll_order _ _ Hkeys). reflexivity.
  - intros k. rewrite (recordAll_metrics _ _ k Hkeys). simpl.
    destruct (String.eqb k "__proto__"); [reflexivity|].
    destruct (lastValue k (contributions text)); reflexivity.
Qed.

Lemma parseSubjectTxt_order_NoDup (text : string) :
  NoDup (order (parseSubjectTxt text)).
Proof.
  rewrite (proj1 (parseSubjectTxt_record text)).
  apply firstOccurrences_NoDup.
Qed.

(** Every key of the discovery order is an own key of the mapping. *)
Lemma parseSubjectTxt_order_own (text k : string) :
  In k (order (parseSubjectTxt text)) ->
  In k (map fst (metrics (parseSubjectTxt text))).
Proof.
  destruct (parseSubjectTxt_record text) as [Ho Hm].
  rewrite Ho, firstOccurrences_In, filter_In. intros [[Hin Hni] _].
  apply getOwn_In. rewrite Hm.
  unfold notInherited in Hni. apply negb_true_iff in Hni.
  replace (String.eqb k "__proto__") with false
    by (symmetry; apply String.eqb_neq, notInherited_proto, Hni).
  apply lastValue_In. exact Hin.
Qed.

(** ** The loops of [buildMatrix] *)

Lemma firstOccurrences_seen_In (l s1 s2 : list string) :
  (forall k, In k s1 <-> In k s2) ->
  firstOccurrences s1 l = firstOccurrences s2 l.
Proof.
  intros H. apply firstOccurrences_ext. intros k _.
  destruct (mem k s2) eqn:E.
  - apply mem_In. apply H. apply mem_In. exact E.
  - apply mem_false. rewrite H. apply mem_false. exact E.
Qed.

Lemma firstOccurrences_chain (l1 l2 seen : list string) :
  firstOccurrences seen (l1 ++ l2)
  = firstOccurrences seen l1
    ++ firstOccurrences (seen ++ firstOccurrences seen l1) l2.
Proof.
  rewrite firstOccurrences_app. f_equal.
  apply firstOccurrences_seen_In. intros k.
  rewrite !in_app_iff, firstOccurrences_In.
  destruct (in_dec string_dec k seen); tauto.
Qed.

Lemma collect_failed (pool : SubjectMap) (sids : list string) (e : Failure) :
  fold_left (collectSubject pool) sids (inl e) = inl e.
Proof. induction sids as [|sid rest IH]; simpl; [reflexivity | exact IH]. Qed.

Lemma unify_failed (byId : Dict ParsedSubject) (sids : list string)
  (e : Failure) :
  fold_left (unifySubject byId) sids (inl e) = inl e.
Proof. induction sids as [|sid rest IH]; simpl; [reflexivity | exact IH]. Qed.

Lemma hasOwn_putOwn {V : Type} (k j : string) (v : V) (o : JSObject V) :
  hasOwn j (putOwn k v o) = String.eqb k j || hasOwn j o.
Proof.
  unfold hasOwn. destruct (String.eqb_spec k j) as [-> | Hne]; simpl.
  - rewrite getOwn_putOwn_same. reflexivity.
  - rewrite getOwn_putOwn_other by exact Hne. reflexivity.
Qed.

(** An assignment changes what the dictionary keeps for its key, and for
    no other; [__proto__] never becomes an own key. *)
Lemma kept_assignObject {V : Type} (k j : string) (v : V) (o : Dict V) :
  hasOwn "__proto__" (own o) = false ->
  kept j (assignObject k v o) = (if String.eqb k j then Some v else kept j o)
  /\ hasOwn "__proto__" (own (assignObject k v o)) = false.
Proof.
  intros Hinv. unfold assignObject, kept.
  destruct (String.eqb_spec k "__proto__") as [-> | Hk].
  - rewrite Hinv. cbn [andb negb own parent]. split; [|exact Hinv].
    rewrite (String.eqb_sym "__proto__" j).
    destruct (String.eqb j "__proto__"); reflexivity.
  - cbn [andb own parent]. split.
    + destruct (String.eqb_spec j "__proto__") as [-> | Hj].
      * apply String.eqb_neq in Hk. rewrite Hk. reflexivity.
      * destruct (String.eqb_spec k j) as [-> | Hne].
        -- apply getOwn_putOwn_same.
        -- apply getOwn_putOwn_other. exact Hne.
    + rewrite hasOwn_putOwn, Hinv. apply String.eqb_neq in Hk.
      rewrite Hk. reflexivity.
Qed.

(** What the first loop leaves when it completes. *)
Lemma collect_spec (pool : SubjectMap) (sids : list string)
  (st0 st : Collected) :
  fold_left (collectSubject pool) sids (inr st0) = inr st ->
  hasOwn "__proto__" (own (parsedById st0)) = false ->
  warningsLocal st
  = warningsLocal st0 ++ map missingFile (filter (unresolved pool) sids)
  /\ Forall (resolvesCleanly pool) sids
  /\ (forall sid,
        kept sid (parsedById st)
        = match resolveFileForId pool sid with
          | Uploaded file =>
              if mem sid sids then Some (parseSubjectTxt (text file))
              else kept sid (parsedById st0)
          | Member _ | Raised | NotFound => kept sid (parsedById st0)
          end)
  /\ hasOwn "__proto__" (own (parsedById st)) = false
  /\ canonicalOrder st
     = match canonicalOrder st0 with
       | Some c => Some c
       | None => option_map order (find hasOrder (parsedRecords pool sids))
       end.
Proof.
  revert st0. induction sids as [|sid0 rest IH]; intros st0; simpl.
  - intros H Hinv. injection H as <-. rewrite app_nil_r.
    split; [reflexivity|]. split; [constructor|]. split.
    + intros sid. destruct (resolveFileForId pool sid); reflexivity.
    + split; [exact Hinv|]. destruct (canonicalOrder st0); reflexivity.
  - unfold unresolved at 1.
    destruct (resolveFileForId pool sid0) as [file | j | |] eqn:R.
    + intros H Hinv.
      destruct (kept_assignObject sid0 sid0 (parseSubjectTxt (text file))
                  (parsedById st0) Hinv) as [_ Hinv1].
      apply IH in H; [|exact Hinv1]. simpl in H.
      destruct H as (Hw & Hall & Hget & Hinv' & Hcan).
      split; [exact Hw|].
      split; [constructor; [unfold resolvesCleanly; rewrite R; exact I|exact Hall]|].
      split; [|split; [exact Hinv'|]].
      * intros sid. rewrite Hget. fold (mem sid rest).
        rewrite (proj1 (kept_assignObject sid0 sid _ _ Hinv)).
        rewrite (String.eqb_sym sid0 sid).
        destruct (String.eqb_spec sid sid0) as [-> | Hne]; simpl.
        -- rewrite R. destruct (mem sid0 rest); reflexivity.
        -- reflexivity.
      * rewrite Hcan. unfold hasOrder at 2.
        destruct (canonicalOrder st0); [reflexivity|].
        simpl. fold hasOrder.
        destruct (0 <? List.length (order (parseSubjectTxt (text file))));
          reflexivity.
    + rewrite collect_failed. discriminate.
    + rewrite collect_failed. discriminate.
    + intros H Hinv. apply IH in H; [|exact Hinv]. simpl in H.
      destruct H as (Hw & Hall & Hget & Hinv' & Hcan).
      split; [rewrite Hw, <- app_assoc; reflexivity|].
      split; [constructor; [unfold resolvesCleanly; rewrite R; exact I|exact Hall]|].
      split; [|split; [exact Hinv' | exact Hcan]].
      intros sid. rewrite Hget. fold (mem sid rest).
      destruct (String.eqb_spec sid sid0) as [-> | Hne]; simpl; [|reflexivity].
      rewrite R. reflexivity.
Qed.

(** The first loop completes when every subject resolves to an uploaded
    file or to nothing. *)
Lemma collect_total (pool : SubjectMap) (sids : list string) (st0 : Collected) :
  Forall (resolvesCleanly pool) sids ->
  exists st, fold_left (collectSubject pool) sids (inr st0) = inr st.
Proof.
  intros H. revert st0. induction H as [|sid0 rest H0 _ IH]; intros st0; simpl.
  - eauto.
  - unfold resolvesCleanly in H0.
    destruct (resolveFileForId pool sid0) as [file | j | |];
      [apply IH | tauto | tauto | apply IH].
Qed.

(** The second loop appends the first occurrences of the keys of the
    records it meets, as long as what it reads from the dictionary is a
    record or nothing. *)
Lemma unify_spec (byId : Dict ParsedSubject) (sids cols seen : list string) :
  Forall (fun sid => match getRecord sid byId with
                     | ARecord _ | NoRecord => True
                     | ItsMetrics _ | ItsOrder _ | AMember _ => False
                     end) sids ->
  fold_left (unifySubject byId) sids (inr (cols, seen))
  = inr (cols ++ firstOccurrences seen (keyStream (recordsOf byId sids)),
         seen ++ firstOccurrences seen (keyStream (recordsOf byId sids))).
Proof.
  intros H. revert cols seen.
  induction H as [|sid0 rest H0 _ IH]; intros cols seen; simpl.
  - rewrite !app_nil_r. reflexivity.
  - destruct (getRecord sid0 byId) as [p | ms | o | j |] eqn:G;
      try contradiction.
    + rewrite !fold_addUnseen, IH.
      change (keyStream ([p] ++ recordsOf byId rest))
        with ((order p ++ Object_keys (metrics p))
              ++ keyStream (recordsOf byId rest)).
      rewrite <- !app_assoc.
      rewrite (firstOccurrences_chain (order p)).
      rewrite (firstOccurrences_chain (Object_keys (metrics p))).
      rewrite <- !app_assoc. reflexivity.
    + apply IH.
Qed.

Lemma flat_map_ext_In {A B : Type} (f g : A -> list B) (l : list A) :
  (forall a, In a l -> f a = g a) -> flat_map f l = flat_map g l.
Proof.
  induction l as [|a rest IH]; intros H; simpl; [reflexivity|].
  rewrite (H a (or_introl eq_refl)), IH; [reflexivity|].
  intros b Hb. apply H. right. exact Hb.
Qed.

Lemma normalizeField_trimmed (x : Lookup string) :
  trim (normalizeField x) = normalizeField x.
Proof. destruct x; simpl; apply trim_idempotent. Qed.

(** The subjects of a build are trimmed and non-empty. *)
Lemma subjectsOrderOf_In (pRows : list Row) (idColumn sid : string) :
  In sid (subjectsOrderOf pRows idColumn) -> trim sid = sid /\ sid <> "".
Proof.
  unfold subjectsOrderOf. rewrite filter_In, in_map_iff.
  intros [[r [<- _]] Ht]. split.
  - apply normalizeField_trimmed.
  - apply truthy_true. exact Ht.
Qed.

Lemma get_Undefined {V : Type} (k : string) (o : JSObject V) :
  get k o = Undefined <-> getOwn k o = None /\ inherited k = false.
Proof.
  unfold get. destruct (getOwn k o); [split; [discriminate | intros [H _]; discriminate]|].
  destruct (inherited k); split; try discriminate; try tauto.
  intros [_ H]. discriminate.
Qed.

(** [subjectFiles[k]] is [undefined] exactly when [k] is neither an own
    key nor a name found along the prototype chain. *)
Lemma getFile_NotFound (k : string) (pool : SubjectMap) :
  getFile k pool = NotFound
  <-> getOwn k (own pool) = None /\ inheritedBy pool k = false.
Proof.
  unfold getFile, inheritedBy.
  destruct (getOwn k (own pool)) as [f|];
    [split; [discriminate | intros [H _]; discriminate]|].
  destruct (parent pool) as [f|].
  - destruct (fileAttribute k); simpl;
      [rewrite orb_true_r; split; [discriminate | intros [_ H]; discriminate]|].
    destruct (fileMethod k); simpl;
      [rewrite orb_true_r; split; [discriminate | intros [_ H]; discriminate]|].
    rewrite orb_false_r.
    destruct (String.eqb_spec k "__proto__") as [-> | Hk].
    + split; [discriminate | intros [_ H]; discriminate].
    + destruct (inherited k); split; try discriminate; try tauto.
      intros [_ H]. discriminate.
  - rewrite orb_false_r.
    destruct (inherited k); split; try discriminate; try tauto.
    intros [_ H]. discriminate.
Qed.

(** An identifier for which nothing resolves is not the name of an
    inherited member: the first variant tried is the identifier itself. *)
Lemma unresolved_not_inherited (pool : SubjectMap) (sid : string) :
  trim sid = sid ->
  resolveFileForId pool sid = NotFound -> inherited sid = false.
Proof.
  intros Ht. unfold resolveFileForId, variantsOf, normalize. rewrite Ht.
  simpl. destruct (getFile sid pool) eqn:G; try discriminate.
  intros _. apply getFile_NotFound in G. destruct G as [_ G].
  unfold inheritedBy in G. apply orb_false_iff in G. tauto.
Qed.

(** A dictionary whose prototype was not replaced is read like a plain
    object. *)
Lemma getRecord_plain (sid : string) (byId : Dict ParsedSubject) :
  parent byId = None ->
  getRecord sid byId
  = match getOwn sid (own byId) with
    | Some p => ARecord p
    | None => if inherited sid then AMember sid else NoRecord
    end.
Proof. intros H. unfold getRecord. rewrite H. reflexivity. Qed.

Section BuildFacts.
Variable Number_toString : Decimal -> string.

(** The result of a build that returns a table: a header and one row per
    subject, read from the dictionary the first loop leaves. *)
Lemma buildMatrix_rows (pool : SubjectMap) (table : ParsedTable)
  (idColumn rowLabelTemplate : string) (mergeCovariates : bool)
  (m : Matrix) (w : list string) :
  buildMatrix Number_toString pool (Some table) idColumn rowLabelTemplate
    mergeCovariates = Returned m w ->
  isEmpty idColumn = false ->
  subjectsOrderOf (data table) idColumn <> [] ->
  let sids := subjectsOrderOf (data table) idColumn in
  let covs := covariateColsOf table idColumn in
  exists byId cols,
    Forall (resolvesCleanly pool) sids
    /\ m = {| header := ["subject"] ++ cols
                        ++ (if mergeCovariates then covs else []);
              rows := map (buildRow Number_toString rowLabelTemplate idColumn
                             mergeCovariates (data table) byId cols covs)
                        sids |}
    /\ w = map missingFile (filter (unresolved pool) sids).
Proof.
  intros H Hid Hne sids covs. unfold buildMatrix in H.
  rewrite Hid in H. fold sids in H.
  destruct (List.length sids =? 0) eqn:El.
  { apply Nat.eqb_eq, length_zero_iff_nil in El. exfalso. exact (Hne El). }
  destruct (fold_left (collectSubject pool) sids _) as [e | st] eqn:C;
    [discriminate|].
  apply collect_spec in C; [|reflexivity]. simpl in C.
  destruct C as (Hw & Hall & _ & _ & _).
  destruct (fold_left (unifySubject (parsedById st)) sids _)
    as [e | [metricCols seen]]; [discriminate|].
  injection H as <- <-.
  exists (parsedById st), metricCols.
  split; [exact Hall|]. split; [reflexivity | exact Hw].
Qed.

(** The result of a build that returns a table, when no subject is named
    [__proto__]: the dictionary of the records holds the record of every
    subject whose file resolves, and the columns are the canonical ones. *)
Lemma buildMatrix_shape (pool : SubjectMap) (table : ParsedTable)
  (idColumn rowLabelTemplate : string) (mergeCovariates : bool)
  (m : Matrix) (w : list string) :
  buildMatrix Number_toString pool (Some table) idColumn rowLabelTemplate
    mergeCovariates = Returned m w ->
  isEmpty idColumn = false ->
  subjectsOrderOf (data table) idColumn <> [] ->
  ~ In "__proto__" (subjectsOrderOf (data table) idColumn) ->
  let sids := subjectsOrderOf (data table) idColumn in
  let cols := canonicalColumns (parsedRecords pool sids) in
  let covs := covariateColsOf table idColumn in
  exists byId,
    (forall sid, In sid sids ->
       getRecord sid byId
       = match resolveFileForId pool sid with
         | Uploaded file => ARecord (parseSubjectTxt (text file))
         | Member _ | Raised | NotFound => NoRecord
         end)
    /\ Forall (resolvesCleanly pool) sids
    /\ m = {| header := ["subject"] ++ cols
                        ++ (if mergeCovariates then covs else []);
              rows := map (buildRow Number_toString rowLabelTemplate idColumn
                             mergeCovariates (data table) byId cols covs)
                        sids |}
    /\ w = map missingFile (filter (unresolved pool) sids).
Proof.
  intros H Hid Hne Hproto sids cols covs. unfold buildMatrix in H.
  rewrite Hid in H. fold sids in H.
  destruct (List.length sids =? 0) eqn:El.
  { apply Nat.eqb_eq, length_zero_iff_nil in El. exfalso. exact (Hne El). }
  destruct (fold_left (collectSubject pool) sids _) as [e | st] eqn:C;
    [discriminate|].
  apply collect_spec in C; [|reflexivity]. simpl in C.
  destruct C as (Hw & Hall & Hget & Hinv & Hcan).
  assert (Hparent : parent (parsedById st) = None).
  { pose proof (Hget "__proto__") as Hp. unfold kept in Hp. simpl in Hp.
    rewrite Hp.
    replace (mem "__proto__" sids) with false
      by (symmetry; apply mem_false, Hproto).
    destruct (resolveFileForId pool "__proto__"); reflexivity. }
  assert (Hlook : forall sid, In sid sids ->
            getRecord sid (parsedById st)
            = match resolveFileForId pool sid with
              | Uploaded file => ARecord (parseSubjectTxt (text file))
              | Member _ | Raised | NotFound => NoRecord
              end).
  { intros sid Hin. rewrite (getRecord_plain _ _ Hparent).
    assert (Hsid : sid <> "__proto__") by (intros ->; exact (Hproto Hin)).
    pose proof (Hget sid) as Hk. unfold kept in Hk.
    apply String.eqb_neq in Hsid. rewrite Hsid in Hk. rewrite Hk.
    pose proof (proj1 (Forall_forall _ _) Hall sid Hin) as Hc.
    unfold resolvesCleanly in Hc.
    destruct (resolveFileForId pool sid) as [file | j | |] eqn:R;
      try contradiction.
    - replace (mem sid sids) with true by (symmetry; apply mem_In, Hin).
      reflexivity.
    - destruct (subjectsOrderOf_In _ _ _ Hin) as [Ht _].
      simpl. rewrite (unresolved_not_inherited pool sid Ht R). reflexivity. }
  assert (Hrecs : recordsOf (parsedById st) sids = parsedRecords pool sids).
  { unfold recordsOf, parsedRecords. apply flat_map_ext_In.
    intros sid Hin. rewrite (Hlook sid Hin).
    destruct (resolveFileForId pool sid); reflexivity. }
  rewrite unify_spec in H.
  2:{ apply Forall_forall. intros sid Hin. rewrite (Hlook sid Hin).
      destruct (resolveFileForId pool sid); exact I. }
  rewrite Hrecs in H.
  assert (Hcols :
    (match canonicalOrder st with Some c => c | None => [] end)
    ++ firstOccurrences
         (match canonicalOrder st with Some c => c | None => [] end)
         (keyStream (parsedRecords pool sids)) = cols).
  { unfold cols, canonicalColumns. rewrite Hcan.
    destruct (find hasOrder (parsedRecords pool sids)); reflexivity. }
  rewrite Hcols in H. injection H as <- <-.
  exists (parsedById st). split; [exact Hlook|]. split; [exact Hall|].
  split; [reflexivity | exact Hw].
Qed.

(** Both loops complete when no subject is named [__proto__] and every
    subject resolves to an uploaded file or to nothing. *)
Lemma loops_complete (pool : SubjectMap) (pRows : list Row)
  (idColumn : string) :
  ~ In "__proto__" (subjectsOrderOf pRows idColumn) ->
  Forall (resolvesCleanly pool) (subjectsOrderOf pRows idColumn) ->
  exists st,
    fold_left (collectSubject pool) (subjectsOrderOf pRows idColumn)
      (inr {| warningsLocal := []; parsedById := emptyDict;
              canonicalOrder := None |}) = inr st
    /\ forall seed, exists cols,
         fold_left (unifySubject (parsedById st))
           (subjectsOrderOf pRows idColumn) (inr (seed, seed)) = inr cols.
Proof.
  intros Hproto Hall.
  destruct (collect_total pool _
              {| warningsLocal := []; parsedById := emptyDict;
                 canonicalOrder := None |} Hall) as [st C].
  exists st. split; [exact C|]. intros seed.
  destruct (collect_spec _ _ _ _ C eq_refl) as (_ & _ & Hget & _ & _).
  simpl in Hget.
  assert (Hparent : parent (parsedById st) = None).
  { pose proof (Hget "__proto__") as Hp. unfold kept in Hp. simpl in Hp.
    rewrite Hp.
    replace (mem "__proto__" (subjectsOrderOf pRows idColumn)) with false
      by (symmetry; apply mem_false, Hproto).
    destruct (resolveFileForId pool "__proto__"); reflexivity. }
  rewrite unify_spec; [eauto|].
  apply Forall_forall. intros sid Hin.
  rewrite (getRecord_plain _ _ Hparent).
  assert (Hsid : sid <> "__proto__") by (intros ->; exact (Hproto Hin)).
  pose proof (Hget sid) as Hk. unfold kept in Hk.
  apply String.eqb_neq in Hsid. rewrite Hsid in Hk. rewrite Hk.
  pose proof (proj1 (Forall_forall _ _) Hall sid Hin) as Hc.
  unfold resolvesCleanly in Hc.
  destruct (resolveFileForId pool sid) as [file | i | |] eqn:R;
    try contradiction.
  - replace (mem sid (subjectsOrderOf pRows idColumn)) with true
      by (symmetry; apply mem_In, Hin). exact I.
  - destruct (subjectsOrderOf_In _ _ _ Hin) as [Ht _].
    simpl. rewrite (unresolved_not_inherited pool sid Ht R). exact I.
Qed.

(** A build returns whenever no subject is named [__proto__] and every
    subject resolves to an uploaded file or to nothing. *)
Lemma buildMatrix_total (pool : SubjectMap) (table : option ParsedTable)
  (idColumn rowLabelTemplate : string) (mergeCovariates : bool) :
  (forall t, table = Some t ->
     ~ In "__proto__" (subjectsOrderOf (data t) idColumn)
     /\ Forall (resolvesCleanly pool) (subjectsOrderOf (data t) idColumn)) ->
  exists m w,
    buildMatrix Number_toString pool table idColumn rowLabelTemplate
      mergeCovariates = Returned m w.
Proof.
  intros H. unfold buildMatrix. destruct table as [t|]; [|eauto].
  destruct (isEmpty idColumn); [eauto|].
  destruct (List.length (subjectsOrderOf (data t) idColumn) =? 0); [eauto|].
  destruct (H t eq_refl) as [Hproto Hall].
  destruct (loops_complete pool (data t) idColumn Hproto Hall)
    as (st & C & U).
  rewrite C.
  destruct (U (match canonicalOrder st with Some c => c | None => [] end))
    as [[cols seen] ->].
  eauto.
Qed.
End BuildFacts.

(** ** The canonical columns *)

Lemma parseSubjectTxt_wellFormed (text : string) :
  wellFormedRecord (parseSubjectTxt text).
Proof.
  split; [apply parseSubjectTxt_order_NoDup|].
  intros k. apply parseSubjectTxt_order_own.
Qed.

Lemma parsedRecords_wellFormed (pool : SubjectMap) (sids : list string) :
  Forall wellFormedRecord (parsedRecords pool sids).
Proof.
  unfold parsedRecords. apply Forall_flat_map, Forall_forall. intros sid _.
  destruct (resolveFileForId pool sid) as [file | j | |]; [|constructor..].
  constructor; [apply parseSubjectTxt_wellFormed | constructor].
Qed.

Lemma keyStream_In (ps : list ParsedSubject) (k : string) :
  Forall wellFormedRecord ps ->
  In k (keyStream ps) <-> exists p, In p ps /\ In k (map fst (metrics p)).
Proof.
  intros Hwf. unfold keyStream. rewrite in_flat_map.
  split; intros [p [Hp Hk]]; exists p; (split; [exact Hp|]).
  - apply in_app_iff in Hk. destruct Hk as [Hk | Hk].
    + exact (proj2 (proj1 (Forall_forall _ _) Hwf p Hp) k Hk).
    + apply Object_keys_In. exact Hk.
  - apply in_app_iff. right. apply Object_keys_In. exact Hk.
Qed.

(** The unifier of the specification yields a duplicate-free list that
    starts with the seed and holds exactly the keys of the mappings. *)
Lemma canonicalColumns_spec (ps : list ParsedSubject) :
  Forall wellFormedRecord ps ->
  NoDup (canonicalColumns ps)
  /\ (forall first, find hasOrder ps = Some first ->
        canonicalColumns ps
        = order first ++ firstOccurrences (order first) (keyStream ps))
  /\ (forall k, In k (canonicalColumns ps)
                <-> exists p, In p ps /\ In k (map fst (metrics p))).
Proof.
  intros Hwf. unfold canonicalColumns.
  set (seed := match find hasOrder ps with Some p => order p | None => [] end).
  assert (Hseed : NoDup seed /\ forall k, In k seed -> In k (keyStream ps)).
  { unfold seed. destruct (find hasOrder ps) as [p|] eqn:F.
    - apply find_some in F. destruct F as [Hp _].
      pose proof (proj1 (Forall_forall _ _) Hwf p Hp) as [Hnd Hown].
      split; [exact Hnd|]. intros k Hk. apply keyStream_In; [exact Hwf|].
      exists p. split; [exact Hp | apply Hown, Hk].
    - split; [constructor | intros k []]. }
  destruct Hseed as [Hnd Hsub]. split; [|split].
  - apply NoDup_app; [exact Hnd | apply firstOccurrences_NoDup|].
    intros k Hk. rewrite firstOccurrences_In. tauto.
  - intros first F. unfold seed. rewrite F. reflexivity.
  - intros k. rewrite <- (keyStream_In ps k Hwf).
    rewrite in_app_iff, firstOccurrences_In. split.
    + intros [H | [H _]]; [apply Hsub, H | exact H].
    + intros H. destruct (in_dec string_dec k seed); tauto.
Qed.

(** ** The table *)

Section Table.
Variable Number_toString : Decimal -> string.

(** The canonical columns, when no roster subject is named [__proto__].
    When a build returns and some roster subject, the first in roster
    order being [first], has a parsed record with a non-empty discovery
    order, the metric columns of the header have no duplicate, start with
    the discovery order of [first], continue with the keys met when the
    parsed subjects are scanned again in roster order (each where it is
    first met: a subject's discovery order, then the keys of its
    mapping), and are exactly the keys present in the mappings of the
    parsed subjects. *)
Theorem buildMatrix_canonical_columns (pool : SubjectMap)
  (table : ParsedTable) (idColumn rowLabelTemplate : string)
  (mergeCovariates : bool) (m : Matrix) (w : list string)
  (first : ParsedSubject) :
  buildMatrix Number_toString pool (Some table) idColumn rowLabelTemplate
    mergeCovariates = Returned m w ->
  idColumn <> "" ->
  ~ In "__proto__" (subjectsOrderOf (data table) idColumn) ->
  find hasOrder (parsedRecords pool (subjectsOrderOf (data table) idColumn))
  = Some first ->
  let ps := parsedRecords pool (subjectsOrderOf (data table) idColumn) in
  exists metricCols,
    header m = ["subject"] ++ metricCols
               ++ (if mergeCovariates then covariateColsOf table idColumn
                   else [])
    /\ NoDup metricCols
    /\ metricCols
       = order first ++ firstOccurrences (order first) (keyStream ps)
    /\ (forall k, In k metricCols
                  <-> exists p, In p ps /\ In k (map fst (metrics p))).
Proof.
  intros H Hid Hproto Hfirst ps.
  assert (Hne : subjectsOrderOf (data table) idColumn <> []).
  { intros E. rewrite E in Hfirst. discriminate. }
  apply isEmpty_false in Hid.
  destruct (buildMatrix_shape _ _ _ _ _ _ _ _ H Hid Hne Hproto)
    as (byId & _ & _ & -> & _).
  destruct (canonicalColumns_spec ps (parsedRecords_wellFormed pool _))
    as (Hnd & Hpre & Hmem).
  exists (canonicalColumns ps). simpl.
  split; [reflexivity|]. split; [exact Hnd|].
  split; [exact (Hpre first Hfirst) | exact Hmem].
Qed.

(** C10.  In a build result that is not empty every row is as long as
    the header: a label, one cell per metric column and, when the
    covariates are enabled, one cell per covariate column.  Cells are
    strings by the type of [rows]. *)
Theorem buildMatrix_rows_fit_header (pool : SubjectMap)
  (participantsParsed : option ParsedTable)
  (idColumn rowLabelTemplate : string) (mergeCovariates : bool)
  (m : Matrix) (w : list string) :
  buildMatrix Number_toString pool participantsParsed idColumn
    rowLabelTemplate mergeCovariates = Returned m w ->
  header m <> [] ->
  exists table metricCols,
    participantsParsed = Some table
    /\ let covs := if mergeCovariates then covariateColsOf table idColumn
                   else [] in
       header m = ["subject"] ++ metricCols ++ covs
       /\ Forall (fun row => List.length row = List.length (header m)) (rows m)
       /\ Forall (fun row =>
                    exists label cells covCells,
                      row = [label] ++ cells ++ covCells
                      /\ List.length cells = List.length metricCols
                      /\ List.length covCells = List.length covs) (rows m).
Proof.
  intros H Hhdr.
  destruct participantsParsed as [table|];
    [|injection H as <- _; simpl in Hhdr; congruence].
  destruct (isEmpty idColumn) eqn:Hid.
  { unfold buildMatrix in H. rewrite Hid in H.
    injection H as <- _. simpl in Hhdr. congruence. }
  destruct (subjectsOrderOf (data table) idColumn) as [|s0 rest] eqn:Hs.
  { unfold buildMatrix in H. rewrite Hid, Hs in H.
    injection H as <- _. simpl in Hhdr. congruence. }
  assert (Hne : subjectsOrderOf (data table) idColumn <> [])
    by (rewrite Hs; discriminate).
  destruct (buildMatrix_rows _ _ _ _ _ _ _ _ H Hid Hne)
    as (byId & cols & _ & -> & _).
  exists table, cols.
  split; [reflexivity|]. cbv zeta. simpl header. simpl rows.
  split; [reflexivity|]. split.
  - apply Forall_map, Forall_forall. intros sid _. unfold buildRow.
    simpl. rewrite !length_app, !length_map.
    destruct mergeCovariates; simpl; rewrite ?length_map; reflexivity.
  - apply Forall_map, Forall_forall. intros sid _. unfold buildRow.
    eexists _, _, _. split; [reflexivity|].
    rewrite length_map. split; [reflexivity|].
    destruct mergeCovariates; simpl; rewrite ?length_map; reflexivity.
Qed.
End Table.

Lemma buildMatrix_canonical_columns_witness :
  exists metricCols,
    ["subject"; "X"; "Y"; "Z"] = ["subject"] ++ metricCols ++ []
    /\ NoDup metricCols
    /\ metricCols = ["X"; "Y"] ++ ["Z"]
    /\ (forall k, In k metricCols
                  <-> exists p, In p [parseSubjectTxt (text fileA);
                                      parseSubjectTxt (text fileB)]
                                /\ In k (map fst (metrics p))).
Proof.
  apply (buildMatrix_canonical_columns integerText poolAB
           (rosterOf ["sub-A"; "sub-B"; "sub-C"]) "participant_id" "{id}" false
           {| header := ["subject"; "X"; "Y"; "Z"];
              rows := [["sub-A"; "1"; "2"; ""]; ["sub-B"; ""; "3"; "4"];
                       ["sub-C"; ""; ""; ""]] |}
           ["Missing file for ID: sub-C"]
           (parseSubjectTxt (text fileA))).
  - vm_compute. reflexivity.
  - discriminate.
  - vm_compute. intuition discriminate.
  - vm_compute. reflexivity.
Defined.

Lemma buildMatrix_rows_fit_header_witness :
  exists table metricCols,
    Some (rosterOf ["sub-A"; "  "; "sub-B"]) = Some table
    /\ ["subject"; "X"; "Y"; "Z"; "age"; "sex"]
       = ["subject"] ++ metricCols ++ covariateColsOf table "participant_id"
    /\ Forall (fun row => List.length row = 6)
         [["sub-A"; "1"; "2"; ""; "61"; "F"]; ["sub-B"; ""; "3"; "4"; "61"; "F"]]
    /\ Forall (fun row =>
                 exists label cells covCells,
                   row = [label] ++ cells ++ covCells
                   /\ List.length cells = List.length metricCols
                   /\ List.length covCells
                      = List.length (covariateColsOf table "participant_id"))
         [["sub-A"; "1"; "2"; ""; "61"; "F"]; ["sub-B"; ""; "3"; "4"; "61"; "F"]].
Proof.
  apply (buildMatrix_rows_fit_header integerText poolAB
           (Some (rosterOf ["sub-A"; "  "; "sub-B"])) "participant_id" "{base}"
           true
           {| header := ["subject"; "X"; "Y"; "Z"; "age"; "sex"];
              rows := [["sub-A"; "1"; "2"; ""; "61"; "F"];
                       ["sub-B"; ""; "3"; "4"; "61"; "F"]] |}
           []).
  - vm_compute. reflexivity.
  - discriminate.
Defined.

(** ** Roster rows without an identifier *)

Lemma subjectsOrderOf_kept (pRows : list Row) (idColumn : string) :
  subjectsOrderOf (filter (hasIdentifier idColumn) pRows) idColumn
  = subjectsOrderOf pRows idColumn.
Proof.
  unfold subjectsOrderOf, hasIdentifier.
  induction pRows as [|r rest IH]; simpl; [reflexivity|].
  destruct (truthy (normalizeField (get idColumn r))) eqn:E; simpl.
  - rewrite E, IH. reflexivity.
  - exact IH.
Qed.

Lemma subjectsOrderOf_length (pRows : list Row) (idColumn : string) :
  List.length (subjectsOrderOf pRows idColumn)
  = List.length (filter (hasIdentifier idColumn) pRows).
Proof.
  unfold subjectsOrderOf, hasIdentifier.
  induction pRows as [|r rest IH]; simpl; [reflexivity|].
  destruct (truthy (normalizeField (get idColumn r))); simpl; congruence.
Qed.

(** The roster row found for a subject is never one without identifier. *)
Lemma find_row_kept (pRows : list Row) (idColumn sid : string) :
  sid <> "" ->
  find (fun r => String.eqb (normalizeField (get idColumn r)) sid)
       (filter (hasIdentifier idColumn) pRows)
  = find (fun r => String.eqb (normalizeField (get idColumn r)) sid) pRows.
Proof.
  intros Hsid. unfold hasIdentifier.
  induction pRows as [|r rest IH]; simpl; [reflexivity|].
  destruct (truthy (normalizeField (get idColumn r))) eqn:E; simpl.
  - rewrite IH. reflexivity.
  - rewrite IH. unfold truthy in E. apply negb_false_iff, isEmpty_true in E.
    rewrite E.
    replace (String.eqb "" sid) with false; [reflexivity|].
    symmetry. apply String.eqb_neq. congruence.
Qed.

Section Roster.
Variable Number_toString : Decimal -> string.

Lemma buildRow_kept (rowLabelTemplate idColumn : string)
  (mergeCovariates : bool) (pRows : list Row) (byId : Dict ParsedSubject)
  (metricCols covariateCols : list string) (sid : string) :
  sid <> "" ->
  buildRow Number_toString rowLabelTemplate idColumn mergeCovariates
    (filter (hasIdentifier idColumn) pRows) byId metricCols covariateCols sid
  = buildRow Number_toString rowLabelTemplate idColumn mergeCovariates
      pRows byId metricCols covariateCols sid.
Proof.
  intros Hsid. unfold buildRow. rewrite (find_row_kept _ _ _ Hsid).
  reflexivity.
Qed.

(** Every warning of a build names a roster subject for which no file
    resolves. *)
Lemma buildMatrix_warnings (pool : SubjectMap)
  (participantsParsed : option ParsedTable)
  (idColumn rowLabelTemplate : string) (mergeCovariates : bool)
  (m : Matrix) (w : list string) :
  buildMatrix Number_toString pool participantsParsed idColumn
    rowLabelTemplate mergeCovariates = Returned m w ->
  Forall (fun msg =>
            exists table sid,
              participantsParsed = Some table
              /\ In sid (subjectsOrderOf (data table) idColumn)
              /\ resolveFileForId pool sid = NotFound
              /\ msg = missingFile sid) w.
Proof.
  intros H.
  destruct participantsParsed as [table|]; [|injection H as _ <-; constructor].
  destruct (isEmpty idColumn) eqn:Hid.
  { unfold buildMatrix in H. rewrite Hid in H. injection H as _ <-.
    constructor. }
  destruct (subjectsOrderOf (data table) idColumn) as [|s0 rest] eqn:Hs.
  { unfold buildMatrix in H. rewrite Hid, Hs in H. injection H as _ <-.
    constructor. }
  assert (Hne : subjectsOrderOf (data table) idColumn <> [])
    by (rewrite Hs; discriminate).
  destruct (buildMatrix_rows _ _ _ _ _ _ _ _ H Hid Hne)
    as (byId & cols & _ & _ & ->).
  rewrite Hs. apply Forall_map, Forall_forall. intros sid Hin.
  apply filter_In in Hin. destruct Hin as [Hin Hun].
  exists table, sid. rewrite Hs. split; [reflexivity|]. split; [exact Hin|].
  split; [|reflexivity].
  unfold unresolved in Hun.
  destruct (resolveFileForId pool sid); [discriminate.. | reflexivity].
Qed.

(** C9.  The roster rows whose identifier is empty once trimmed take no
    part in a build: its outcome (table, warnings or failure) is that of
    the roster without them, so they give no row, no resolution and no
    warning; the table has one row per remaining roster row. *)
Theorem blank_identifier_rows_excluded (pool : SubjectMap)
  (table : ParsedTable) (idColumn rowLabelTemplate : string)
  (mergeCovariates : bool) :
  let kept := {| data := filter (hasIdentifier idColumn) (data table);
                 fields := fields table |} in
  buildMatrix Number_toString pool (Some table) idColumn rowLabelTemplate
    mergeCovariates
  = buildMatrix Number_toString pool (Some kept) idColumn rowLabelTemplate
      mergeCovariates
  /\ forall m w,
       buildMatrix Number_toString pool (Some table) idColumn
         rowLabelTemplate mergeCovariates = Returned m w ->
       (header m <> [] ->
        List.length (rows m)
        = List.length (filter (hasIdentifier idColumn) (data table)))
       /\ Forall (fun msg =>
                    exists r, In r (data table)
                              /\ hasIdentifier idColumn r = true
                              /\ msg = missingFile
                                         (normalizeField (get idColumn r))) w.
Proof.
  intros kept. split.
  - unfold buildMatrix. destruct (isEmpty idColumn); [reflexivity|].
    simpl data. rewrite subjectsOrderOf_kept.
    set (sids := subjectsOrderOf (data table) idColumn).
    destruct (List.length sids =? 0); [reflexivity|].
    destruct (fold_left (collectSubject pool) sids _) as [e | st];
      [reflexivity|].
    destruct (fold_left (unifySubject (parsedById st)) sids _)
      as [e | [metricCols seen]]; [reflexivity|].
    simpl fields. f_equal. f_equal. apply map_ext_in. intros sid Hin.
    symmetry. apply buildRow_kept.
    exact (proj2 (subjectsOrderOf_In _ _ _ Hin)).
  - intros m w H. split.
    + intros Hhdr.
      destruct (isEmpty idColumn) eqn:Hid.
      { unfold buildMatrix in H. rewrite Hid in H.
        injection H as <- _. simpl in Hhdr. congruence. }
      destruct (subjectsOrderOf (data table) idColumn) as [|s0 rest] eqn:Hs.
      { unfold buildMatrix in H. rewrite Hid, Hs in H.
        injection H as <- _. simpl in Hhdr. congruence. }
      assert (Hne : subjectsOrderOf (data table) idColumn <> [])
        by (rewrite Hs; discriminate).
      destruct (buildMatrix_rows _ _ _ _ _ _ _ _ H Hid Hne)
        as (byId & cols & _ & -> & _).
      simpl rows. rewrite length_map. apply subjectsOrderOf_length.
    + pose proof (buildMatrix_warnings _ _ _ _ _ _ _ H) as Hw.
      eapply Forall_impl; [|exact Hw]. cbv beta.
      intros msg (t & sid & Ht & Hin & _ & ->). injection Ht as <-.
      unfold subjectsOrderOf in Hin.
      apply filter_In in Hin. destruct Hin as [Hin Htr].
      apply in_map_iff in Hin. destruct Hin as (r & <- & Hr).
      exists r. split; [exact Hr|]. split; [exact Htr | reflexivity].
Qed.
End Roster.

(** ** Names inherited from [Object.prototype] *)

(** C2, where the code departs from it.  The line [toString: 1]
    contributes the key [toString]; the mapping records it, the discovery
    order does not, because [k in metrics] already holds of the empty
    object. *)
Theorem parseSubjectTxt_inherited_key :
  contributions "toString: 1"
  = [("toString", VNum {| mantissa := 1; exponent := 0 |})]
  /\ parseSubjectTxt "toString: 1"
     = {| metrics := [("toString", VNum {| mantissa := 1; exponent := 0 |})];
          order := [] |}.
Proof. vm_compute. split; reflexivity. Qed.

(** C7, where the code departs from it.  No file is uploaded and the
    identifier is [constructor]: the lookup [subjectFiles[k]] finds the
    inherited member, so the resolver returns it instead of [undefined],
    and the build, calling [text] on it, throws. *)
Theorem resolveFileForId_inherited_name :
  handleSubjectsInput (Some []) = Some emptyDict
  /\ resolveFileForId emptyDict "constructor" = Member "constructor"
  /\ resolveFileForId poolAB "toString.txt" = Member "toString"
  /\ buildMatrix integerText emptyDict (Some (rosterOf ["constructor"]))
       "participant_id" "{id}" false = Failed TypeError.
Proof. vm_compute. repeat split. Qed.

(** C8, where the code departs from it.  [sub-U] has no file and is
    warned about, but its cell under the column [toString], read from
    [{}], is the text of the inherited function, not the empty string. *)
Theorem missing_file_cell_not_blank :
  handleSubjectsInput (Some [fileT]) = Some poolT
  /\ resolveFileForId poolT "sub-U" = NotFound
  /\ buildMatrix integerText poolT (Some (rosterOf ["sub-T"; "sub-U"]))
       "participant_id" "{id}" false
     = Returned
         {| header := ["subject"; "toString"];
            rows := [["sub-T"; "1"];
                     ["sub-U"; "function toString() { [native code] }"]] |}
         ["Missing file for ID: sub-U"].
Proof. vm_compute. repeat split. Qed.

(** C5, where the code departs from it.  [sub-B.txt] is uploaded and
    matches no roster identifier; the build completes and its warning list
    is empty. *)
Theorem unmatched_file_not_reported :
  handleSubjectsInput (Some [fileA; fileB]) = Some poolAB
  /\ subjectsOrderOf (data (rosterOf ["sub-A"])) "participant_id" = ["sub-A"]
  /\ buildMatrix integerText poolAB (Some (rosterOf ["sub-A"]))
       "participant_id" "{id}" false
     = Returned
         {| header := ["subject"; "X"; "Y"]; rows := [["sub-A"; "1"; "2"]] |}
         [].
Proof. vm_compute. repeat split. Qed.

(** ** A record as the prototype of the dictionary *)

(** C1, where the code departs from it.  The file [__proto__.txt] is
    uploaded and the roster names the subjects [__proto__] and [metrics].
    The first resolves to the file, and the assignment
    [parsedById["__proto__"] = parsed] makes its record the prototype of
    [parsedById].  The second has no file, yet [parsedById["metrics"]] is
    then the mapping of that record: the column scan walks the characters
    of its text under [order] and adds the columns [a], [b] and [c],
    which are keys of no parsed mapping. *)
Theorem reparented_dictionary_columns :
  handleSubjectsInput (Some [fileP]) = Some poolP
  /\ subjectsOrderOf (data (rosterOf ["__proto__"; "metrics"])) "participant_id"
     = ["__proto__"; "metrics"]
  /\ resolveFileForId poolP "__proto__" = Uploaded fileP
  /\ resolveFileForId poolP "metrics" = NotFound
  /\ parsedRecords poolP ["__proto__"; "metrics"]
     = [parseSubjectTxt (text fileP)]
  /\ order (parseSubjectTxt (text fileP)) = ["order"; "metrics"]
  /\ map fst (metrics (parseSubjectTxt (text fileP))) = ["order"; "metrics"]
  /\ buildMatrix integerText poolP (Some (rosterOf ["__proto__"; "metrics"]))
       "participant_id" "{id}" false
     = Returned
         {| header := ["subject"; "order"; "metrics"; "a"; "b"; "c"];
            rows := [["__proto__"; "abc"; "5"; ""; ""; ""];
                     ["metrics"; ""; ""; ""; ""; ""]] |}
         ["Missing file for ID: metrics"].
Proof. vm_compute. repeat split. Qed.

(** Once a file is the prototype of the pool, its methods are found under
    their names, reading one of its attributes throws, and so does an
    upload that would store a file under the name of an attribute. *)
Example prototype_file_samples :
  handleSubjectsInput (Some [fileP; fileA]) = Some poolPA
  /\ resolveFileForId poolPA "sub-A" = Uploaded fileA
  /\ resolveFileForId poolPA "__proto__.csv" = Uploaded fileP
  /\ resolveFileForId poolPA "text" = Member "text"
  /\ resolveFileForId poolPA "size" = Raised
  /\ resolveFileForId poolPA "sub-B" = NotFound
  /\ handleSubjectsInput (Some [fileP; {| name := "name"; text := "" |}]) = None
  /\ buildMatrix integerText poolPA (Some (rosterOf ["sub-A"; "size"]))
       "participant_id" "{id}" false = Failed TypeError.
Proof. vm_compute. repeat split. Qed.

(** Once a record is the prototype of [parsedById], the subject [metrics]
    reads its mapping: the characters of the text under [order] and the
    indices of the text under [metrics] become columns, and the row of
    the subject is read from that text: its length, its characters. *)
Example prototype_record_text :
  handleSubjectsInput (Some [fileQ]) = Some poolQ
  /\ buildMatrix integerText poolQ (Some (rosterOf ["__proto__"; "metrics"]))
       "participant_id" "{id}" false
     = Returned
         {| header := ["subject"; "metrics"; "order"; "length"; "x";
                       "0"; "1"; "2"];
            rows := [["__proto__"; "abc"; "x"; "1"; ""; ""; ""; ""];
                     ["metrics"; ""; ""; "3"; ""; "a"; "b"; "c"]] |}
         ["Missing file for ID: metrics"].
Proof. vm_compute. repeat split. Qed.

(** The subject [order] then reads the discovery order of the record, an
    array, which has no [order] to walk: the build throws. *)
Example prototype_record_order :
  handleSubjectsInput (Some [fileR]) = Some poolR
  /\ resolveFileForId poolR "order" = NotFound
  /\ buildMatrix integerText poolR (Some (rosterOf ["__proto__"; "order"]))
       "participant_id" "{id}" false = Failed TypeError.
Proof. vm_compute. repeat split. Qed.

(** What [p?.metrics || {}] is when [p] is a mapping, and the cells read
    from a Number and from a text. *)
Example primitive_metrics_samples :
  metricsOf (ItsMetrics [("metrics", VNum {| mantissa := 0; exponent := 0 |})])
  = Mapping []
  /\ metricsOf (ItsMetrics [("metrics", VNum {| mantissa := 1; exponent := -400 |})])
     = Mapping []
  /\ metricsOf (ItsMetrics [("metrics", VNum {| mantissa := 5; exponent := -324 |})])
     = Primitive (VNum {| mantissa := 5; exponent := -324 |})
  /\ metricsOf (ItsMetrics [("metrics", VStr "")]) = Mapping []
  /\ metricsOf (ItsMetrics [("order", VStr "x")]) = Mapping []
  /\ map (cellOf integerText (Primitive (VNum {| mantissa := 5; exponent := 0 |})))
       ["toFixed"; "constructor"; "hasOwnProperty"; "__proto__"; "length"; "0"]
     = ["function toFixed() { [native code] }";
        "function Number() { [native code] }";
        "function hasOwnProperty() { [native code] }"; "0"; ""; ""]
  /\ map (cellOf integerText (Primitive (VStr "abc")))
       ["length"; "0"; "2"; "3"; "01"; "trimLeft"; "constructor"; "__proto__";
        "isPrototypeOf"; "size"]
     = ["3"; "a"; "c"; ""; ""; "function trimStart() { [native code] }";
        "function String() { [native code] }"; "";
        "function isPrototypeOf() { [native code] }"; ""].
Proof. vm_compute. repeat split. Qed.

(** ** What holds away from the inherited names *)

Lemma filter_all {A : Type} (f : A -> bool) (l : list A) :
  (forall x, In x l -> f x = true) -> filter f l = l.
Proof.
  induction l as [|a rest IH]; intros H; simpl; [reflexivity|].
  rewrite (H a (or_introl eq_refl)). f_equal. apply IH.
  intros x Hx. apply H. right. exact Hx.
Qed.

(** When no contributed key is the name of a member of
    [Object.prototype], the discovery order lists every contributed key
    once, in the order of first occurrence, and each key reads as the
    value of its last occurrence. *)
Theorem parseSubjectTxt_discovery_order (text : string) :
  (forall k, In k (map fst (contributions text)) -> inherited k = false) ->
  order (parseSubjectTxt text)
  = firstOccurrences [] (map fst (contributions text))
  /\ NoDup (order (parseSubjectTxt text))
  /\ (forall k, In k (order (parseSubjectTxt text))
                <-> In k (map fst (contributions text)))
  /\ (forall k, get k (metrics (parseSubjectTxt text))
                = match lastValue k (contributions text) with
                  | Some v => Own v
                  | None => if inherited k then Inherited k else Undefined
                  end).
Proof.
  intros Hni. destruct (parseSubjectTxt_record text) as [Ho Hm].
  assert (Hf : filter notInherited (map fst (contributions text))
               = map fst (contributions text)).
  { apply filter_all. intros k Hk. unfold notInherited.
    rewrite (Hni k Hk). reflexivity. }
  rewrite Hf in Ho. split; [exact Ho|].
  split; [apply parseSubjectTxt_order_NoDup|]. split.
  - intros k. rewrite Ho, firstOccurrences_In. simpl. tauto.
  - intros k. unfold get. rewrite Hm.
    destruct (String.eqb_spec k "__proto__") as [-> | Hp].
    + destruct (lastValue "__proto__" (contributions text)) as [v|] eqn:L;
        [|reflexivity].
      assert (Hin : In "__proto__" (map fst (contributions text)))
        by (apply lastValue_In; eauto).
      apply Hni in Hin. discriminate.
    + destruct (lastValue k (contributions text)); reflexivity.
Qed.

Lemma parseSubjectTxt_discovery_order_witness :
  order (parseSubjectTxt (text fileA)) = ["X"; "Y"]
  /\ get "Y" (metrics (parseSubjectTxt ("Y: 1" ++ newline ++ "Y: 2")))
     = Own (VNum {| mantissa := 2; exponent := 0 |}).
Proof.
  split.
  - refine (proj1 (parseSubjectTxt_discovery_order (text fileA) _)).
    vm_compute. intros k [<- | [<- | []]]; reflexivity.
  - refine (proj2 (proj2 (proj2
      (parseSubjectTxt_discovery_order ("Y: 1" ++ newline ++ "Y: 2") _))) "Y").
    vm_compute. intros k [<- | [<- | []]]; reflexivity.
Defined.

(** ** Resolving a file *)

Lemma getOwn_Some_In {V : Type} (k : string) (v : V) (o : JSObject V) :
  getOwn k o = Some v -> In (k, v) o.
Proof.
  induction o as [|[j w] rest IH]; simpl; [discriminate|].
  destruct (String.eqb_spec j k) as [-> | Hne].
  - intros H. injection H as <-. left. reflexivity.
  - intros H. right. apply IH, H.
Qed.

Lemma get_not_inherited {V : Type} (k : string) (o : JSObject V) :
  inherited k = false ->
  get k o = match getOwn k o with Some v => Own v | None => Undefined end.
Proof. intros H. unfold get. rewrite H. reflexivity. Qed.

Lemma getFile_not_inherited (k : string) (pool : SubjectMap) :
  inheritedBy pool k = false ->
  getFile k pool
  = match getOwn k (own pool) with Some f => Uploaded f | None => NotFound end.
Proof.
  intros H. destruct (getOwn k (own pool)) as [f|] eqn:G.
  - unfold getFile. rewrite G. reflexivity.
  - apply getFile_NotFound. auto.
Qed.

Lemma firstTruthy_exact (pool : SubjectMap) (vs : list string) :
  (forall k, In k vs -> inheritedBy pool k = false) ->
  match firstTruthy pool vs with
  | Uploaded file =>
      exists before k after,
        vs = before ++ k :: after
        /\ Forall (fun j => getOwn j (own pool) = None) before
        /\ getOwn k (own pool) = Some file
  | Member _ | Raised => False
  | NotFound => Forall (fun k => getOwn k (own pool) = None) vs
  end.
Proof.
  induction vs as [|k rest IH]; intros Hni; simpl; [constructor|].
  rewrite (getFile_not_inherited k pool (Hni k (or_introl eq_refl))).
  destruct (getOwn k (own pool)) as [file|] eqn:G.
  - exists [], k, rest. split; [reflexivity|]. split; [constructor | exact G].
  - specialize (IH (fun j Hj => Hni j (or_intror Hj))).
    destruct (firstTruthy pool rest) as [file | j | |].
    + destruct IH as (before & j & after & -> & Hb & Hj).
      exists (k :: before), j, after. split; [reflexivity|].
      split; [constructor; assumption | exact Hj].
    + exact IH.
    + exact IH.
    + constructor; assumption.
Qed.

(** When none of the three candidate names is found along the prototype
    chain of the pool (a member of [Object.prototype] or, once a file has
    become the prototype of the pool, of [File.prototype] or
    [Blob.prototype]), the resolver returns the file stored under the
    first candidate that is an own key of the pool, by exact equality of
    strings, and [undefined] when none is. *)
Theorem resolveFileForId_exact (pool : SubjectMap) (idRaw : string) :
  (forall k, In k (variantsOf idRaw) -> inheritedBy pool k = false) ->
  variantsOf idRaw
  = [trim idRaw; stripExt (trim idRaw); (stripExt (trim idRaw) ++ ".txt")%string]
  /\ match resolveFileForId pool idRaw with
     | Uploaded file =>
         exists before k after,
           variantsOf idRaw = before ++ k :: after
           /\ Forall (fun j => ~ In j (map fst (own pool))) before
           /\ In (k, file) (own pool)
           /\ getOwn k (own pool) = Some file
     | Member _ | Raised => False
     | NotFound =>
         Forall (fun k => ~ In k (map fst (own pool))) (variantsOf idRaw)
     end.
Proof.
  intros Hni. split; [reflexivity|].
  assert (Hnone : forall l, Forall (fun j => getOwn j (own pool) = None) l ->
                            Forall (fun j => ~ In j (map fst (own pool))) l).
  { intros l. apply Forall_impl. intros j Hj Hin.
    apply getOwn_In in Hin. destruct Hin as [v Hv]. congruence. }
  pose proof (firstTruthy_exact pool (variantsOf idRaw) Hni) as H.
  unfold resolveFileForId.
  destruct (firstTruthy pool (variantsOf idRaw)) as [file | j | |].
  - destruct H as (before & k & after & Hv & Hb & Hk).
    exists before, k, after. split; [exact Hv|]. split; [apply Hnone, Hb|].
    split; [apply getOwn_Some_In, Hk | exact Hk].
  - exact H.
  - exact H.
  - apply Hnone, H.
Qed.

Lemma resolveFileForId_exact_witness :
  variantsOf " sub-A " = ["sub-A"; "sub-A"; "sub-A.txt"]
  /\ match resolveFileForId poolPA " sub-A " with
     | Uploaded file =>
         exists before k after,
           variantsOf " sub-A " = before ++ k :: after
           /\ Forall (fun j => ~ In j (map fst (own poolPA))) before
           /\ In (k, file) (own poolPA)
           /\ getOwn k (own poolPA) = Some file
     | Member _ | Raised => False
     | NotFound =>
         Forall (fun k => ~ In k (map fst (own poolPA))) (variantsOf " sub-A ")
     end.
Proof.
  apply (resolveFileForId_exact poolPA " sub-A ").
  vm_compute. intros k [<- | [<- | [<- | []]]]; reflexivity.
Defined.

(** ** A subject without file *)

Lemma rosterRowOf_Some (pRows : list Row) (idColumn sid : string) :
  In sid (subjectsOrderOf pRows idColumn) ->
  exists r, rosterRowOf pRows idColumn sid = Some r.
Proof.
  unfold subjectsOrderOf, rosterRowOf. rewrite filter_In, in_map_iff.
  intros [(r0 & Hr0 & Hin) _].
  destruct (find (fun r => String.eqb (normalizeField (get idColumn r)) sid)
              pRows) as [r|] eqn:F; [eauto|].
  pose proof (find_none _ _ F r0 Hin) as Hn. cbv beta in Hn.
  rewrite Hr0, String.eqb_refl in Hn. discriminate.
Qed.

Section MissingFile.
Variable Number_toString : Decimal -> string.

Lemma metricCell_blank (k : string) :
  metricCell Number_toString (get k (@nil (string * JSValue))) = blankCell k.
Proof.
  unfold get, blankCell. simpl. destruct (inherited k); reflexivity.
Qed.

(** When a build returns and no roster subject is named [__proto__], a
    roster subject for which no file resolves has its warning and its
    row: the label, a blank cell under every metric column (the empty
    string, unless the column is the name of a member of
    [Object.prototype]), and the covariates of the first roster row that
    bears its identifier. *)
Theorem missing_file_row (pool : SubjectMap) (table : ParsedTable)
  (idColumn rowLabelTemplate : string) (mergeCovariates : bool)
  (m : Matrix) (w : list string) (sid : string) :
  buildMatrix Number_toString pool (Some table) idColumn rowLabelTemplate
    mergeCovariates = Returned m w ->
  idColumn <> "" ->
  ~ In "__proto__" (subjectsOrderOf (data table) idColumn) ->
  In sid (subjectsOrderOf (data table) idColumn) ->
  resolveFileForId pool sid = NotFound ->
  In (missingFile sid) w
  /\ exists metricCols r,
       header m = ["subject"] ++ metricCols
                  ++ (if mergeCovariates then covariateColsOf table idColumn
                      else [])
       /\ rosterRowOf (data table) idColumn sid = Some r
       /\ In ([formatRowLabel rowLabelTemplate sid]
              ++ map blankCell metricCols
              ++ (if mergeCovariates
                  then map (fun c => covariateCell (get c r))
                         (covariateColsOf table idColumn)
                  else [])) (rows m)
       /\ ((forall k, In k metricCols -> inherited k = false) ->
           map blankCell metricCols = map (fun _ => "") metricCols).
Proof.
  intros H Hid Hproto Hin Hres.
  assert (Hne : subjectsOrderOf (data table) idColumn <> [])
    by (intros E; rewrite E in Hin; exact Hin).
  apply isEmpty_false in Hid.
  destruct (buildMatrix_shape _ _ _ _ _ _ _ _ H Hid Hne Hproto)
    as (byId & Hlook & _ & -> & ->).
  destruct (rosterRowOf_Some _ _ _ Hin) as [r Hr].
  split.
  - apply in_map, filter_In. split; [exact Hin|].
    unfold unresolved. rewrite Hres. reflexivity.
  - eexists _, r. simpl header. simpl rows.
    split; [reflexivity|]. split; [exact Hr|]. split.
    + apply in_map_iff. exists sid. split; [|exact Hin].
      unfold buildRow. rewrite (Hlook sid Hin), Hres. simpl metricsOf.
      unfold rosterRowOf in Hr. rewrite Hr. unfold cellOf.
      rewrite (map_ext _ blankCell metricCell_blank). reflexivity.
    + intros Hcols. apply map_ext_in. intros k Hk.
      unfold blankCell. rewrite (Hcols k Hk). reflexivity.
Qed.
End MissingFile.

Lemma missing_file_row_witness :
  In (missingFile "sub-C") ["Missing file for ID: sub-C"]
  /\ exists metricCols r,
       ["subject"; "X"; "Y"; "Z"; "age"; "sex"]
       = ["subject"] ++ metricCols
         ++ covariateColsOf (rosterOf ["sub-A"; "sub-B"; "sub-C"])
              "participant_id"
       /\ rosterRowOf (data (rosterOf ["sub-A"; "sub-B"; "sub-C"]))
            "participant_id" "sub-C" = Some r
       /\ In ([formatRowLabel "{id}" "sub-C"]
              ++ map blankCell metricCols
              ++ map (fun c => covariateCell (get c r))
                   (covariateColsOf (rosterOf ["sub-A"; "sub-B"; "sub-C"])
                      "participant_id"))
            [["sub-A"; "1"; "2"; ""; "61"; "F"];
             ["sub-B"; ""; "3"; "4"; "61"; "F"];
             ["sub-C"; ""; ""; ""; "61"; "F"]]
       /\ ((forall k, In k metricCols -> inherited k = false) ->
           map blankCell metricCols = map (fun _ => "") metricCols).
Proof.
  apply (missing_file_row integerText poolAB
           (rosterOf ["sub-A"; "sub-B"; "sub-C"]) "participant_id" "{id}" true
           {| header := ["subject"; "X"; "Y"; "Z"; "age"; "sex"];
              rows := [["sub-A"; "1"; "2"; ""; "61"; "F"];
                       ["sub-B"; ""; "3"; "4"; "61"; "F"];
                       ["sub-C"; ""; ""; ""; "61"; "F"]] |}
           ["Missing file for ID: sub-C"] "sub-C").
  - vm_compute. reflexivity.
  - discriminate.
  - vm_compute. intuition discriminate.
  - vm_compute. tauto.
  - vm_compute. reflexivity.
Defined.

Lemma buildMatrix_total_witness :
  exists m w,
    buildMatrix integerText poolAB (Some (rosterOf ["sub-A"; "sub-C"]))
      "participant_id" "{id}" true = Returned m w.
Proof.
  apply (buildMatrix_total integerText poolAB
           (Some (rosterOf ["sub-A"; "sub-C"])) "participant_id" "{id}" true).
  intros t Ht. injection Ht as <-.
  replace (subjectsOrderOf (data (rosterOf ["sub-A"; "sub-C"])) "participant_id")
    with ["sub-A"; "sub-C"] by (vm_compute; reflexivity).
  split; [simpl; intuition discriminate|].
  constructor; [|constructor; [|constructor]]; unfold resolvesCleanly.
  - replace (resolveFileForId poolAB "sub-A") with (Uploaded fileA)
      by (vm_compute; reflexivity).
    exact I.
  - replace (resolveFileForId poolAB "sub-C") with NotFound
      by (vm_compute; reflexivity).
    exact I.
Defined.

(** ** Worked examples *)

(** An identifier resolves with or without the extension of the file. *)
Example resolveFileForId_samples :
  handleSubjectsInput (Some [file001]) = Some pool001
  /\ resolveFileForId pool001 "sub-001.txt" = Uploaded file001
  /\ resolveFileForId pool001 "sub-001" = Uploaded file001
  /\ resolveFileForId pool001 "sub-001.dat" = Uploaded file001
  /\ resolveFileForId pool001 "SUB-001" = NotFound.
Proof. vm_compute. repeat split. Qed.

(** One subject with a file, one without: a blank row and a warning. *)
Example buildMatrix_end_to_end :
  buildMatrix integerText pool001
    (Some (rosterOf ["sub-001"; "sub-002"])) "participant_id" "{id}" false
  = Returned
      {| header := ["subject"; "Left-Hippocampus"; "Right-Hippocampus"];
         rows := [["sub-001"; "3500"; "3600"]; ["sub-002"; ""; ""]] |}
      ["Missing file for ID: sub-002"].
Proof. vm_compute. reflexivity. Qed.

(** Covariates follow the metric columns, the identifier column apart. *)
Example buildMatrix_covariates :
  buildMatrix integerText poolAB (Some (rosterOf ["sub-B"; "sub-A"]))
    "participant_id" "{base}/stats" true
  = Returned
      {| header := ["subject"; "Y"; "Z"; "X"; "age"; "sex"];
         rows := [["sub-B/stats"; "3"; "4"; ""; "61"; "F"];
                  ["sub-A/stats"; "2"; ""; "1"; "61"; "F"]] |}
      [].
Proof. vm_compute. reflexivity. Qed.

(** * Further properties of the code *)

(** ** [normalize], [stripExt] and [coerceNumber] *)

Lemma trimStart_empty (s : string) : trimStart s = "" <-> allWhiteSpace s = true.
Proof.
  induction s as [|c r IH]; simpl; [tauto|].
  destruct (isWhiteSpace c); simpl; [exact IH|].
  split; discriminate.
Qed.

Lemma trimEnd_head_nonempty (s : string) :
  headNotSpace s -> trimEnd s = "" -> s = "".
Proof.
  destruct s as [|c r]; [reflexivity|]. simpl. intros ->. discriminate.
Qed.

Lemma trim_empty (s : string) : trim s = "" <-> allWhiteSpace s = true.
Proof.
  rewrite <- trimStart_empty. unfold trim. split.
  - apply trimEnd_head_nonempty, trimStart_head.
  - intros ->. reflexivity.
Qed.

(** [normalize] gives a string without white space at either end, leaves
    such a string as it is, and gives the empty string exactly on the
    strings made of white space only. *)
Theorem normalize_clean (s : string) :
  trimStart (normalize s) = normalize s
  /\ trimEnd (normalize s) = normalize s
  /\ normalize (normalize s) = normalize s
  /\ (normalize s = "" <-> allWhiteSpace s = true).
Proof.
  unfold normalize. split; [apply trimStart_fixed, trim_head|].
  split; [apply trimEnd_idempotent|]. split; [apply trim_idempotent|].
  apply trim_empty.
Qed.

Lemma noDot_app_dot (a b : string) : noDot (a ++ String "." b) = false.
Proof.
  induction a as [|c r IH]; simpl; [reflexivity|].
  rewrite IH. apply andb_false_r.
Qed.

(** Appending an extension (a dot and one or more characters other than
    a dot) and stripping it gives the name back, whatever dots the name
    holds. *)
Theorem stripExt_append_ext (base ext : string) :
  ext <> "" -> noDot ext = true ->
  stripExt (base ++ String "." ext) = base.
Proof.
  intros Hne Hnd. apply truthy_true in Hne.
  induction base as [|c r IH]; simpl.
  - rewrite Hne, Hnd. reflexivity.
  - rewrite noDot_app_dot, andb_false_r, IH. reflexivity.
Qed.

Lemma stripExt_append_ext_witness :
  stripExt ("sub-001.v2" ++ String "." "txt") = "sub-001.v2".
Proof. apply stripExt_append_ext; [discriminate | reflexivity]. Defined.

(** [stripExt] removes at most a final extension: the name is what it
    returns followed by nothing or by a dot and a non-empty run of
    characters other than a dot; a name without dot, or that ends with
    its last dot, is returned as it is. *)
Theorem stripExt_removes_extension (name : string) :
  (exists ext,
     name = (stripExt name ++ ext)%string
     /\ (ext = ""
         \/ exists e, ext = String "." e /\ e <> "" /\ noDot e = true))
  /\ (noDot name = true -> stripExt name = name)
  /\ stripExt (name ++ ".") = (name ++ ".")%string.
Proof.
  split; [|split].
  - induction name as [|c r IH]; simpl.
    + exists "". split; [reflexivity | left; reflexivity].
    + destruct (Ascii.eqb_spec c ".") as [-> | Hc]; simpl.
      * destruct (truthy r && noDot r) eqn:E.
        -- apply andb_true_iff in E. destruct E as [Ht Hn].
           exists (String "." r). split; [reflexivity|]. right.
           exists r. split; [reflexivity|].
           split; [apply truthy_true, Ht | exact Hn].
        -- destruct IH as (ext & Hext & Hcase). exists ext.
           split; [simpl; f_equal; exact Hext | exact Hcase].
      * destruct IH as (ext & Hext & Hcase). exists ext.
        split; [simpl; f_equal; exact Hext | exact Hcase].
  - induction name as [|c r IH]; simpl; [reflexivity|].
    intros H. apply andb_true_iff in H. destruct H as [Hc Hr].
    apply negb_true_iff in Hc. rewrite Hc. simpl. rewrite (IH Hr).
    reflexivity.
  - induction name as [|c r IH]; simpl; [reflexivity|].
    rewrite noDot_app_dot, andb_false_r, IH. reflexivity.
Qed.

Lemma coerceNumber_trim (v : string) : coerceNumber (trim v) = coerceNumber v.
Proof. unfold coerceNumber. rewrite trim_idempotent. reflexivity. Qed.

(** A text result of [coerceNumber] is the trimmed input, is empty only
    for a blank input, and is stable: coercing it again gives it back.  A
    number result comes from a non-blank input whose whole trimmed text
    reads as that finite number. *)
Theorem coerceNumber_results (v : string) :
  match coerceNumber v with
  | VStr s =>
      s = trim v
      /\ coerceNumber s = VStr s
      /\ (s = "" <-> allWhiteSpace v = true)
  | VNum d => trim v <> "" /\ Number_ (trim v) = Finite d
  end.
Proof.
  pose proof (trim_empty v) as Hblank.
  assert (Hre : forall s, coerceNumber v = VStr s -> s = trim v).
  { unfold coerceNumber. rewrite eqb_empty. intros s.
    destruct (isEmpty (trim v)) eqn:E.
    - apply isEmpty_true in E. rewrite E. congruence.
    - destruct (Number_ (trim v)); congruence. }
  destruct (coerceNumber v) as [d | s] eqn:C.
  - unfold coerceNumber in C. rewrite eqb_empty in C.
    destruct (isEmpty (trim v)) eqn:E; [discriminate|].
    split; [apply isEmpty_false, E|].
    destruct (Number_ (trim v)); congruence.
  - pose proof (Hre s eq_refl) as Hs. split; [exact Hs|]. split.
    + rewrite Hs, coerceNumber_trim, C, Hs. reflexivity.
    + rewrite Hs. exact Hblank.
Qed.

(** ** [sniffDelimiterFromFilename] *)

Lemma mapString_length (f : ascii -> ascii) (s : string) :
  String.length (mapString f s) = String.length s.
Proof. induction s as [|c r IH]; simpl; congruence. Qed.

Lemma drop_mapString (f : ascii -> ascii) (k : nat) (s : string) :
  drop k (mapString f s) = mapString f (drop k s).
Proof.
  revert s. induction k as [|k IH]; intros [|c r]; simpl; auto.
Qed.

Lemma take_drop (k : nat) (s : string) : s = (take k s ++ drop k s)%string.
Proof.
  revert s. induction k as [|k IH]; intros [|c r]; simpl; auto.
  f_equal. apply IH.
Qed.

Lemma drop_length_app (a b : string) : drop (String.length a) (a ++ b) = b.
Proof. induction a as [|c r IH]; simpl; [destruct b; reflexivity | exact IH]. Qed.

Lemma append_length (a b : string) :
  String.length (a ++ b) = String.length a + String.length b.
Proof. induction a as [|c r IH]; simpl; congruence. Qed.

Lemma drop_length (k : nat) (s : string) :
  String.length (drop k s) = String.length s - k.
Proof.
  revert s. induction k as [|k IH]; intros [|c r]; simpl; auto.
Qed.

Lemma lowerUnit_dot (a : ascii) : lowerUnit a = "."%char -> a = "."%char.
Proof.
  destruct a as [[] [] [] [] [] [] [] []]; vm_compute; intros H;
    solve [reflexivity | discriminate H].
Qed.

Lemma lowerUnit_letter (a x X : ascii) :
  In (x, X) [("t", "T"); ("s", "S"); ("v", "V")]%char ->
  lowerUnit a = x <-> a = x \/ a = X.
Proof.
  intros [E | [E | [E | []]]]; injection E as <- <-;
    destruct a as [[] [] [] [] [] [] [] []]; vm_compute;
    (split; [intros H; solve [discriminate H | auto]
            | intros [H | H]; solve [discriminate H | reflexivity]]).
Qed.

(** The delimiter is a tab exactly when the name ends with [.tsv] in any
    mix of cases, and a comma for every other name. *)
Theorem sniffDelimiterFromFilename_tsv (name : string) :
  (sniffDelimiterFromFilename name = String "009" ""
   \/ sniffDelimiterFromFilename name = ",")
  /\ (sniffDelimiterFromFilename name = String "009" ""
      <-> exists stem a b c,
            name = (stem ++ String "." (String a (String b (String c ""))))%string
            /\ (a = "t" \/ a = "T")%char
            /\ (b = "s" \/ b = "S")%char
            /\ (c = "v" \/ c = "V")%char).
Proof.
  unfold sniffDelimiterFromFilename. split.
  - destruct (endsWith ".tsv" (toLowerCase name)); [left; reflexivity|].
    destruct (endsWith ".csv" (toLowerCase name)); right; reflexivity.
  - transitivity (endsWith ".tsv" (toLowerCase name) = true).
    { destruct (endsWith ".tsv" (toLowerCase name)); [tauto|].
      destruct (endsWith ".csv" (toLowerCase name)); split; discriminate. }
    unfold endsWith, toLowerCase.
    rewrite mapString_length, drop_mapString, andb_true_iff, Nat.leb_le,
      String.eqb_eq.
    simpl String.length. split.
    + intros [Hlen Hsuf].
      pose proof (take_drop (String.length name - 4) name) as Hcut.
      pose proof (drop_length (String.length name - 4) name) as Hl.
      destruct (drop (String.length name - 4) name)
        as [|d [|a [|b [|c [|e r]]]]]; simpl in Hsuf; try discriminate Hsuf.
      injection Hsuf as Hd Ha Hb Hc.
      apply lowerUnit_dot in Hd. subst d.
      exists (take (String.length name - 4) name), a, b, c.
      split; [exact Hcut|].
      split; [apply (lowerUnit_letter a "t" "T"); simpl; auto|].
      split; [apply (lowerUnit_letter b "s" "S"); simpl; auto|].
      apply (lowerUnit_letter c "v" "V"); simpl; auto.
    + intros (stem & a & b & c & -> & Ha & Hb & Hc).
      rewrite append_length. simpl String.length. split; [lia|].
      replace (String.length stem + 4 - 4) with (String.length stem) by lia.
      rewrite drop_length_app. simpl.
      apply (lowerUnit_letter a "t" "T") in Ha; [|simpl; auto].
      apply (lowerUnit_letter b "s" "S") in Hb; [|simpl; auto].
      apply (lowerUnit_letter c "v" "V") in Hc; [|simpl; auto].
      rewrite Ha, Hb, Hc. reflexivity.
Qed.

(** ** Lines that contribute nothing *)

Lemma splitWhiteSpaceFrom_not_nil (b : bool) (s : string) :
  splitWhiteSpaceFrom b s <> [].
Proof.
  revert b. induction s as [|c r IH]; intros b; simpl; [discriminate|].
  destruct (isWhiteSpace c).
  - destruct b; [apply IH | discriminate].
  - destruct (splitWhiteSpaceFrom false r); discriminate.
Qed.

Lemma splitWhiteSpace_word (s : string) :
  noWhiteSpace s = true -> splitWhiteSpace s = [s].
Proof.
  unfold splitWhiteSpace. induction s as [|c r IH]; simpl; [reflexivity|].
  intros H. apply andb_true_iff in H. destruct H as [Hc Hr].
  apply negb_true_iff in Hc. rewrite Hc, (IH Hr). reflexivity.
Qed.

Lemma noWhiteSpace_trim (s : string) : noWhiteSpace s = true -> trim s = s.
Proof.
  intros H. unfold trim.
  assert (Hs : trimStart s = s).
  { destruct s as [|c r]; [reflexivity|]. simpl in *.
    apply andb_true_iff in H. destruct H as [Hc _].
    apply negb_true_iff in Hc. rewrite Hc. reflexivity. }
  rewrite Hs. clear Hs. induction s as [|c r IH]; simpl; [reflexivity|].
  simpl in H. apply andb_true_iff in H. destruct H as [Hc Hr].
  apply negb_true_iff in Hc. rewrite Hc, (IH Hr). reflexivity.
Qed.

Lemma noWhiteSpace_no_tab (s : string) :
  noWhiteSpace s = true -> contains "009" s = false.
Proof.
  induction s as [|c r IH]; simpl; [reflexivity|].
  intros H. apply andb_true_iff in H. destruct H as [Hc Hr].
  rewrite (IH Hr), orb_false_r.
  destruct (Ascii.eqb_spec c "009") as [-> | Hne]; [discriminate Hc | reflexivity].
Qed.

(** A line made of a single token (no white space, no comma, and no
    colon after its first character) leaves the record as it was: it has
    no value to give. *)
Theorem single_token_line_ignored (p : ParsedSubject) (line : string) :
  noWhiteSpace line = true ->
  contains "," line = false ->
  (indexOf ":" line <= 0)%Z ->
  splitByAny line = [line] /\ parseLine p line = p.
Proof.
  intros Hws Hcomma Hc.
  assert (Hsplit : splitByAny line = [line]).
  { unfold splitByAny. rewrite !splitChar_many.
    rewrite (noWhiteSpace_no_tab line Hws), Hcomma, (noWhiteSpace_trim line Hws).
    apply splitWhiteSpace_word, Hws. }
  split; [exact Hsplit|]. unfold parseLine.
  destruct (isEmpty line); [reflexivity|].
  destruct (isHeaderMarker line); [reflexivity|].
  replace (0 <? indexOf ":" line)%Z with false
    by (symmetry; apply Z.ltb_ge; exact Hc).
  rewrite Hsplit. reflexivity.
Qed.

Lemma single_token_line_ignored_witness :
  splitByAny ":3500" = [":3500"]
  /\ parseLine (parseSubjectTxt "a: 1") ":3500" = parseSubjectTxt "a: 1".
Proof.
  apply single_token_line_ignored.
  - reflexivity.
  - reflexivity.
  - vm_compute. discriminate.
Defined.

(** ** Parsing line by line *)

Lemma trim_commute (s : string) : trim s = trimStart (trimEnd s).
Proof.
  unfold trim. induction s as [|c r IH]; simpl; [reflexivity|].
  destruct (isWhiteSpace c) eqn:E; simpl.
  - rewrite IH. destruct (isEmpty (trimEnd r)) eqn:Er.
    + apply isEmpty_true in Er. rewrite Er. reflexivity.
    + simpl. rewrite E. reflexivity.
  - rewrite E. reflexivity.
Qed.

Lemma map_trimEnd_consHead (c : ascii) (l : list string) :
  map trimEnd (consHead c l) = consTrimmed c (map trimEnd l).
Proof. destruct l as [|h t]; reflexivity. Qed.

Lemma splitLines_not_nil (t : string) : splitLines t <> [].
Proof.
  induction t as [|c r IH]; simpl; [discriminate|].
  destruct (Ascii.eqb c "010"); [discriminate|].
  destruct r as [|d r'].
  - discriminate.
  - destruct (Ascii.eqb c "013" && Ascii.eqb d "010"); [discriminate|].
    destruct (splitLines (String d r')); [contradiction | discriminate].
Qed.

Lemma consTrimmed_app (c : ascii) (l1 l2 : list string) :
  l1 <> [] -> consTrimmed c (l1 ++ l2) = consTrimmed c l1 ++ l2.
Proof. destruct l1; [congruence | reflexivity]. Qed.

(** The lines of [t1], a separator and [t2], up to trailing white space:
    those of [t1] followed by those of [t2].  The separator is a line
    feed, alone or after a carriage return. *)
Lemma splitLines_append (sep t1 t2 : string) :
  sep = String "010" "" \/ sep = String "013" (String "010" "") ->
  map trimEnd (splitLines (t1 ++ sep ++ t2))
  = map trimEnd (splitLines t1) ++ map trimEnd (splitLines t2).
Proof.
  intros Hsep.
  assert (Hbase : map trimEnd (splitLines (sep ++ t2))
                  = "" :: map trimEnd (splitLines t2))
    by (destruct Hsep as [-> | ->]; reflexivity).
  induction t1 as [|c r IH].
  - exact Hbase.
  - change ((String c r ++ sep ++ t2)%string)
      with (String c (r ++ sep ++ t2)%string).
    cbn [splitLines].
    destruct (Ascii.eqb c "010") eqn:Ec.
    { simpl. f_equal. exact IH. }
    destruct r as [|d r'].
    + (* the last character of [t1] *)
      change (("" ++ sep ++ t2)%string) with ((sep ++ t2)%string) in *.
      change (splitLines "") with [""].
      destruct Hsep as [-> | ->].
      * change ((String "010" "" ++ t2)%string) with (String "010" t2).
        change (splitLines (String "010" t2)) with ("" :: splitLines t2).
        cbv beta iota.
        change (Ascii.eqb "010" "010") with true. rewrite andb_true_r.
        destruct (Ascii.eqb_spec c "013") as [-> | Hr]; [reflexivity|].
        simpl. destruct (isWhiteSpace c); reflexivity.
      * change ((String "013" (String "010" "") ++ t2)%string)
          with (String "013" (String "010" t2)).
        change (splitLines (String "013" (String "010" t2)))
          with ("" :: splitLines t2).
        cbv beta iota.
        change (Ascii.eqb "013" "010") with false. rewrite andb_false_r.
        simpl. destruct (isWhiteSpace c); reflexivity.
    + change ((String d r' ++ sep ++ t2)%string)
        with (String d (r' ++ sep ++ t2)%string) in *.
      cbv beta iota.
      destruct (Ascii.eqb c "013" && Ascii.eqb d "010") eqn:Ecr.
      * apply andb_true_iff in Ecr. destruct Ecr as [Ecc Ed].
        apply Ascii.eqb_eq in Ecc, Ed. subst c d.
        cbn [splitLines] in IH. simpl in IH. injection IH as IH.
        simpl. f_equal. exact IH.
      * rewrite !map_trimEnd_consHead, IH.
        apply consTrimmed_app.
        intros E. apply map_eq_nil in E. exact (splitLines_not_nil _ E).
Qed.

Lemma linesOf_trimEnd (t : string) :
  linesOf t = filter truthy (map trimStart (map trimEnd (splitLines t))).
Proof.
  unfold linesOf. rewrite map_map. f_equal. apply map_ext.
  intros s. apply trim_commute.
Qed.

Lemma linesOf_append (sep t1 t2 : string) :
  sep = String "010" "" \/ sep = String "013" (String "010" "") ->
  linesOf (t1 ++ sep ++ t2) = linesOf t1 ++ linesOf t2.
Proof.
  intros Hsep. rewrite !linesOf_trimEnd, (splitLines_append sep t1 t2 Hsep).
  rewrite map_app, filter_app. reflexivity.
Qed.

Lemma parse_append (sep t1 t2 : string) :
  sep = String "010" "" \/ sep = String "013" (String "010" "") ->
  parseSubjectTxt (t1 ++ sep ++ t2)
  = fold_left parseLine (linesOf t2) (parseSubjectTxt t1).
Proof.
  intros Hsep. unfold parseSubjectTxt.
  rewrite (linesOf_append sep t1 t2 Hsep), fold_left_app. reflexivity.
Qed.

(** Parsing goes line by line: after a line break the lines of the rest
    are applied to the record of what precedes, and a break written
    CR LF gives the same record as one written LF. *)
Theorem parseSubjectTxt_line_by_line (t1 t2 : string) :
  parseSubjectTxt (t1 ++ newline ++ t2)
  = fold_left parseLine (linesOf t2) (parseSubjectTxt t1)
  /\ parseSubjectTxt (t1 ++ String "013" newline ++ t2)
     = parseSubjectTxt (t1 ++ newline ++ t2).
Proof.
  split.
  - apply parse_append. left. reflexivity.
  - rewrite (parse_append (String "013" newline) t1 t2)
      by (right; reflexivity).
    rewrite (parse_append newline t1 t2) by (left; reflexivity).
    reflexivity.
Qed.

Lemma parse_header_lines (lines : list string) (p : ParsedSubject) :
  (forall line, In line lines -> isHeaderMarker line = true) ->
  fold_left parseLine lines p = p.
Proof.
  revert p. induction lines as [|line rest IH]; intros p H; simpl.
  - reflexivity.
  - rewrite IH by (intros l Hl; apply H; right; exact Hl).
    unfold parseLine. rewrite (H line (or_introl eq_refl)).
    destruct (isEmpty line); reflexivity.
Qed.

(** Leading lines that are blank or header markers change nothing: the
    record is that of the rest of the text. *)
Theorem leading_header_lines_ignored (h t : string) :
  (forall line, In line (linesOf h) -> isHeaderMarker line = true) ->
  parseSubjectTxt (h ++ newline ++ t) = parseSubjectTxt t.
Proof.
  intros H. rewrite (parse_append newline h t) by (left; reflexivity).
  unfold parseSubjectTxt. rewrite (parse_header_lines _ _ H).
  reflexivity.
Qed.

Lemma leading_header_lines_ignored_witness :
  parseSubjectTxt (("MEASURE:VOLUME  sub-001" ++ newline ++ "   ")
                   ++ newline ++ "X: 1")
  = parseSubjectTxt "X: 1".
Proof.
  apply leading_header_lines_ignored.
  replace (linesOf ("MEASURE:VOLUME  sub-001" ++ newline ++ "   "))
    with ["MEASURE:VOLUME  sub-001"] by (vm_compute; reflexivity).
  intros line [<- | []]. reflexivity.
Defined.

(** ** The invariant of a parsed record *)

Lemma putOwn_keys_NoDup {V : Type} (k : string) (v : V) (o : JSObject V) :
  NoDup (map fst o) -> NoDup (map fst (putOwn k v o)).
Proof.
  intros H. rewrite keys_putOwn. destruct (hasOwn k o) eqn:E; [exact H|].
  apply NoDup_app; [exact H | repeat constructor; intros [] |].
  intros j Hj [<- | []]. apply hasOwn_In in Hj. congruence.
Qed.

Lemma recordAll_keys_NoDup (kvs : list (string * JSValue)) (p : ParsedSubject) :
  NoDup (map fst (metrics p)) ->
  NoDup (map fst (metrics (fold_left recordPair kvs p))).
Proof.
  revert p. induction kvs as [|[k v] rest IH]; intros p H; simpl; [exact H|].
  apply IH. unfold recordPair, recordMetric. simpl.
  destruct (truthy k); [|exact H].
  unfold assign. destruct (String.eqb k "__proto__"); [exact H|].
  apply putOwn_keys_NoDup, H.
Qed.

(** Whatever the text, the record has no duplicate in its discovery
    order nor among its keys; every key of the order is a key of the
    mapping; a key of the mapping missing from the order is the name of a
    member of [Object.prototype]; and neither the empty string nor
    [__proto__] is ever a key. *)
Theorem parseSubjectTxt_invariant (text : string) :
  let p := parseSubjectTxt text in
  NoDup (order p)
  /\ NoDup (map fst (metrics p))
  /\ (forall k, In k (order p) -> hasOwn k (metrics p) = true)
  /\ (forall k, hasOwn k (metrics p) = true ->
                In k (order p) \/ inherited k = true)
  /\ hasOwn "" (metrics p) = false
  /\ hasOwn "__proto__" (metrics p) = false.
Proof.
  intros p. subst p. destruct (parseSubjectTxt_record text) as [Ho Hm].
  split; [apply parseSubjectTxt_order_NoDup|]. split.
  { rewrite parseSubjectTxt_fold. apply recordAll_keys_NoDup. constructor. }
  split.
  { intros k Hk. apply hasOwn_In, parseSubjectTxt_order_own, Hk. }
  split.
  { intros k Hk. unfold hasOwn in Hk. rewrite Hm in Hk.
    destruct (String.eqb k "__proto__"); [discriminate|].
    destruct (inherited k) eqn:Ei; [right; reflexivity|]. left.
    rewrite Ho, firstOccurrences_In, filter_In. unfold notInherited.
    rewrite Ei. split; [|intros []]. split; [|reflexivity].
    apply lastValue_In. destruct (lastValue k (contributions text)); eauto.
    discriminate. }
  split.
  { unfold hasOwn. rewrite Hm. simpl.
    destruct (lastValue "" (contributions text)) as [v|] eqn:L; [|reflexivity].
    assert (Hin : In "" (map fst (contributions text)))
      by (apply lastValue_In; eauto).
    apply in_map_iff in Hin. destruct Hin as ([k w] & Hk & Hin).
    pose proof (contributionsOf_keys (linesOf text)) as Hkeys.
    apply (proj1 (Forall_forall _ _) Hkeys) in Hin. simpl in *. congruence. }
  unfold hasOwn. rewrite Hm. reflexivity.
Qed.

(** ** The pool of uploaded files *)

Lemma indexFile_None (fs : list File) : fold_left indexFile fs None = None.
Proof. induction fs as [|f rest IH]; simpl; [reflexivity | exact IH]. Qed.

(** An assignment that does not throw is the plain one. *)
Lemma assignFile_Some (k : string) (f : File) (m m' : SubjectMap) :
  assignFile k f m = Some m' -> m' = assignObject k f m.
Proof.
  unfold assignFile. destruct (hasOwn k (own m)); [congruence|].
  destruct (parent m); [|congruence].
  destruct (fileAttribute k); [discriminate | congruence].
Qed.

Lemma indexFiles_lookup (fs : list File) (m0 pool : SubjectMap) :
  fold_left indexFile fs (Some m0) = Some pool ->
  hasOwn "__proto__" (own m0) = false ->
  (forall k, kept k pool
             = match lastIndexed k fs with
               | Some f => Some f
               | None => kept k m0
               end)
  /\ hasOwn "__proto__" (own pool) = false.
Proof.
  revert m0. induction fs as [|f0 rest IH]; intros m0 H Hinv.
  - injection H as <-. split; [reflexivity | exact Hinv].
  - cbn [fold_left] in H.
    destruct (indexFile (Some m0) f0) as [m2|] eqn:E;
      [|rewrite indexFile_None in H; discriminate].
    unfold indexFile in E.
    destruct (assignFile (normalize (name f0)) f0 m0) as [m1|] eqn:A1;
      [|discriminate].
    apply assignFile_Some in A1. apply assignFile_Some in E. subst m1 m2.
    destruct (kept_assignObject (normalize (name f0)) "" f0 m0 Hinv)
      as [_ Hinv1].
    destruct (kept_assignObject (stripExt (normalize (name f0))) "" f0 _ Hinv1)
      as [_ Hinv2].
    destruct (IH _ H Hinv2) as [Hk Hinv']. split; [|exact Hinv'].
    intros k. rewrite Hk. cbn [lastIndexed].
    destruct (lastIndexed k rest); [reflexivity|].
    rewrite (proj1 (kept_assignObject _ k f0 _ Hinv1)).
    rewrite (proj1 (kept_assignObject _ k f0 _ Hinv)).
    destruct (String.eqb (stripExt (normalize (name f0))) k);
      [rewrite orb_true_r; reflexivity|].
    rewrite orb_false_r.
    destruct (String.eqb (normalize (name f0)) k); reflexivity.
Qed.

Lemma lastIndexed_Some (k : string) (fs : list File) (g : File) :
  lastIndexed k fs = Some g -> In g fs /\ indexedUnder k g = true.
Proof.
  induction fs as [|f rest IH]; simpl; [discriminate|].
  destruct (lastIndexed k rest) as [g'|].
  - intros H. injection H as ->. destruct (IH eq_refl). auto.
  - fold (indexedUnder k f). destruct (indexedUnder k f) eqn:E; [|discriminate].
    intros H. injection H as <-. auto.
Qed.

Lemma lastIndexed_found (k : string) (fs : list File) (f : File) :
  In f fs -> indexedUnder k f = true -> exists g, lastIndexed k fs = Some g.
Proof.
  induction fs as [|f0 rest IH]; simpl; [tauto|].
  intros Hin Hk. destruct (lastIndexed k rest) as [g|]; [eauto|].
  destruct Hin as [-> | Hin].
  - fold (indexedUnder k f). rewrite Hk. eauto.
  - destruct (IH Hin Hk) as [g Hg]. discriminate.
Qed.

Lemma lastIndexed_None (k : string) (fs : list File) :
  (forall h, In h fs -> indexedUnder k h = false) -> lastIndexed k fs = None.
Proof.
  induction fs as [|f rest IH]; intros H; simpl; [reflexivity|].
  rewrite IH by (intros h Hh; apply H; right; exact Hh).
  fold (indexedUnder k f). rewrite (H f (or_introl eq_refl)). reflexivity.
Qed.

Lemma lastIndexed_app (k : string) (fs gs : list File) :
  lastIndexed k (fs ++ gs)
  = match lastIndexed k gs with
    | Some g => Some g
    | None => lastIndexed k fs
    end.
Proof.
  induction fs as [|f rest IH]; simpl.
  - destruct (lastIndexed k gs); reflexivity.
  - rewrite IH. destruct (lastIndexed k gs); reflexivity.
Qed.

(** What the pool keeps.  Under every key other than [__proto__] its own
    property is the last uploaded file whose trimmed name, or that name
    without extension, is the key, and it has no other own property;
    [__proto__] is never an own key: the last uploaded file indexed under
    it is the prototype of the pool, which stays [Object.prototype] when
    there is none. *)
Theorem handleSubjectsInput_lookup (fs : list File) (pool : SubjectMap) :
  handleSubjectsInput (Some fs) = Some pool ->
  (forall k, k <> "__proto__" -> getOwn k (own pool) = lastIndexed k fs)
  /\ getOwn "__proto__" (own pool) = None
  /\ parent pool = lastIndexed "__proto__" fs.
Proof.
  intros H. destruct (indexFiles_lookup fs emptyDict pool H eq_refl)
    as [Hk Hinv].
  split; [|split].
  - intros k Hne. specialize (Hk k). unfold kept in Hk.
    apply String.eqb_neq in Hne. rewrite Hne in Hk. rewrite Hk.
    destruct (lastIndexed k fs); reflexivity.
  - unfold hasOwn in Hinv.
    destruct (getOwn "__proto__" (own pool)); [discriminate | reflexivity].
  - specialize (Hk "__proto__"). unfold kept in Hk.
    rewrite String.eqb_refl in Hk. rewrite Hk.
    destruct (lastIndexed "__proto__" fs); reflexivity.
Qed.

Lemma handleSubjectsInput_lookup_witness :
  (forall k, k <> "__proto__" ->
             getOwn k (own poolPA) = lastIndexed k [fileP; fileA])
  /\ getOwn "__proto__" (own poolPA) = None
  /\ parent poolPA = lastIndexed "__proto__" [fileP; fileA].
Proof.
  apply (handleSubjectsInput_lookup [fileP; fileA] poolPA).
  vm_compute. reflexivity.
Defined.

(** Without a file indexed under [__proto__] the upload completes, and
    the prototype of the pool is [Object.prototype]. *)
Lemma indexFiles_plain (fs : list File) (m0 : SubjectMap) :
  parent m0 = None ->
  (forall f, In f fs -> indexedUnder "__proto__" f = false) ->
  exists pool,
    fold_left indexFile fs (Some m0) = Some pool /\ parent pool = None.
Proof.
  revert m0. induction fs as [|f0 rest IH]; intros m0 Hp Hno; simpl.
  - eauto.
  - pose proof (Hno f0 (or_introl eq_refl)) as H0. unfold indexedUnder in H0.
    apply orb_false_iff in H0. destruct H0 as [Hfull Hbase].
    assert (Hstep : forall k m, parent m = None -> String.eqb k "__proto__" = false ->
              assignFile k f0 m = Some (assignObject k f0 m)
              /\ parent (assignObject k f0 m) = None).
    { intros k m Hm Hk. unfold assignFile, assignObject. rewrite Hm, Hk.
      cbn [andb parent]. destruct (hasOwn k (own m)); auto. }
    destruct (Hstep _ m0 Hp Hfull) as [-> Hp1].
    destruct (Hstep _ _ Hp1 Hbase) as [-> Hp2].
    apply IH; [exact Hp2|]. intros f Hf. apply Hno. right. exact Hf.
Qed.

(** An upload in which no file is named [__proto__], with or without
    extension, never throws. *)
Theorem handleSubjectsInput_returns (fs : list File) :
  (forall f, In f fs -> indexedUnder "__proto__" f = false) ->
  exists pool,
    handleSubjectsInput (Some fs) = Some pool
    /\ parent pool = None
    /\ forall k, getOwn k (own pool) = lastIndexed k fs.
Proof.
  intros Hno.
  destruct (indexFiles_plain fs emptyDict eq_refl Hno) as (pool & H & Hp).
  exists pool. split; [exact H|]. split; [exact Hp|].
  destruct (indexFiles_lookup fs emptyDict pool H eq_refl) as [Hk Hinv].
  intros k. destruct (String.eqb_spec k "__proto__") as [-> | Hne].
  - rewrite (lastIndexed_None _ _ Hno). unfold hasOwn in Hinv.
    destruct (getOwn "__proto__" (own pool)); [discriminate | reflexivity].
  - specialize (Hk k). unfold kept in Hk.
    apply String.eqb_neq in Hne. rewrite Hne in Hk. rewrite Hk.
    destruct (lastIndexed k fs); reflexivity.
Qed.

Lemma handleSubjectsInput_returns_witness :
  exists pool,
    handleSubjectsInput (Some [fileA; fileB]) = Some pool
    /\ parent pool = None
    /\ forall k, getOwn k (own pool) = lastIndexed k [fileA; fileB].
Proof.
  apply (handleSubjectsInput_returns [fileA; fileB]).
  intros f [<- | [<- | []]]; reflexivity.
Defined.

(** Once uploaded, a file is found again under its own name: the
    resolver returns the last uploaded file indexed under that name,
    which is the file itself unless a later upload took the name. *)
Theorem uploaded_file_resolves (fs : list File) (pool : SubjectMap) (f : File) :
  handleSubjectsInput (Some fs) = Some pool ->
  In f fs ->
  exists g,
    lastIndexed (normalize (name f)) fs = Some g
    /\ resolveFileForId pool (name f) = Uploaded g
    /\ In g fs
    /\ (normalize (name g) = normalize (name f)
        \/ stripExt (normalize (name g)) = normalize (name f))
    /\ (forall before after,
          fs = before ++ f :: after ->
          (forall h, In h after -> indexedUnder (normalize (name f)) h = false) ->
          g = f).
Proof.
  intros H Hin.
  assert (Hk : indexedUnder (normalize (name f)) f = true)
    by (unfold indexedUnder; rewrite String.eqb_refl; reflexivity).
  destruct (lastIndexed_found _ _ _ Hin Hk) as [g Hg].
  destruct (lastIndexed_Some _ _ _ Hg) as [Hgin Hgk].
  destruct (indexFiles_lookup fs emptyDict pool H eq_refl) as [Hkept Hinv].
  exists g. split; [exact Hg|]. split; [|split; [exact Hgin|split]].
  - unfold resolveFileForId, variantsOf. cbn [firstTruthy].
    specialize (Hkept (normalize (name f))). rewrite Hg in Hkept.
    unfold kept in Hkept.
    assert (G : getFile (normalize (name f)) pool = Uploaded g).
    { destruct (String.eqb_spec (normalize (name f)) "__proto__") as [E | Hne].
      - rewrite E. unfold getFile. unfold hasOwn in Hinv.
        destruct (getOwn "__proto__" (own pool)); [discriminate|].
        rewrite Hkept. reflexivity.
      - unfold getFile. rewrite Hkept. reflexivity. }
    rewrite G. reflexivity.
  - unfold indexedUnder in Hgk. apply orb_true_iff in Hgk.
    destruct Hgk as [E | E]; apply String.eqb_eq in E; auto.
  - intros before after Hfs Hafter. rewrite Hfs, lastIndexed_app in Hg.
    cbn [lastIndexed] in Hg. rewrite (lastIndexed_None _ _ Hafter) in Hg.
    fold (indexedUnder (normalize (name f)) f) in Hg. rewrite Hk in Hg.
    congruence.
Qed.

Lemma uploaded_file_resolves_witness :
  exists g,
    lastIndexed (normalize (name fileP)) [fileP; fileA] = Some g
    /\ resolveFileForId poolPA (name fileP) = Uploaded g
    /\ In g [fileP; fileA]
    /\ (normalize (name g) = normalize (name fileP)
        \/ stripExt (normalize (name g)) = normalize (name fileP))
    /\ (forall before after,
          [fileP; fileA] = before ++ fileP :: after ->
          (forall h, In h after ->
                     indexedUnder (normalize (name fileP)) h = false) ->
          g = fileP).
Proof.
  apply (uploaded_file_resolves [fileP; fileA] poolPA fileP).
  - vm_compute. reflexivity.
  - left. reflexivity.
Defined.

(** ** An identifier written with or without [.txt] *)

Lemma firstTruthy_NotFound (pool : SubjectMap) (vs : list string) :
  firstTruthy pool vs = NotFound
  <-> forall k, In k vs -> getFile k pool = NotFound.
Proof.
  induction vs as [|k rest IH]; simpl; [tauto|].
  destruct (getFile k pool) as [f | j | |] eqn:G.
  - split; [discriminate|]. intros H.
    specialize (H k (or_introl eq_refl)). congruence.
  - split; [discriminate|]. intros H.
    specialize (H k (or_introl eq_refl)). congruence.
  - split; [discriminate|]. intros H.
    specialize (H k (or_introl eq_refl)). congruence.
  - rewrite IH. split.
    + intros H j [<- | Hj]; [exact G | exact (H j Hj)].
    + intros H j Hj. apply H. right. exact Hj.
Qed.

Lemma stripExt_dot_suffix (base ext : string) :
  ext <> "" -> noDot ext = true ->
  stripExt (base ++ String "." ext) = base.
Proof.
  intros Hne Hnd. apply truthy_true in Hne.
  induction base as [|c r IH]; simpl.
  - rewrite Hne, Hnd. reflexivity.
  - rewrite noDot_app_dot, andb_false_r, IH. reflexivity.
Qed.

Lemma trimEnd_append (a b : string) :
  trimEnd b = b -> b <> "" -> trimEnd (a ++ b) = (a ++ b)%string.
Proof.
  intros Hb Hne. induction a as [|c r IH]; simpl; [exact Hb|].
  rewrite IH. destruct (r ++ b)%string eqn:E.
  - destruct r; simpl in E; congruence.
  - rewrite andb_false_r. reflexivity.
Qed.

Lemma trim_append_txt (id : string) :
  trim id = id -> trim (id ++ ".txt") = (id ++ ".txt")%string.
Proof.
  intros Ht. pose proof (trim_head id) as Hh. rewrite Ht in Hh.
  unfold trim. rewrite trimStart_fixed.
  - apply trimEnd_append; [reflexivity | discriminate].
  - destruct id; [reflexivity | exact Hh].
Qed.

(** For a trimmed identifier without extension, writing it with [.txt]
    in the roster does not change whether a file is found: the same
    names are looked up. *)
Theorem txt_suffix_is_optional (pool : SubjectMap) (id : string) :
  trim id = id ->
  stripExt id = id ->
  (forall k, In k (variantsOf (id ++ ".txt")) <-> In k (variantsOf id))
  /\ (resolveFileForId pool (id ++ ".txt") = NotFound
      <-> resolveFileForId pool id = NotFound).
Proof.
  intros Ht Hs.
  assert (Hv1 : variantsOf (id ++ ".txt")
                = [(id ++ ".txt")%string; id; (id ++ ".txt")%string]).
  { unfold variantsOf, normalize. rewrite (trim_append_txt id Ht).
    rewrite (stripExt_dot_suffix id "txt") by (discriminate || reflexivity).
    reflexivity. }
  assert (Hv2 : variantsOf id = [id; id; (id ++ ".txt")%string]).
  { unfold variantsOf, normalize. rewrite Ht, Hs. reflexivity. }
  assert (Hsame : forall k, In k (variantsOf (id ++ ".txt"))
                            <-> In k (variantsOf id)).
  { intros k. rewrite Hv1, Hv2. simpl. tauto. }
  split; [exact Hsame|].
  unfold resolveFileForId. rewrite !firstTruthy_NotFound.
  split; intros H k Hk; apply H, Hsame, Hk.
Qed.

Lemma txt_suffix_is_optional_witness :
  (forall k, In k (variantsOf ("sub-A" ++ ".txt")) <-> In k (variantsOf "sub-A"))
  /\ (resolveFileForId poolAB ("sub-A" ++ ".txt") = NotFound
      <-> resolveFileForId poolAB "sub-A" = NotFound).
Proof. apply txt_suffix_is_optional; reflexivity. Defined.

(** ** Row labels *)

Lemma append_empty (s : string) : (s ++ "")%string = s.
Proof. induction s as [|c r IH]; simpl; congruence. Qed.

Lemma getSubstitution_plain (matched before after template : string) :
  contains "$" template = false ->
  getSubstitution matched before after template = template.
Proof.
  induction template as [|c r IH]; simpl; [reflexivity|].
  intros H. apply orb_false_iff in H. destruct H as [Hc Hr].
  rewrite Hc, (IH Hr). reflexivity.
Qed.

Lemma replaceFrom_no_brace (pat repl whole : string) (pos : nat) (s : string) :
  contains "{" s = false ->
  replaceFrom (String "{" pat) repl whole pos 0 s = s.
Proof.
  revert pos. induction s as [|c r IH]; intros pos H; [reflexivity|].
  cbn [contains] in H. apply orb_false_iff in H. destruct H as [Hc Hr].
  cbn [replaceFrom startsWith].
  rewrite (Ascii.eqb_sym "{" c), Hc. cbn [andb].
  rewrite (IH _ Hr). reflexivity.
Qed.

Lemma contains_stripExt (c : ascii) (s : string) :
  contains c s = false -> contains c (stripExt s) = false.
Proof.
  induction s as [|d r IH]; simpl; [reflexivity|].
  intros H. apply orb_false_iff in H. destruct H as [Hd Hr].
  destruct (Ascii.eqb d "." && truthy r && noDot r); [reflexivity|].
  simpl. rewrite Hd, (IH Hr). reflexivity.
Qed.

(** With the template [{id}] the label of a row is the trimmed
    identifier, and with [{base}] the trimmed identifier without
    extension, provided the identifier holds neither a dollar sign (which
    the replacement would expand) nor an opening brace. *)
Theorem formatRowLabel_placeholders (idRaw : string) :
  contains "$" (normalize idRaw) = false ->
  contains "{" (normalize idRaw) = false ->
  formatRowLabel "{id}" idRaw = normalize idRaw
  /\ formatRowLabel "{base}" idRaw = stripExt (normalize idRaw).
Proof.
  intros Hd Hb. unfold formatRowLabel, replaceAll.
  set (id := normalize idRaw) in *. split.
  - change (replaceFrom "{id}" id "{id}" 0 0 "{id}")
      with ((getSubstitution "{id}" "" "" id ++ "")%string).
    rewrite (getSubstitution_plain _ _ _ _ Hd), append_empty.
    apply replaceFrom_no_brace, Hb.
  - change (replaceFrom "{id}" id "{base}" 0 0 "{base}") with "{base}".
    change (replaceFrom "{base}" (stripExt id) "{base}" 0 0 "{base}")
      with ((getSubstitution "{base}" "" "" (stripExt id) ++ "")%string).
    rewrite getSubstitution_plain by (apply contains_stripExt, Hd).
    apply append_empty.
Qed.

Lemma formatRowLabel_placeholders_witness :
  formatRowLabel "{id}" " sub-001.txt " = "sub-001.txt"
  /\ formatRowLabel "{base}" " sub-001.txt " = "sub-001".
Proof. apply (formatRowLabel_placeholders " sub-001.txt "); reflexivity. Defined.

(** A template without opening brace is the label of every row. *)
Theorem formatRowLabel_constant (rowLabelTemplate idRaw : string) :
  contains "{" rowLabelTemplate = false ->
  formatRowLabel rowLabelTemplate idRaw = rowLabelTemplate.
Proof.
  intros H. unfold formatRowLabel, replaceAll.
  rewrite (replaceFrom_no_brace "id}" _ _ 0 _ H).
  apply replaceFrom_no_brace, H.
Qed.

Lemma formatRowLabel_constant_witness :
  formatRowLabel "subject" "sub-001" = "subject".
Proof. apply formatRowLabel_constant. reflexivity. Defined.

(** ** The table as a function of the roster and the files *)

(** The covariates of a subject are read from the first roster row that
    bears its identifier; such a row always exists, so the empty object
    the source falls back on is never used. *)
Theorem roster_row_found (pRows : list Row) (idColumn sid : string) :
  In sid (subjectsOrderOf pRows idColumn) ->
  exists before r after,
    pRows = before ++ r :: after
    /\ rosterRowOf pRows idColumn sid = Some r
    /\ normalizeField (get idColumn r) = sid
    /\ Forall (fun r' => normalizeField (get idColumn r') <> sid) before.
Proof.
  unfold subjectsOrderOf, rosterRowOf. rewrite filter_In, in_map_iff.
  intros [(r0 & Hr0 & Hin) _]. clear - Hr0 Hin.
  induction pRows as [|r1 rest IH]; [destruct Hin|]. simpl.
  destruct (String.eqb_spec (normalizeField (get idColumn r1)) sid) as [E | Hne].
  - exists [], r1, rest. repeat split; [exact E | constructor].
  - destruct Hin as [-> | Hin]; [congruence|].
    destruct (IH Hin) as (before & r & after & -> & Hf & Hr & Hb).
    exists (r1 :: before), r, after. repeat split; try assumption.
    constructor; assumption.
Qed.

Lemma roster_row_found_witness :
  exists before r after,
    data (rosterOf ["sub-A"; "sub-B"; "sub-A"]) = before ++ r :: after
    /\ rosterRowOf (data (rosterOf ["sub-A"; "sub-B"; "sub-A"]))
         "participant_id" "sub-B" = Some r
    /\ normalizeField (get "participant_id" r) = "sub-B"
    /\ Forall (fun r' => normalizeField (get "participant_id" r') <> "sub-B")
         before.
Proof.
  apply roster_row_found. vm_compute. right. left. reflexivity.
Defined.

Section TableFacts.
Variable Number_toString : Decimal -> string.

Lemma buildRow_rowOf (pool : SubjectMap) (table : ParsedTable)
  (idColumn rowLabelTemplate : string) (mergeCovariates : bool)
  (byId : Dict ParsedSubject) (metricCols : list string) (sid : string) :
  getRecord sid byId
  = match resolveFileForId pool sid with
    | Uploaded file => ARecord (parseSubjectTxt (text file))
    | Member _ | Raised | NotFound => NoRecord
    end ->
  buildRow Number_toString rowLabelTemplate idColumn mergeCovariates
    (data table) byId metricCols (covariateColsOf table idColumn) sid
  = rowOf Number_toString pool table idColumn rowLabelTemplate
      mergeCovariates metricCols sid.
Proof.
  intros H. unfold buildRow, rowOf, metricsOfSubject, rosterRowOf.
  rewrite H. destruct (resolveFileForId pool sid); reflexivity.
Qed.

(** A build that returns a table, for a roster in which no subject is
    named [__proto__], returns this one: the header of the canonical
    columns; one row per roster subject, in roster order, made of the
    label, the cells of the subject's own file under each column and the
    covariates of the first roster row with its identifier; and one
    warning per subject whose file is missing, in roster order. *)
Theorem buildMatrix_table (pool : SubjectMap)
  (participantsParsed : option ParsedTable)
  (idColumn rowLabelTemplate : string) (mergeCovariates : bool)
  (m : Matrix) (w : list string) :
  buildMatrix Number_toString pool participantsParsed idColumn
    rowLabelTemplate mergeCovariates = Returned m w ->
  header m <> [] ->
  (forall table, participantsParsed = Some table ->
                 ~ In "__proto__" (subjectsOrderOf (data table) idColumn)) ->
  exists table,
    participantsParsed = Some table
    /\ let sids := subjectsOrderOf (data table) idColumn in
       let cols := canonicalColumns (parsedRecords pool sids) in
       header m = ["subject"] ++ cols
                  ++ (if mergeCovariates then covariateColsOf table idColumn
                      else [])
       /\ rows m = map (rowOf Number_toString pool table idColumn
                          rowLabelTemplate mergeCovariates cols) sids
       /\ w = map missingFile (filter (unresolved pool) sids).
Proof.
  intros H Hhdr Hproto.
  destruct participantsParsed as [table|];
    [|injection H as <- _; simpl in Hhdr; congruence].
  specialize (Hproto table eq_refl).
  destruct (isEmpty idColumn) eqn:Hid.
  { unfold buildMatrix in H. rewrite Hid in H.
    injection H as <- _. simpl in Hhdr. congruence. }
  assert (Hne : subjectsOrderOf (data table) idColumn <> []).
  { intros Hs. unfold buildMatrix in H. rewrite Hid, Hs in H.
    injection H as <- _. simpl in Hhdr. congruence. }
  destruct (buildMatrix_shape _ _ _ _ _ _ _ _ H Hid Hne Hproto)
    as (byId & Hlook & _ & -> & ->).
  exists table. split; [reflexivity|]. cbv zeta.
  split; [reflexivity|]. split; [|reflexivity].
  simpl rows. apply map_ext_in. intros sid Hin.
  apply buildRow_rowOf, Hlook, Hin.
Qed.

(** When the build stops before it builds: without roster, without
    identifier column, or without any identifier, and only then, it
    returns the empty table and no warning; a table it returns otherwise
    has a header that starts with [subject]. *)
Theorem buildMatrix_empty (pool : SubjectMap)
  (participantsParsed : option ParsedTable)
  (idColumn rowLabelTemplate : string) (mergeCovariates : bool) :
  let nothingToBuild :=
    participantsParsed = None \/ idColumn = ""
    \/ exists table, participantsParsed = Some table
                     /\ subjectsOrderOf (data table) idColumn = [] in
  (nothingToBuild ->
   buildMatrix Number_toString pool participantsParsed idColumn
     rowLabelTemplate mergeCovariates = Returned emptyMatrix [])
  /\ forall m w,
       buildMatrix Number_toString pool participantsParsed idColumn
         rowLabelTemplate mergeCovariates = Returned m w ->
       match header m with
       | [] => nothingToBuild /\ m = emptyMatrix /\ w = []
       | h :: _ => ~ nothingToBuild /\ h = "subject"
       end.
Proof.
  intros nothingToBuild.
  assert (Hstop : nothingToBuild ->
            buildMatrix Number_toString pool participantsParsed idColumn
              rowLabelTemplate mergeCovariates = Returned emptyMatrix []).
  { intros [-> | [-> | (table & -> & Hs)]].
    - reflexivity.
    - unfold buildMatrix. destruct participantsParsed; reflexivity.
    - unfold buildMatrix. rewrite Hs.
      destruct (isEmpty idColumn); reflexivity. }
  split; [exact Hstop|]. intros m w H.
  destruct (header m) as [|h rest] eqn:Hh.
  - destruct participantsParsed as [table|]; [|].
    2:{ injection H as <- <-. repeat split. left. reflexivity. }
    destruct (isEmpty idColumn) eqn:Hid.
    { apply isEmpty_true in Hid.
      rewrite (Hstop (or_intror (or_introl Hid))) in H.
      injection H as <- <-. repeat split. right. left. exact Hid. }
    destruct (subjectsOrderOf (data table) idColumn) as [|s0 l] eqn:Hs.
    { assert (Hn : nothingToBuild) by (right; right; eauto).
      rewrite (Hstop Hn) in H. injection H as <- <-. repeat split. exact Hn. }
    assert (Hne : subjectsOrderOf (data table) idColumn <> [])
      by (rewrite Hs; discriminate).
    destruct (buildMatrix_rows _ _ _ _ _ _ _ _ H Hid Hne)
      as (byId & cols & _ & -> & _). discriminate Hh.
  - assert (Hnot : ~ nothingToBuild).
    { intros Hn. rewrite (Hstop Hn) in H. injection H as <- _.
      discriminate Hh. }
    split; [exact Hnot|].
    destruct participantsParsed as [table|];
      [|exfalso; apply Hnot; left; reflexivity].
    destruct (isEmpty idColumn) eqn:Hid.
    { exfalso. apply Hnot. right. left. apply isEmpty_true, Hid. }
    assert (Hne : subjectsOrderOf (data table) idColumn <> []).
    { intros Hs. apply Hnot. right. right. eauto. }
    destruct (buildMatrix_rows _ _ _ _ _ _ _ _ H Hid Hne)
      as (byId & cols & _ & -> & _).
    injection Hh as <- _. reflexivity.
Qed.
End TableFacts.

Lemma buildMatrix_table_witness :
  exists table,
    Some (rosterOf ["sub-B"; "sub-A"; "sub-C"]) = Some table
    /\ ["subject"; "Y"; "Z"; "X"; "age"; "sex"]
       = ["subject"]
         ++ canonicalColumns
              (parsedRecords poolAB
                 (subjectsOrderOf (data table) "participant_id"))
         ++ covariateColsOf table "participant_id"
    /\ [["sub-B"; "3"; "4"; ""; "61"; "F"]; ["sub-A"; "2"; ""; "1"; "61"; "F"];
        ["sub-C"; ""; ""; ""; "61"; "F"]]
       = map (rowOf integerText poolAB table "participant_id" "{id}" true
                (canonicalColumns
                   (parsedRecords poolAB
                      (subjectsOrderOf (data table) "participant_id"))))
           (subjectsOrderOf (data table) "participant_id")
    /\ ["Missing file for ID: sub-C"]
       = map missingFile
           (filter (unresolved poolAB)
              (subjectsOrderOf (data table) "participant_id")).
Proof.
  apply (buildMatrix_table integerText poolAB
           (Some (rosterOf ["sub-B"; "sub-A"; "sub-C"])) "participant_id"
           "{id}" true
           {| header := ["subject"; "Y"; "Z"; "X"; "age"; "sex"];
              rows := [["sub-B"; "3"; "4"; ""; "61"; "F"];
                       ["sub-A"; "2"; ""; "1"; "61"; "F"];
                       ["sub-C"; ""; ""; ""; "61"; "F"]] |}
           ["Missing file for ID: sub-C"]).
  - vm_compute. reflexivity.
  - discriminate.
  - intros table Ht. injection Ht as <-. vm_compute. intuition discriminate.
Defined.

Lemma parsedRecords_In (pool : SubjectMap) (sids : list string)
  (p : ParsedSubject) :
  In p (parsedRecords pool sids)
  <-> exists sid file,
        In sid sids /\ resolveFileForId pool sid = Uploaded file
        /\ p = parseSubjectTxt (text file).
Proof.
  unfold parsedRecords. rewrite in_flat_map. split.
  - intros (sid & Hin & Hp).
    destruct (resolveFileForId pool sid) as [file | j | |] eqn:R.
    + destruct Hp as [<- | []]. exists sid, file. auto.
    + destruct Hp.
    + destruct Hp.
    + destruct Hp.
  - intros (sid & file & Hin & R & ->). exists sid. split; [exact Hin|].
    rewrite R. left. reflexivity.
Qed.

Section Columns.
Variable Number_toString : Decimal -> string.

(** Where the metric columns of a table come from, for a roster in
    which no subject is named [__proto__]: a key is a column exactly when
    it is a key of the mapping parsed from the file of some roster
    subject (so a file no roster identifier resolves to brings no
    column), and a column that is in no such file's discovery order is
    the name of a member of [Object.prototype]. *)
Theorem metric_columns_origin (pool : SubjectMap)
  (participantsParsed : option ParsedTable)
  (idColumn rowLabelTemplate : string) (mergeCovariates : bool)
  (m : Matrix) (w : list string) :
  buildMatrix Number_toString pool participantsParsed idColumn
    rowLabelTemplate mergeCovariates = Returned m w ->
  header m <> [] ->
  (forall table, participantsParsed = Some table ->
                 ~ In "__proto__" (subjectsOrderOf (data table) idColumn)) ->
  exists table metricCols,
    participantsParsed = Some table
    /\ header m = ["subject"] ++ metricCols
                  ++ (if mergeCovariates then covariateColsOf table idColumn
                      else [])
    /\ (forall k,
          In k metricCols
          <-> exists sid file,
                In sid (subjectsOrderOf (data table) idColumn)
                /\ resolveFileForId pool sid = Uploaded file
                /\ hasOwn k (metrics (parseSubjectTxt (text file))) = true)
    /\ (forall k,
          In k metricCols ->
          inherited k = true
          \/ exists sid file,
               In sid (subjectsOrderOf (data table) idColumn)
               /\ resolveFileForId pool sid = Uploaded file
               /\ In k (order (parseSubjectTxt (text file)))).
Proof.
  intros H Hhdr Hproto.
  destruct participantsParsed as [table|];
    [|injection H as <- _; simpl in Hhdr; congruence].
  specialize (Hproto table eq_refl).
  destruct (isEmpty idColumn) eqn:Hid.
  { unfold buildMatrix in H. rewrite Hid in H.
    injection H as <- _. simpl in Hhdr. congruence. }
  assert (Hne : subjectsOrderOf (data table) idColumn <> []).
  { intros Hs. unfold buildMatrix in H. rewrite Hid, Hs in H.
    injection H as <- _. simpl in Hhdr. congruence. }
  destruct (buildMatrix_shape _ _ _ _ _ _ _ _ H Hid Hne Hproto)
    as (byId & _ & _ & -> & _).
  set (sids := subjectsOrderOf (data table) idColumn).
  destruct (canonicalColumns_spec _ (parsedRecords_wellFormed pool sids))
    as (_ & _ & Hmem).
  assert (Hcol : forall k,
            In k (canonicalColumns (parsedRecords pool sids))
            <-> exists sid file,
                  In sid sids /\ resolveFileForId pool sid = Uploaded file
                  /\ hasOwn k (metrics (parseSubjectTxt (text file))) = true).
  { intros k. rewrite Hmem. split.
    - intros (p & Hp & Hk). apply parsedRecords_In in Hp.
      destruct Hp as (sid & file & Hin & R & ->).
      exists sid, file. split; [exact Hin|]. split; [exact R|].
      apply hasOwn_In, Hk.
    - intros (sid & file & Hin & R & Hk).
      exists (parseSubjectTxt (text file)). split.
      + apply parsedRecords_In. eauto.
      + apply hasOwn_In, Hk. }
  exists table, (canonicalColumns (parsedRecords pool sids)).
  split; [reflexivity|]. split; [reflexivity|]. split; [exact Hcol|].
  intros k Hk. apply Hcol in Hk. destruct Hk as (sid & file & Hin & R & Hown).
  destruct (inherited k) eqn:Ei; [left; reflexivity | right].
  exists sid, file. split; [exact Hin|]. split; [exact R|].
  destruct (parseSubjectTxt_record (text file)) as [Ho Hm].
  unfold hasOwn in Hown. rewrite Hm in Hown.
  destruct (String.eqb k "__proto__"); [discriminate|].
  rewrite Ho, firstOccurrences_In, filter_In. unfold notInherited.
  rewrite Ei. split; [|intros []]. split; [|reflexivity].
  apply lastValue_In.
  destruct (lastValue k (contributions (text file))); [eauto | discriminate].
Qed.

Lemma buildMatrix_nonempty (pool : SubjectMap)
  (participantsParsed : option ParsedTable)
  (idColumn rowLabelTemplate : string) (mergeCovariates : bool)
  (m : Matrix) (w : list string) :
  buildMatrix Number_toString pool participantsParsed idColumn
    rowLabelTemplate mergeCovariates = Returned m w ->
  header m <> [] ->
  exists table,
    participantsParsed = Some table
    /\ List.length (rows m)
       = List.length (filter (hasIdentifier idColumn) (data table))
    /\ Forall (fun line => List.length line = List.length (header m)) (rows m).
Proof.
  intros H Hhdr.
  destruct participantsParsed as [table|];
    [|injection H as <- _; simpl in Hhdr; congruence].
  destruct (isEmpty idColumn) eqn:Hid.
  { unfold buildMatrix in H. rewrite Hid in H.
    injection H as <- _. simpl in Hhdr. congruence. }
  assert (Hne : subjectsOrderOf (data table) idColumn <> []).
  { intros Hs. unfold buildMatrix in H. rewrite Hid, Hs in H.
    injection H as <- _. simpl in Hhdr. congruence. }
  destruct (buildMatrix_rows _ _ _ _ _ _ _ _ H Hid Hne)
    as (byId & cols & _ & -> & _).
  exists table. split; [reflexivity|]. simpl rows. simpl header. split.
  - rewrite length_map. apply subjectsOrderOf_length.
  - apply Forall_map, Forall_forall. intros sid _. unfold buildRow.
    simpl. rewrite !length_app, !length_map.
    destruct mergeCovariates; simpl; rewrite ?length_map; reflexivity.
Qed.

(** [previewCSV] shows the header and the first five rows of the table:
    one line more than the roster has subjects, six at most, each as long
    as the header.  When the build returns the empty table, the preview
    shown before stays. *)
Theorem previewCSV_sample (pool : SubjectMap)
  (participantsParsed : option ParsedTable)
  (idColumn rowLabelTemplate : string) (mergeCovariates : bool)
  (preview : list (list string)) (m : Matrix) (w : list string) :
  buildMatrix Number_toString pool participantsParsed idColumn
    rowLabelTemplate mergeCovariates = Returned m w ->
  (header m = [] ->
   previewCSV Number_toString pool participantsParsed idColumn
     rowLabelTemplate mergeCovariates preview = inr (preview, w))
  /\ (header m <> [] ->
      exists table sample,
        participantsParsed = Some table
        /\ previewCSV Number_toString pool participantsParsed idColumn
             rowLabelTemplate mergeCovariates preview = inr (sample, w)
        /\ sample = header m :: firstn 5 (rows m)
        /\ List.length sample
           = 1 + Nat.min 5 (List.length
                              (filter (hasIdentifier idColumn) (data table)))
        /\ Forall (fun line => List.length line = List.length (header m))
             sample).
Proof.
  intros H. unfold previewCSV. rewrite H. split.
  - intros ->. reflexivity.
  - intros Hhdr.
    destruct (buildMatrix_nonempty _ _ _ _ _ _ _ H Hhdr)
      as (table & Hpp & Hlen & Hall).
    exists table, (header m :: firstn 5 (rows m)).
    split; [exact Hpp|]. split.
    { destruct (header m); [congruence | reflexivity]. }
    split; [reflexivity|]. split.
    { cbn [List.length]. rewrite length_firstn, Hlen. reflexivity. }
    constructor; [reflexivity|].
    apply Forall_forall. intros line Hin.
    apply (proj1 (Forall_forall _ _) Hall).
    rewrite <- (firstn_skipn 5 (rows m)). apply in_or_app. left. exact Hin.
Qed.

(** [downloadCSV] hands to the CSV writer the header followed by every
    row, a rectangular table with one line per roster subject after the
    header; when the build returns the empty table nothing is written. *)
Theorem downloadCSV_table (pool : SubjectMap)
  (participantsParsed : option ParsedTable)
  (idColumn rowLabelTemplate : string) (mergeCovariates : bool)
  (m : Matrix) (w : list string) :
  buildMatrix Number_toString pool participantsParsed idColumn
    rowLabelTemplate mergeCovariates = Returned m w ->
  (header m = [] ->
   downloadCSV Number_toString pool participantsParsed idColumn
     rowLabelTemplate mergeCovariates = inr None)
  /\ (header m <> [] ->
      exists table lines,
        participantsParsed = Some table
        /\ downloadCSV Number_toString pool participantsParsed idColumn
             rowLabelTemplate mergeCovariates = inr (Some lines)
        /\ lines = header m :: rows m
        /\ List.length lines
           = 1 + List.length (filter (hasIdentifier idColumn) (data table))
        /\ Forall (fun line => List.length line = List.length (header m))
             lines).
Proof.
  intros H. unfold downloadCSV. rewrite H. split.
  - intros ->. reflexivity.
  - intros Hhdr.
    destruct (buildMatrix_nonempty _ _ _ _ _ _ _ H Hhdr)
      as (table & Hpp & Hlen & Hall).
    exists table, (header m :: rows m).
    split; [exact Hpp|]. split.
    { destruct (header m); [congruence | reflexivity]. }
    split; [reflexivity|]. split; [simpl; rewrite Hlen; reflexivity|].
    constructor; [reflexivity | exact Hall].
Qed.
End Columns.

(** Seven subjects, two files. *)
Example buildMatrix_seven :
  buildMatrix integerText poolAB (Some rosterSeven) "participant_id" "{id}"
    false = Returned matrixSeven warningsSeven.
Proof. vm_compute. reflexivity. Qed.

Lemma metric_columns_origin_witness :
  exists table metricCols,
    Some rosterSeven = Some table
    /\ header matrixSeven = ["subject"] ++ metricCols ++ []
    /\ (forall k,
          In k metricCols
          <-> exists sid file,
                In sid (subjectsOrderOf (data table) "participant_id")
                /\ resolveFileForId poolAB sid = Uploaded file
                /\ hasOwn k (metrics (parseSubjectTxt (text file))) = true)
    /\ (forall k,
          In k metricCols ->
          inherited k = true
          \/ exists sid file,
               In sid (subjectsOrderOf (data table) "participant_id")
               /\ resolveFileForId poolAB sid = Uploaded file
               /\ In k (order (parseSubjectTxt (text file)))).
Proof.
  apply (metric_columns_origin integerText poolAB (Some rosterSeven)
           "participant_id" "{id}" false matrixSeven warningsSeven).
  - vm_compute. reflexivity.
  - discriminate.
  - intros table Ht. injection Ht as <-. vm_compute. intuition discriminate.
Defined.

Lemma previewCSV_sample_witness :
  exists table sample,
    Some rosterSeven = Some table
    /\ previewCSV integerText poolAB (Some rosterSeven) "participant_id"
         "{id}" false [] = inr (sample, warningsSeven)
    /\ sample = header matrixSeven :: firstn 5 (rows matrixSeven)
    /\ List.length sample
       = 1 + Nat.min 5 (List.length
                          (filter (hasIdentifier "participant_id")
                             (data table)))
    /\ Forall (fun line => List.length line = List.length (header matrixSeven))
         sample.
Proof.
  refine (proj2 (previewCSV_sample integerText poolAB (Some rosterSeven)
                   "participant_id" "{id}" false [] matrixSeven warningsSeven
                   _) _).
  - vm_compute. reflexivity.
  - discriminate.
Defined.

Lemma downloadCSV_table_witness :
  exists table lines,
    Some rosterSeven = Some table
    /\ downloadCSV integerText poolAB (Some rosterSeven) "participant_id"
         "{id}" false = inr (Some lines)
    /\ lines = header matrixSeven :: rows matrixSeven
    /\ List.length lines
       = 1 + List.length (filter (hasIdentifier "participant_id") (data table))
    /\ Forall (fun line => List.length line = List.length (header matrixSeven))
         lines.
Proof.
  refine (proj2 (downloadCSV_table integerText poolAB (Some rosterSeven)
                   "participant_id" "{id}" false matrixSeven warningsSeven
                   _) _).
  - vm_compute. reflexivity.
  - discriminate.
Defined.

(** ** Cells, appended rosters and empty pools *)

Section Cells.
Variable Number_toString : Decimal -> string.

(** The cell of a subject under a column, read from the text of its
    file: the last value the text gives for the column (a number as the
    engine prints it, a text as it is), and what a subject without record
    shows when the text gives none. *)
Theorem metricCell_of_text (text k : string) :
  metricCell Number_toString (get k (metrics (parseSubjectTxt text)))
  = match (if String.eqb k "__proto__" then None
           else lastValue k (contributions text)) with
    | Some (VNum d) => Number_toString d
    | Some (VStr s) => s
    | None => blankCell k
    end.
Proof.
  unfold get. rewrite (proj2 (parseSubjectTxt_record text) k).
  destruct (if String.eqb k "__proto__" then None
            else lastValue k (contributions text)) as [[d | s]|];
    try reflexivity.
  unfold blankCell. destruct (inherited k); reflexivity.
Qed.

Lemma subjectsOrderOf_app (rows1 rows2 : list Row) (idColumn : string) :
  subjectsOrderOf (rows1 ++ rows2) idColumn
  = subjectsOrderOf rows1 idColumn ++ subjectsOrderOf rows2 idColumn.
Proof. unfold subjectsOrderOf. rewrite map_app, filter_app. reflexivity. Qed.

Lemma find_app_Some {A : Type} (f : A -> bool) (l1 l2 : list A) (x : A) :
  find f l1 = Some x -> find f (l1 ++ l2) = Some x.
Proof.
  induction l1 as [|a rest IH]; simpl; [discriminate|].
  destruct (f a); [trivial | exact IH].
Qed.

Lemma canonicalColumns_app (ps qs : list ParsedSubject) (first : ParsedSubject) :
  find hasOrder ps = Some first ->
  canonicalColumns (ps ++ qs)
  = canonicalColumns ps ++ firstOccurrences (canonicalColumns ps) (keyStream qs).
Proof.
  intros F. unfold canonicalColumns.
  rewrite (find_app_Some _ _ qs _ F), F.
  unfold keyStream. rewrite flat_map_app, firstOccurrences_chain, app_assoc.
  reflexivity.
Qed.

(** Rows appended to a roster keep the table stable, as long as no
    subject is named [__proto__]: when a subject of the roster already
    has a discovery order, the longer roster gives the same metric
    columns followed by the new ones, and the same warnings followed by
    the new ones. *)
Theorem appended_roster_rows (pool : SubjectMap) (table : ParsedTable)
  (more : list Row) (idColumn rowLabelTemplate : string)
  (mergeCovariates : bool) (m1 m2 : Matrix) (w1 w2 : list string)
  (first : ParsedSubject) :
  buildMatrix Number_toString pool (Some table) idColumn rowLabelTemplate
    mergeCovariates = Returned m1 w1 ->
  buildMatrix Number_toString pool
    (Some {| data := data table ++ more; fields := fields table |})
    idColumn rowLabelTemplate mergeCovariates = Returned m2 w2 ->
  idColumn <> "" ->
  ~ In "__proto__" (subjectsOrderOf (data table ++ more) idColumn) ->
  find hasOrder (parsedRecords pool (subjectsOrderOf (data table) idColumn))
  = Some first ->
  let covs := if mergeCovariates then covariateColsOf table idColumn else [] in
  exists cols added,
    header m1 = ["subject"] ++ cols ++ covs
    /\ header m2 = ["subject"] ++ (cols ++ added) ++ covs
    /\ w2 = w1 ++ map missingFile
                    (filter (unresolved pool) (subjectsOrderOf more idColumn)).
Proof.
  intros H1 H2 Hid Hproto Hfirst covs. apply isEmpty_false in Hid.
  assert (Hne1 : subjectsOrderOf (data table) idColumn <> []).
  { intros E. rewrite E in Hfirst. discriminate. }
  assert (Hne2 : subjectsOrderOf (data table ++ more) idColumn <> []).
  { rewrite subjectsOrderOf_app. intros E. apply app_eq_nil in E. tauto. }
  assert (Hproto1 : ~ In "__proto__" (subjectsOrderOf (data table) idColumn)).
  { intros Hin. apply Hproto. rewrite subjectsOrderOf_app.
    apply in_or_app. left. exact Hin. }
  destruct (buildMatrix_shape _ _ _ _ _ _ _ _ H1 Hid Hne1 Hproto1)
    as (byId1 & _ & _ & -> & ->).
  destruct (buildMatrix_shape _ _ _ _ _ _ _ _ H2 Hid Hne2 Hproto)
    as (byId2 & _ & _ & -> & ->).
  simpl data. simpl header. rewrite subjectsOrderOf_app.
  unfold parsedRecords at 2. rewrite flat_map_app.
  fold (parsedRecords pool (subjectsOrderOf (data table) idColumn)).
  fold (parsedRecords pool (subjectsOrderOf more idColumn)).
  rewrite (canonicalColumns_app _ _ _ Hfirst).
  eexists _, _. split; [reflexivity|]. split; [reflexivity|].
  rewrite filter_app, map_app. reflexivity.
Qed.

Lemma resolve_empty_pool (sid : string) :
  (forall k, In k (variantsOf sid) -> inherited k = false) ->
  resolveFileForId emptyDict sid = NotFound.
Proof.
  intros H. unfold resolveFileForId. apply firstTruthy_NotFound.
  intros k Hk. apply getFile_NotFound. split; [reflexivity|].
  unfold inheritedBy. cbn [parent emptyDict]. rewrite (H k Hk). reflexivity.
Qed.

(** With no file uploaded (and no identifier that names a member of
    [Object.prototype]) the build still returns: a header without metric
    column, one row per subject with its label and covariates, and one
    warning per subject. *)
Theorem buildMatrix_without_files (table : ParsedTable)
  (idColumn rowLabelTemplate : string) (mergeCovariates : bool) :
  idColumn <> "" ->
  subjectsOrderOf (data table) idColumn <> [] ->
  (forall sid k, In sid (subjectsOrderOf (data table) idColumn) ->
                 In k (variantsOf sid) -> inherited k = false) ->
  buildMatrix Number_toString emptyDict (Some table) idColumn rowLabelTemplate
    mergeCovariates
  = Returned
      {| header := ["subject"]
                   ++ (if mergeCovariates then covariateColsOf table idColumn
                       else []);
         rows := map (rowOf Number_toString emptyDict table idColumn
                        rowLabelTemplate mergeCovariates [])
                   (subjectsOrderOf (data table) idColumn) |}
      (map missingFile (subjectsOrderOf (data table) idColumn)).
Proof.
  intros Hid Hne Hni. apply isEmpty_false in Hid.
  remember (subjectsOrderOf (data table) idColumn) as sids eqn:Hsids.
  assert (Hin0 : forall sid, In sid sids -> trim sid = sid).
  { intros sid Hin. rewrite Hsids in Hin.
    exact (proj1 (subjectsOrderOf_In _ _ _ Hin)). }
  assert (Hres : forall sid, In sid sids ->
                             resolveFileForId emptyDict sid = NotFound).
  { intros sid Hin. apply resolve_empty_pool. intros k. apply Hni, Hin. }
  assert (Hclean : Forall (resolvesCleanly emptyDict) sids).
  { apply Forall_forall. intros sid Hin. unfold resolvesCleanly.
    rewrite (Hres sid Hin). exact I. }
  assert (Hproto : ~ In "__proto__" sids).
  { intros Hin.
    pose proof (unresolved_not_inherited emptyDict _ (Hin0 _ Hin)
                  (Hres _ Hin)) as Hi.
    discriminate Hi. }
  assert (Hret : exists m w,
            buildMatrix Number_toString emptyDict (Some table) idColumn
              rowLabelTemplate mergeCovariates = Returned m w).
  { unfold buildMatrix. rewrite Hid, <- Hsids.
    replace (List.length sids =? 0) with false.
    2:{ symmetry. apply Nat.eqb_neq. intros E.
        apply length_zero_iff_nil in E. exact (Hne E). }
    rewrite Hsids in Hproto, Hclean.
    destruct (loops_complete emptyDict (data table) idColumn Hproto Hclean)
      as (st & C & U).
    rewrite <- Hsids in C, U. rewrite C.
    destruct (U (match canonicalOrder st with Some c => c | None => [] end))
      as [[cols seen] ->].
    eauto. }
  destruct Hret as (m & w & H). rewrite H.
  assert (Hne' : subjectsOrderOf (data table) idColumn <> [])
    by (rewrite <- Hsids; exact Hne).
  assert (Hproto' : ~ In "__proto__" (subjectsOrderOf (data table) idColumn))
    by (rewrite <- Hsids; exact Hproto).
  destruct (buildMatrix_shape _ _ _ _ _ _ _ _ H Hid Hne' Hproto')
    as (byId & Hlook & _ & -> & ->).
  rewrite <- Hsids in *.
  assert (Hps : parsedRecords emptyDict sids = []).
  { unfold parsedRecords. clear - Hres.
    induction sids as [|s rest IH]; simpl; [reflexivity|].
    rewrite (Hres s (or_introl eq_refl)). simpl. apply IH.
    intros sid Hin. apply Hres. right. exact Hin. }
  rewrite Hps. change (canonicalColumns []) with (@nil string).
  rewrite (filter_all (unresolved emptyDict) sids).
  2:{ intros sid Hin. unfold unresolved. rewrite (Hres sid Hin). reflexivity. }
  rewrite (map_ext_in _ (rowOf Number_toString emptyDict table idColumn
                           rowLabelTemplate mergeCovariates []) sids).
  2:{ intros sid Hin. apply buildRow_rowOf, Hlook, Hin. }
  reflexivity.
Qed.
End Cells.

Lemma appended_roster_rows_witness :
  exists cols added,
    ["subject"; "X"; "Y"; "age"; "sex"]
    = ["subject"] ++ cols ++ covariateColsOf (rosterOf ["sub-A"]) "participant_id"
    /\ ["subject"; "X"; "Y"; "Z"; "age"; "sex"]
       = ["subject"] ++ (cols ++ added)
         ++ covariateColsOf (rosterOf ["sub-A"]) "participant_id"
    /\ ["Missing file for ID: sub-C"]
       = [] ++ map missingFile
                 (filter (unresolved poolAB)
                    (subjectsOrderOf (data (rosterOf ["sub-B"; "sub-C"]))
                       "participant_id")).
Proof.
  apply (appended_roster_rows integerText poolAB (rosterOf ["sub-A"])
           (data (rosterOf ["sub-B"; "sub-C"])) "participant_id" "{id}" true
           {| header := ["subject"; "X"; "Y"; "age"; "sex"];
              rows := [["sub-A"; "1"; "2"; "61"; "F"]] |}
           {| header := ["subject"; "X"; "Y"; "Z"; "age"; "sex"];
              rows := [["sub-A"; "1"; "2"; ""; "61"; "F"];
                       ["sub-B"; ""; "3"; "4"; "61"; "F"];
                       ["sub-C"; ""; ""; ""; "61"; "F"]] |}
           [] ["Missing file for ID: sub-C"] (parseSubjectTxt (text fileA))).
  - vm_compute. reflexivity.
  - vm_compute. reflexivity.
  - discriminate.
  - vm_compute. intuition discriminate.
  - vm_compute. reflexivity.
Defined.

Lemma buildMatrix_without_files_witness :
  buildMatrix integerText emptyDict (Some (rosterOf ["sub-A"; "sub-C"]))
    "participant_id" "{id}" true
  = Returned
      {| header := ["subject"]
                   ++ covariateColsOf (rosterOf ["sub-A"; "sub-C"])
                        "participant_id";
         rows := map (rowOf integerText emptyDict (rosterOf ["sub-A"; "sub-C"])
                        "participant_id" "{id}" true [])
                   (subjectsOrderOf (data (rosterOf ["sub-A"; "sub-C"]))
                      "participant_id") |}
      (map missingFile
         (subjectsOrderOf (data (rosterOf ["sub-A"; "sub-C"]))
            "participant_id")).
Proof.
  apply (buildMatrix_without_files integerText (rosterOf ["sub-A"; "sub-C"])
           "participant_id" "{id}" true).
  - discriminate.
  - vm_compute. discriminate.
  - replace (subjectsOrderOf (data (rosterOf ["sub-A"; "sub-C"]))
               "participant_id")
      with ["sub-A"; "sub-C"] by (vm_compute; reflexivity).
    intros sid k [<- | [<- | []]] Hk; vm_compute in Hk;
      destruct Hk as [<- | [<- | [<- | []]]]; reflexivity.
Defined.

(** ** Numbers span one token *)

Lemma digit_not_space (c : ascii) (d : Z) :
  digitValue c = Some d -> isWhiteSpace c = false.
Proof.
  destruct c as [[] [] [] [] [] [] [] []]; vm_compute; intros H;
    solve [reflexivity | discriminate H].
Qed.

Lemma isDigit_not_space (c : ascii) : isDigit c = true -> isWhiteSpace c = false.
Proof.
  destruct c as [[] [] [] [] [] [] [] []]; vm_compute; intros H;
    solve [reflexivity | discriminate H].
Qed.

Lemma noWhiteSpace_app (a b : string) :
  noWhiteSpace (a ++ b) = noWhiteSpace a && noWhiteSpace b.
Proof.
  induction a as [|c r IH]; simpl; [reflexivity|].
  rewrite IH, andb_assoc. reflexivity.
Qed.

Lemma readDigits_token (base acc : Z) (s : string) (n : Z) :
  readDigits base acc s = Some n -> noWhiteSpace s = true.
Proof.
  revert acc. induction s as [|c r IH]; intros acc; simpl; [reflexivity|].
  destruct (digitValue c) as [d|] eqn:D; [|discriminate].
  destruct (d <? base)%Z; [|discriminate].
  intros H. rewrite (digit_not_space c d D), (IH _ H). reflexivity.
Qed.

Lemma readDecimalDigits_token (s : string) (n : Z) :
  readDecimalDigits s = Some n -> noWhiteSpace s = true.
Proof.
  unfold readDecimalDigits. destruct (isEmpty s); [discriminate|].
  apply readDigits_token.
Qed.

Lemma spanDigits_token (s d r : string) :
  spanDigits s = (d, r) -> s = (d ++ r)%string /\ noWhiteSpace d = true.
Proof.
  revert d r. induction s as [|c t IH]; intros d r; simpl.
  - intros H. injection H as <- <-. split; reflexivity.
  - destruct (isDigit c) eqn:E.
    + destruct (spanDigits t) as [d' r'] eqn:S.
      intros H. injection H as <- <-.
      destruct (IH d' r' eq_refl) as [-> Hd]. split; [reflexivity|].
      simpl. rewrite (isDigit_not_space c E), Hd. reflexivity.
    + intros H. injection H as <- <-. split; reflexivity.
Qed.

Lemma readExponent_token (s : string) (e : Z) :
  readExponent s = Some e -> noWhiteSpace s = true.
Proof.
  destruct s as [|c r]; simpl; [reflexivity|].
  destruct (Ascii.eqb c "e" || Ascii.eqb c "E") eqn:E; [|discriminate].
  assert (Hc : isWhiteSpace c = false).
  { apply orb_true_iff in E.
    destruct E as [E | E]; apply Ascii.eqb_eq in E; subst c; reflexivity. }
  rewrite Hc. simpl.
  assert (Hopp : forall t, option_map Z.opp (readDecimalDigits t) = Some e ->
                           noWhiteSpace t = true).
  { intros t. destruct (readDecimalDigits t) eqn:R; [|discriminate].
    intros _. exact (readDecimalDigits_token _ _ R). }
  destruct r as [|s0 r']; [discriminate|].
  destruct (Ascii.eqb_spec s0 "+") as [-> | Hp].
  { intros H. simpl. exact (readDecimalDigits_token _ _ H). }
  destruct (Ascii.eqb_spec s0 "-") as [-> | Hm].
  { intros H. simpl. exact (Hopp _ H). }
  intros H.
  assert (H' : readDecimalDigits (String s0 r') = Some e).
  { destruct s0 as [[] [] [] [] [] [] [] []]; try exact H;
      exfalso; congruence. }
  exact (readDecimalDigits_token _ _ H').
Qed.

Lemma readUnsignedDecimal_token (s : string) (d : Decimal) :
  readUnsignedDecimal s = Some d -> noWhiteSpace s = true.
Proof.
  unfold readUnsignedDecimal.
  destruct (spanDigits s) as [ip r1] eqn:S1.
  destruct (spanDigits_token _ _ _ S1) as [-> Hip].
  rewrite noWhiteSpace_app, Hip. simpl.
  assert (Hplain :
    match readDecimalDigits ip, readExponent r1 with
    | Some m, Some e => Some {| mantissa := m; exponent := e |}
    | _, _ => None
    end = Some d -> noWhiteSpace r1 = true).
  { destruct (readDecimalDigits ip); [|discriminate].
    destruct (readExponent r1) eqn:E; [|discriminate].
    intros _. exact (readExponent_token _ _ E). }
  destruct r1 as [|c r2]; [reflexivity|].
  destruct (Ascii.eqb_spec c ".") as [-> | Hc].
  - destruct (spanDigits r2) as [fp r3] eqn:S2.
    destruct (spanDigits_token _ _ _ S2) as [-> Hfp].
    destruct (isEmpty ip && isEmpty fp); [discriminate|].
    destruct (readDigits 10 0 (ip ++ fp)); [|discriminate].
    destruct (readExponent r3) eqn:E; [|discriminate].
    intros _. simpl. rewrite noWhiteSpace_app, Hfp.
    exact (readExponent_token _ _ E).
  - intros H. apply Hplain.
    destruct c as [[] [] [] [] [] [] [] []]; try exact H; exfalso; congruence.
Qed.

Lemma readNonDecimal_token (s : string) (n : Z) :
  readNonDecimal s = Some n -> noWhiteSpace s = true.
Proof.
  destruct s as [|c [|p r]]; try discriminate.
  - destruct c as [[] [] [] [] [] [] [] []]; discriminate.
  - intros H.
    assert (Hc : c = "0"%char).
    { destruct c as [[] [] [] [] [] [] [] []]; try discriminate H.
      reflexivity. }
    subst c. simpl in H.
    destruct (Ascii.eqb p "x" || Ascii.eqb p "X") eqn:Ex.
    { destruct (isEmpty r); [discriminate|].
      apply orb_true_iff in Ex. simpl.
      rewrite (readDigits_token _ _ _ _ H), andb_true_r.
      destruct Ex as [E | E]; apply Ascii.eqb_eq in E; subst p; reflexivity. }
    destruct (Ascii.eqb p "o" || Ascii.eqb p "O") eqn:Eo.
    { destruct (isEmpty r); [discriminate|].
      apply orb_true_iff in Eo. simpl.
      rewrite (readDigits_token _ _ _ _ H), andb_true_r.
      destruct Eo as [E | E]; apply Ascii.eqb_eq in E; subst p; reflexivity. }
    destruct (Ascii.eqb p "b" || Ascii.eqb p "B") eqn:Eb; [|discriminate].
    destruct (isEmpty r); [discriminate|].
    apply orb_true_iff in Eb. simpl.
    rewrite (readDigits_token _ _ _ _ H), andb_true_r.
    destruct Eb as [E | E]; apply Ascii.eqb_eq in E; subst p; reflexivity.
Qed.

Lemma readStrDecimal_token (s : string) (d : Decimal) :
  readStrDecimal s = Finite d -> noWhiteSpace s = true.
Proof.
  unfold readStrDecimal.
  assert (Hbody : forall negative u,
            (if String.eqb u "Infinity" then Infinity negative
             else match readUnsignedDecimal u with
                  | Some d0 => toNumber negative d0
                  | None => NaN
                  end) = Finite d -> noWhiteSpace u = true).
  { intros negative u. destruct (String.eqb u "Infinity"); [discriminate|].
    destruct (readUnsignedDecimal u) eqn:R; [|discriminate].
    intros _. exact (readUnsignedDecimal_token _ _ R). }
  destruct s as [|c r]; [reflexivity|].
  destruct (Ascii.eqb_spec c "+") as [-> | Hp].
  { intros H. simpl. exact (Hbody false r H). }
  destruct (Ascii.eqb_spec c "-") as [-> | Hm].
  { intros H. simpl. exact (Hbody true r H). }
  intros H. apply (Hbody false).
  destruct c as [[] [] [] [] [] [] [] []]; try exact H; exfalso; congruence.
Qed.

Lemma Number_token (s : string) (d : Decimal) :
  Number_ s = Finite d -> noWhiteSpace (trim s) = true.
Proof.
  unfold Number_. destruct (isEmpty (trim s)) eqn:E.
  - apply isEmpty_true in E. rewrite E. reflexivity.
  - destruct (readNonDecimal (trim s)) eqn:R.
    + intros _. exact (readNonDecimal_token _ _ R).
    + apply readStrDecimal_token.
Qed.

(** A value is stored as a number only when its trimmed text is a single
    token: a text with white space inside is kept as text, since [Number]
    reads the whole string. *)
Theorem coerceNumber_number_is_one_token (v : string) (d : Decimal) :
  coerceNumber v = VNum d -> noWhiteSpace (trim v) = true.
Proof.
  unfold coerceNumber. destruct (String.eqb (trim v) ""); [discriminate|].
  destruct (Number_ (trim v)) as [| neg | d'] eqn:N; try discriminate.
  intros _. rewrite <- (trim_idempotent v). exact (Number_token _ _ N).
Qed.

Lemma coerceNumber_number_is_one_token_witness :
  noWhiteSpace (trim " -2.5e3 ") = true.
Proof.
  apply (coerceNumber_number_is_one_token " -2.5e3 "
           {| mantissa := -25; exponent := 2 |}).
  vm_compute. reflexivity.
Defined.
